(** * Cosa VWI (Virtual Wire Interface): a shallow embedding of Cosa/VWI.cpp

    The file follows the source top-down: the symbol codec and the frame
    checksum, the timer calculator, the Receiver (software PLL and [recv]),
    the Transmitter ([begin], [send]) and the timer interrupt handler that
    drives both.  Machine integers are [Z] with the wrap-around of their C
    type written out.

    The class declaration (Cosa/VWI.hh) is not among the sources.  Its
    constants (RAMP_MAX, MESSAGE_MAX, PAYLOAD_MAX, ...) are section
    variables.  Its member fields are taken as 8-bit unsigned, the width of
    the locals they are assigned to and from in VWI.cpp ([rxlen], [data],
    [count], [ix]), except [m_bits], which holds the 12-bit window together
    with the constant 0x800 and is taken as 16-bit.

    [VWI::begin] is modelled on the registers of timer 1.  The constructors
    only register the object with the interrupt handler; the [System]
    record holds what they leave.  [Receiver::await] is not modelled: its
    loop reads [m_done] and [RTC::millis] while the interrupts change
    them, and its result is a further read of [m_done].  [recv] runs with
    the timer interrupt enabled; [Receiver.recv] is the call that no tick
    cuts into, and [recv_interrupted] the call with ticks between its
    statements.

    After the theorems on single functions, the second part proves
    properties of the code at work: the wait and the output of the
    Transmitter, the clock recovery and the framing of the Receiver taken
    apart, and a message on its way from [send] to [recv]. *)

From Stdlib Require Import ZArith List Bool Lia.
From stdpp Require Import base list.
Import ListNotations.

Local Open Scope Z_scope.

(** ** Machine integers *)

Definition wrap8 (z : Z) : Z := z mod 2 ^ 8.
Definition wrap16 (z : Z) : Z := z mod 2 ^ 16.

Definition lo8 (w : Z) : Z := Z.land w 0xff.
Definition hi8 (w : Z) : Z := Z.shiftr w 8.

(** Reading [a[i]] of a byte array; the index is a C unsigned value. *)
Definition rd (a : list Z) (i : Z) : Z := nth (Z.to_nat i) a 0.

(** Writing [a[i] = v].  A store past the end of the array is undefined
    behaviour in C; the model leaves the array as it is. *)
Definition wr (a : list Z) (i : Z) (v : Z) : list Z := <[Z.to_nat i := v]> a.

(** [memcpy(dst, src, n)]: the first [n] bytes of [dst] become the first [n]
    bytes of [src]. *)
Definition memcpy (dst src : list Z) (n : Z) : list Z :=
  firstn (Z.to_nat n) src ++ skipn (Z.to_nat n) dst.

(** ** Symbol codec *)

(** [VWI::symbols]: 4 bit to 6 bit symbol table. *)
Definition symbols : list Z :=
  [ 0xd;  0xe;  0x13; 0x15; 0x16; 0x19; 0x1a; 0x1c;
    0x23; 0x25; 0x26; 0x29; 0x2a; 0x2c; 0x32; 0x34 ].

(** The loop of [VWI::symbol_6to4], from index [i] over the rest of the
    table. *)
Fixpoint symbol_6to4_from (tbl : list Z) (i : Z) (symbol : Z) : Z :=
  match tbl with
  | [] => 0
  | s :: tbl' => if symbol =? s then i else symbol_6to4_from tbl' (i + 1) symbol
  end.

(** [VWI::symbol_6to4]. *)
Definition symbol_6to4 (symbol : Z) : Z := symbol_6to4_from symbols 0 symbol.

(** ** Frame checksum *)

(** Modelled from the spec: [_crc_ccitt_update] of avr-libc's <util/crc16.h>
    is not part of the repository.  The spec names it the incremental 16-bit
    CRC with the CCITT polynomial; the definition is the C function that the
    avr-libc manual gives as the equivalent of its assembly:
<<
    data ^= lo8 (crc);
    data ^= data << 4;
    return ((((uint16_t)data << 8) | hi8 (crc)) ^ (uint8_t)(data >> 4)
            ^ ((uint16_t)data << 3));
>> *)
Definition _crc_ccitt_update (crc data : Z) : Z :=
  let data := Z.lxor data (lo8 crc) in
  let data := wrap8 (Z.lxor data (Z.shiftl data 4)) in
  Z.lxor
    (Z.lxor (Z.lor (wrap16 (Z.shiftl data 8)) (hi8 crc))
            (wrap8 (Z.shiftr data 4)))
    (wrap16 (Z.shiftl data 3)).

(** The loop of [VWI::CRC]: [count] bytes from [ptr] on.  A read past the
    end of the list yields 0, as [rd] does; the callers stay within it. *)
Fixpoint CRC_loop (crc : Z) (ptr : list Z) (count : nat) : Z :=
  match count with
  | O => crc
  | S count' =>
      match ptr with
      | [] => CRC_loop (_crc_ccitt_update crc 0) [] count'
      | b :: ptr' => CRC_loop (_crc_ccitt_update crc b) ptr' count'
      end
  end.

(** [VWI::CRC]. *)
Definition CRC (ptr : list Z) (count : Z) : Z :=
  CRC_loop 0xffff ptr (Z.to_nat count).

(** ** Timer calculator *)

Section TimerCalc.

(** [ulticks_of speed divider] stands for the tick count that one pass of
    the loop body computes, [long(bit_time / clock_time)] with
    [clock_time = 1.0 / (float(F_CPU) / float(divider))] and
    [bit_time = (1.0 / float(speed)) / 8.0].  The expression is evaluated
    in floating point and depends on the build constant F_CPU, so it is a
    parameter of the model. *)
Variable ulticks_of : Z -> Z -> Z.

(** Clock divider (prescaler) values - 0/3333: error flag *)
Definition prescalers : list Z := [0; 1; 8; 64; 256; 1024; 3333].

(** The [for] loop of [_timer_calc], entered at [prescaler] with [n]
    candidates left to try ([n = 7 - prescaler]); it yields the values of
    [prescaler] and [ulticks] on leaving the loop. *)
Fixpoint timer_loop (speed max_ticks prescaler ulticks : Z) (n : nat)
  : Z * Z :=
  match n with
  | O => (prescaler, ulticks)
  | S n' =>
      let ulticks := ulticks_of speed (rd prescalers prescaler) in
      if (ulticks >? 1) && (ulticks <? max_ticks)
      then (prescaler, ulticks)
      else timer_loop speed max_ticks (prescaler + 1) ulticks n'
  end.

(** [_timer_calc]: the pair (returned prescaler index, [*nticks]). *)
Definition _timer_calc (speed max_ticks : Z) : Z * Z :=
  if speed =? 0 then (0, 0)
  else
    let '(prescaler, ulticks) := timer_loop speed max_ticks 1 0 6 in
    if (prescaler =? 6) || (ulticks <? 2) || (ulticks >? max_ticks)
    then (0, 0)
    else (prescaler, wrap16 ulticks).

End TimerCalc.

(** The quotient [bit_time / clock_time] in exact arithmetic, truncated:
    [F_CPU / (divider * speed * 8)].  The floating-point result of the
    source agrees with it wherever the exact quotient is not within
    rounding distance of an integer. *)
Definition exact_ticks (F_CPU speed divider : Z) : Z :=
  F_CPU / (divider * speed * 8).

(** ** Receiver *)

Module Receiver.

(** The state of a [VWI::Receiver].  [m_sample] and [m_last_sample] hold
    the pin level returned by [read()]. *)
Record t : Type := mk {
  m_enabled : bool;
  m_sample : bool;
  m_last_sample : bool;
  m_pll_ramp : Z;
  m_integrator : Z;
  m_bits : Z;
  m_active : bool;
  m_bit_count : Z;
  m_length : Z;
  m_count : Z;
  m_buffer : list Z;
  m_done : bool;
  m_good : Z;
  m_bad : Z
}.

Definition set_m_sample (v : bool) (r : t) : t :=
  mk (m_enabled r) v (m_last_sample r) (m_pll_ramp r) (m_integrator r)
     (m_bits r) (m_active r) (m_bit_count r) (m_length r) (m_count r)
     (m_buffer r) (m_done r) (m_good r) (m_bad r).
Definition set_m_last_sample (v : bool) (r : t) : t :=
  mk (m_enabled r) (m_sample r) v (m_pll_ramp r) (m_integrator r)
     (m_bits r) (m_active r) (m_bit_count r) (m_length r) (m_count r)
     (m_buffer r) (m_done r) (m_good r) (m_bad r).
Definition set_m_pll_ramp (v : Z) (r : t) : t :=
  mk (m_enabled r) (m_sample r) (m_last_sample r) v (m_integrator r)
     (m_bits r) (m_active r) (m_bit_count r) (m_length r) (m_count r)
     (m_buffer r) (m_done r) (m_good r) (m_bad r).
Definition set_m_integrator (v : Z) (r : t) : t :=
  mk (m_enabled r) (m_sample r) (m_last_sample r) (m_pll_ramp r) v
     (m_bits r) (m_active r) (m_bit_count r) (m_length r) (m_count r)
     (m_buffer r) (m_done r) (m_good r) (m_bad r).
Definition set_m_bits (v : Z) (r : t) : t :=
  mk (m_enabled r) (m_sample r) (m_last_sample r) (m_pll_ramp r)
     (m_integrator r) v (m_active r) (m_bit_count r) (m_length r) (m_count r)
     (m_buffer r) (m_done r) (m_good r) (m_bad r).
Definition set_m_active (v : bool) (r : t) : t :=
  mk (m_enabled r) (m_sample r) (m_last_sample r) (m_pll_ramp r)
     (m_integrator r) (m_bits r) v (m_bit_count r) (m_length r) (m_count r)
     (m_buffer r) (m_done r) (m_good r) (m_bad r).
Definition set_m_bit_count (v : Z) (r : t) : t :=
  mk (m_enabled r) (m_sample r) (m_last_sample r) (m_pll_ramp r)
     (m_integrator r) (m_bits r) (m_active r) v (m_length r) (m_count r)
     (m_buffer r) (m_done r) (m_good r) (m_bad r).
Definition set_m_length (v : Z) (r : t) : t :=
  mk (m_enabled r) (m_sample r) (m_last_sample r) (m_pll_ramp r)
     (m_integrator r) (m_bits r) (m_active r) (m_bit_count r) v (m_count r)
     (m_buffer r) (m_done r) (m_good r) (m_bad r).
Definition set_m_count (v : Z) (r : t) : t :=
  mk (m_enabled r) (m_sample r) (m_last_sample r) (m_pll_ramp r)
     (m_integrator r) (m_bits r) (m_active r) (m_bit_count r) (m_length r) v
     (m_buffer r) (m_done r) (m_good r) (m_bad r).
Definition set_m_buffer (v : list Z) (r : t) : t :=
  mk (m_enabled r) (m_sample r) (m_last_sample r) (m_pll_ramp r)
     (m_integrator r) (m_bits r) (m_active r) (m_bit_count r) (m_length r)
     (m_count r) v (m_done r) (m_good r) (m_bad r).
Definition set_m_done (v : bool) (r : t) : t :=
  mk (m_enabled r) (m_sample r) (m_last_sample r) (m_pll_ramp r)
     (m_integrator r) (m_bits r) (m_active r) (m_bit_count r) (m_length r)
     (m_count r) (m_buffer r) v (m_good r) (m_bad r).
Definition set_m_good (v : Z) (r : t) : t :=
  mk (m_enabled r) (m_sample r) (m_last_sample r) (m_pll_ramp r)
     (m_integrator r) (m_bits r) (m_active r) (m_bit_count r) (m_length r)
     (m_count r) (m_buffer r) (m_done r) v (m_bad r).
Definition set_m_bad (v : Z) (r : t) : t :=
  mk (m_enabled r) (m_sample r) (m_last_sample r) (m_pll_ramp r)
     (m_integrator r) (m_bits r) (m_active r) (m_bit_count r) (m_length r)
     (m_count r) (m_buffer r) (m_done r) (m_good r) v.

Section PLL.

(** Constants of the class declaration. *)
Variables RAMP_MAX RAMP_TRANSITION RAMP_INC_RETARD RAMP_INC_ADVANCE : Z.
Variable MESSAGE_MAX : Z.

(** Modelled from the spec: RAMP_INC is declared in Cosa/VWI.hh, which is
    not among the sources.  The spec gives it as "the nominal per-tick
    increment (ramp max / 8)", and the comment at its use in [PLL] as
    "standard INC (== MAX/BITS samples)". *)
Definition RAMP_INC : Z := RAMP_MAX / 8.

(** The byte decoded from the 12-bit window: the 6 lsbits are the high
    nybble.  [symbol_6to4] takes a [uint8_t]. *)
Definition decode_byte (bits : Z) : Z :=
  wrap8 (Z.lor (Z.shiftl (symbol_6to4 (Z.land bits 0x3f)) 4)
               (symbol_6to4 (wrap8 (Z.shiftr bits 6)))).

(** The rest of the byte handling of [PLL] from
    [m_buffer[m_length++] = data] on, which the early [return] of the
    length check skips. *)
Definition PLL_store (data : Z) (r : t) : t :=
  let r := set_m_buffer (wr (m_buffer r) (m_length r) data) r in
  let r := set_m_length (wrap8 (m_length r + 1)) r in
  let r :=
    if m_length r >=? m_count r then
      (* Got all the bytes now *)
      let r := set_m_active false r in
      let r := set_m_good (wrap8 (m_good r + 1)) r in
      (* Better come get it before the next one starts *)
      set_m_done true r
    else r in
  set_m_bit_count 0 r.

(** The first block of [PLL]: integrate the sample and advance the ramp. *)
Definition PLL_sample (r : t) : t :=
  (* Integrate each sample *)
  let r :=
    if m_sample r then set_m_integrator (wrap8 (m_integrator r + 1)) r
    else r in
  if negb (Bool.eqb (m_sample r) (m_last_sample r)) then
    (* Transition, advance if ramp > TRANSITION otherwise retard *)
    let r :=
      set_m_pll_ramp
        (wrap8 (m_pll_ramp r +
                (if m_pll_ramp r <? RAMP_TRANSITION
                 then RAMP_INC_RETARD else RAMP_INC_ADVANCE))) r in
    set_m_last_sample (m_sample r) r
  else
    (* No transition: Advance ramp by standard INC (== MAX/BITS samples) *)
    set_m_pll_ramp (wrap8 (m_pll_ramp r + RAMP_INC)) r.

(** The head of the block [if (m_pll_ramp >= RAMP_MAX)]: shift the new bit
    into the 12-bit window, wind the ramp back, clear the integrator. *)
Definition PLL_vote (r : t) : t :=
  (* The last 12 bits are kept *)
  let r := set_m_bits (Z.shiftr (m_bits r) 1) r in
  (* If < 5 out of 8, then its declared a 0 bit, else a 1 *)
  let r :=
    if m_integrator r >=? 5 then set_m_bits (Z.lor (m_bits r) 0x800) r
    else r in
  let r := set_m_pll_ramp (wrap8 (m_pll_ramp r - RAMP_MAX)) r in
  (* Clear the integral for the next cycle *)
  set_m_integrator 0 r.

(** The rest of that block: [if (m_active) ... else if (m_bits == 0xb38)]. *)
Definition PLL_frame (r : t) : t :=
  if m_active r then
    (* We have the start symbol and now we are collecting message bits *)
    let r := set_m_bit_count (wrap8 (m_bit_count r + 1)) r in
    if m_bit_count r >=? 12 then
      let data := decode_byte (m_bits r) in
      if m_length r =? 0 then
        (* The first byte is the byte count. Check it for sensibility *)
        let r := set_m_count data r in
        if (m_count r <? 4) || (m_count r >? MESSAGE_MAX) then
          (* Stupid message length, drop the whole thing *)
          let r := set_m_active false r in
          set_m_bad (wrap8 (m_bad r + 1)) r
        else PLL_store data r
      else PLL_store data r
    else r
  (* Not in a message, see if we have a start symbol *)
  else if m_bits r =? 0xb38 then
    (* Have start symbol, start collecting message *)
    let r := set_m_active true r in
    let r := set_m_bit_count 0 r in
    let r := set_m_length 0 r in
    (* Too bad if you missed the last message *)
    set_m_done false r
  else r.

(** [VWI::Receiver::PLL]. *)
Definition PLL (r : t) : t :=
  let r := PLL_sample r in
  if m_pll_ramp r >=? RAMP_MAX then PLL_frame (PLL_vote r) else r.

End PLL.

(** What a call of [recv] leaves behind: the returned value, the Receiver,
    the caller's buffer and the caller's [*len]. *)
Record recv_out : Type := mk_recv_out {
  recv_ret : bool;
  recv_this : t;
  recv_buf : list Z;
  recv_len : Z
}.

(** [VWI::Receiver::recv].  [buf] is the caller's buffer and [len] the value
    of [*len] on entry. *)
Definition recv (r : t) (buf : list Z) (len : Z) : recv_out :=
  (* Message available? *)
  if negb (m_done r) then mk_recv_out false r buf len
  else
    (* remove bytecount and FCS *)
    let rxlen := wrap8 (m_length r - 3) in
    (* Copy message (good or bad). Skip count byte *)
    let len := if len >? rxlen then rxlen else len in
    let buf := memcpy buf (skipn 1 (m_buffer r)) len in
    (* OK, got that message thanks *)
    let r := set_m_done false r in
    (* Check the FCS, return goodness *)
    mk_recv_out (CRC (m_buffer r) (m_length r) =? 0xf0b8) r buf len.

End Receiver.

(** ** Transmitter *)

Module Transmitter.

(** The state of a [VWI::Transmitter]. *)
Record t : Type := mk {
  m_buffer : list Z;
  m_length : Z;
  m_index : Z;
  m_bit : Z;
  m_sample : Z;
  m_enabled : bool;
  m_msg_count : Z
}.

Definition set_m_buffer (v : list Z) (x : t) : t :=
  mk v (m_length x) (m_index x) (m_bit x) (m_sample x) (m_enabled x)
     (m_msg_count x).
Definition set_m_length (v : Z) (x : t) : t :=
  mk (m_buffer x) v (m_index x) (m_bit x) (m_sample x) (m_enabled x)
     (m_msg_count x).
Definition set_m_index (v : Z) (x : t) : t :=
  mk (m_buffer x) (m_length x) v (m_bit x) (m_sample x) (m_enabled x)
     (m_msg_count x).
Definition set_m_bit (v : Z) (x : t) : t :=
  mk (m_buffer x) (m_length x) (m_index x) v (m_sample x) (m_enabled x)
     (m_msg_count x).
Definition set_m_sample (v : Z) (x : t) : t :=
  mk (m_buffer x) (m_length x) (m_index x) (m_bit x) v (m_enabled x)
     (m_msg_count x).
Definition set_m_enabled (v : bool) (x : t) : t :=
  mk (m_buffer x) (m_length x) (m_index x) (m_bit x) (m_sample x) v
     (m_msg_count x).
Definition set_m_msg_count (v : Z) (x : t) : t :=
  mk (m_buffer x) (m_length x) (m_index x) (m_bit x) (m_sample x)
     (m_enabled x) v.

(** [VWI::Transmitter::header]: the training preamble and the start
    symbol. *)
Definition header : list Z :=
  [0x2a; 0x2a; 0x2a; 0x2a; 0x2a; 0x2a; 0x38; 0x2c].

(** HEADER_MAX is declared in Cosa/VWI.hh, which is not among the sources;
    it dimensions [header] and is taken as the number of entries of the
    initialiser. *)
Definition HEADER_MAX : Z := Z.of_nat (length header).

(** [VWI::Transmitter::begin]. *)
Definition begin (x : t) : bool * t :=
  let x := set_m_buffer (memcpy (m_buffer x) header HEADER_MAX) x in
  let x := set_m_index 0 x in
  let x := set_m_bit 0 x in
  let x := set_m_sample 0 x in
  let x := set_m_enabled true x in
  (true, x).

(** Modelled from the spec: [VWI::Transmitter::end] is defined in
    Cosa/VWI.hh, which is not among the sources.  The spec: "once all
    symbols are sent, disable the Transmitter and increment the sent
    counter"; the increment is in the interrupt handler, the disabling is
    [end]. *)
Definition end_ (x : t) : t := set_m_enabled false x.

(** [p[ix++] = sym] with [p = m_buffer + HEADER_MAX] and [ix] a
    [uint8_t]. *)
Definition put (sym : Z) (pix : list Z * Z) : list Z * Z :=
  let '(buf, ix) := pix in (wr buf (HEADER_MAX + ix) sym, wrap8 (ix + 1)).

(** The [for] loop of [send] over the payload bytes, entered at [i] with
    [n] bytes to go. *)
Fixpoint send_loop (bp : list Z) (i : Z) (n : nat) (crc : Z)
  (pix : list Z * Z) : Z * (list Z * Z) :=
  match n with
  | O => (crc, pix)
  | S n' =>
      let crc := _crc_ccitt_update crc (rd bp i) in
      let pix := put (rd symbols (Z.shiftr (rd bp i) 4)) pix in
      let pix := put (rd symbols (Z.land (rd bp i) 0xf)) pix in
      send_loop bp (i + 1) n' crc pix
  end.

(** The frame assembly of [send], from "Encode the message length" to the
    call of [begin], on a Transmitter that [await] has found idle. *)
Definition send_frame (x : t) (bp : list Z) (len : Z) : bool * t :=
  let pix := (m_buffer x, 0) in
  let crc := 0xffff in
  let count := wrap8 (len + 3) in
  (* Encode the message length *)
  let crc := _crc_ccitt_update crc count in
  let pix := put (rd symbols (Z.shiftr count 4)) pix in
  let pix := put (rd symbols (Z.land count 0xf)) pix in
  (* Encode the message into 6 bit symbols *)
  let '(crc, pix) := send_loop bp 0 (Z.to_nat len) crc pix in
  (* VW expects the _ones_complement_ of the CCITT CRC-16 as the FCS;
     VW sends FCS as low byte then hi byte *)
  let crc := wrap16 (Z.lnot crc) in
  let pix := put (rd symbols (Z.land (Z.shiftr crc 4) 0xf)) pix in
  let pix := put (rd symbols (Z.land crc 0xf)) pix in
  let pix := put (rd symbols (Z.land (Z.shiftr crc 12) 0xf)) pix in
  let pix := put (rd symbols (Z.land (Z.shiftr crc 8) 0xf)) pix in
  (* Total number of 6-bit symbols to send *)
  let x := set_m_buffer (fst pix) x in
  let x := set_m_length (wrap8 (snd pix + HEADER_MAX)) x in
  (* Start the low level interrupt handler sending symbols *)
  begin x.

End Transmitter.

(** ** Interrupt handler *)

(** The two file-level pointers [transmitter] and [receiver]: [None] is the
    null pointer, [Some] the object registered by its constructor. *)
Record System : Type := mk_System {
  transmitter : option Transmitter.t;
  receiver : option Receiver.t
}.

(** What a tick does to the pins, in the order in which it does it. *)
Inductive Event : Type :=
| EvRead (level : bool)     (* receiver->m_sample = receiver->read() *)
| EvTxEnd                   (* transmitter->end() *)
| EvTxWrite (value : Z)     (* transmitter->write(value) *)
| EvPLL.                    (* receiver->PLL() *)

(** The condition under which the interrupt handler samples the pin and,
    further down, runs the PLL. *)
Definition rx_gate (s : System) : bool :=
  match receiver s with
  | None => false
  | Some r =>
      Receiver.m_enabled r
      && match transmitter s with
         | None => true
         | Some x => negb (Transmitter.m_enabled x)
         end
  end.

(** The block "Do transmitter stuff first" of the interrupt handler, for a
    registered transmitter. *)
Definition tx_tick (x : Transmitter.t) : Transmitter.t * list Event :=
  let '(x, evs) :=
    if Transmitter.m_enabled x then
      (* transmitter->m_sample++ == 0 *)
      let sample := Transmitter.m_sample x in
      let x := Transmitter.set_m_sample (wrap8 (sample + 1)) x in
      if sample =? 0 then
        if Transmitter.m_index x >=? Transmitter.m_length x then
          let x := Transmitter.end_ x in
          let x :=
            Transmitter.set_m_msg_count
              (wrap8 (Transmitter.m_msg_count x + 1)) x in
          (x, [EvTxEnd])
        else
          let value :=
            Z.land (rd (Transmitter.m_buffer x) (Transmitter.m_index x))
                   (Z.shiftl 1 (Transmitter.m_bit x)) in
          let x := Transmitter.set_m_bit (wrap8 (Transmitter.m_bit x + 1)) x in
          let x :=
            if Transmitter.m_bit x >=? 6 then
              let x := Transmitter.set_m_bit 0 x in
              Transmitter.set_m_index (wrap8 (Transmitter.m_index x + 1)) x
            else x in
          (x, [EvTxWrite value])
      else (x, [])
    else (x, []) in
  let x :=
    if Transmitter.m_sample x >? 7 then Transmitter.set_m_sample 0 x
    else x in
  (x, evs).

Section Dispatch.

Variables RAMP_MAX RAMP_TRANSITION RAMP_INC_RETARD RAMP_INC_ADVANCE : Z.
Variable MESSAGE_MAX : Z.
Variable PAYLOAD_MAX : Z.

(** [ISR(TIMER1_COMPA_vect)]; [level] is what [receiver->read()] returns
    during this tick. *)
Definition ISR (level : bool) (s : System) : System * list Event :=
  (* Check if the receiver pin should be sampled *)
  let '(s, ev1) :=
    match receiver s with
    | Some r =>
        if rx_gate s
        then (mk_System (transmitter s)
                        (Some (Receiver.set_m_sample level r)),
              [EvRead level])
        else (s, [])
    | None => (s, [])
    end in
  (* Do transmitter stuff first to reduce transmitter bit jitter *)
  let '(s, ev2) :=
    match transmitter s with
    | Some x =>
        let '(x, evs) := tx_tick x in
        (mk_System (Some x) (receiver s), evs)
    | None => (s, [])
    end in
  let '(s, ev3) :=
    match receiver s with
    | Some r =>
        if rx_gate s
        then (mk_System (transmitter s)
                (Some (Receiver.PLL RAMP_MAX RAMP_TRANSITION RAMP_INC_RETARD
                         RAMP_INC_ADVANCE MESSAGE_MAX r)),
              [EvPLL])
        else (s, [])
    | None => (s, [])
    end in
  (s, ev1 ++ ev2 ++ ev3).

(** [VWI::Transmitter::await]: each turn of the loop sleeps until the next
    timer interrupt, which is what changes [m_enabled].  [fuel] bounds the
    number of interrupts waited for, and [pin n] is the level of the
    receiver pin at the [n]-th of them.  [await] and [send] are member
    functions called on the registered Transmitter ([this] is what the
    pointer [transmitter] holds); where none is registered there is no
    object to call them on, and the model returns at once. *)
Fixpoint await (fuel : nat) (pin : nat -> bool) (s : System)
  : option (System * list Event) :=
  match transmitter s with
  | None => Some (s, [])
  | Some x =>
      if Transmitter.m_enabled x then
        match fuel with
        | O => None
        | S fuel' =>
            let '(s, evs) := ISR (pin O) s in
            match await fuel' (fun n => pin (S n)) s with
            | None => None
            | Some (s, evs') => Some (s, evs ++ evs')
            end
        end
      else Some (s, [])
  end.

(** [VWI::Transmitter::send]: the size check, the wait, and then the frame
    assembly [Transmitter.send_frame], whose locals [ix], [crc], [p] and
    [count] the source initialises before the check.  The result is [None]
    when the wait outlasts [fuel] interrupts, and otherwise the returned
    value, the system and the pin events of the wait. *)
Definition send (fuel : nat) (pin : nat -> bool) (s : System)
  (buf : list Z) (len : Z) : option (bool * System * list Event) :=
  (* Check that the message is not too large *)
  if len >? PAYLOAD_MAX then Some (false, s, [])
  else
    (* Wait for transmitter to become available *)
    match await fuel pin s with
    | None => None
    | Some (s, evs) =>
        match transmitter s with
        | None => Some (false, s, evs)
        | Some x =>
            let '(ok, x) := Transmitter.send_frame x buf len in
            Some (ok, mk_System (Some x) (receiver s), evs)
        end
    end.

End Dispatch.

(** ** Definitions used in the statements *)

(** A value of type [uint8_t]. *)
Definition is_byte (b : Z) : Prop := 0 <= b < 256.

(** The two symbols that stand for one byte on the air, high nybble
    first. *)
Definition encode_byte (b : Z) : list Z :=
  [rd symbols (Z.shiftr b 4); rd symbols (Z.land b 0xf)].

(** The bytes that the receive side decodes from a run of symbols: of each
    pair the first symbol arrives first and ends up in the 6 lsbits of the
    12-bit window. *)
Fixpoint decode_symbols (syms : list Z) : list Z :=
  match syms with
  | s1 :: s2 :: rest =>
      Receiver.decode_byte (Z.lor s1 (Z.shiftl s2 6)) :: decode_symbols rest
  | _ => []
  end.

(** The frame check sequence and the frame as the claim words them: the
    CRC over the count byte followed by the payload, complemented, appended
    low byte first. *)
Definition tx_fcs (count : Z) (payload : list Z) : Z :=
  wrap16 (Z.lnot (CRC (count :: payload) (1 + Z.of_nat (length payload)))).

Definition tx_frame (payload : list Z) : list Z :=
  let count := wrap8 (Z.of_nat (length payload) + 3) in
  count :: payload ++ [lo8 (tx_fcs count payload); hi8 (tx_fcs count payload)].

(** The fields of a Transmitter hold 8-bit values. *)
Definition tx_bytes (x : Transmitter.t) : Prop :=
  is_byte (Transmitter.m_length x) /\ is_byte (Transmitter.m_index x)
  /\ is_byte (Transmitter.m_bit x) /\ is_byte (Transmitter.m_sample x).

(** The number of interrupts after which an enabled Transmitter has
    disabled itself: those up to the next sub-tick 0, then 8 for each output
    step still to come (the bits of the symbol at hand, 6 for each further
    symbol), the last of which finds the buffer exhausted. *)
Definition tx_ticks_left (x : Transmitter.t) : Z :=
  let wait :=
    if Transmitter.m_sample x =? 0 then 0
    else if Transmitter.m_sample x <=? 7 then 8 - Transmitter.m_sample x
    else 1 in
  let bits :=
    if Transmitter.m_bit x <=? 5 then 6 - Transmitter.m_bit x
    else if Transmitter.m_bit x =? 255 then 7 else 1 in
  let steps :=
    if Transmitter.m_index x >=? Transmitter.m_length x then 1
    else bits + 6 * (Transmitter.m_length x - Transmitter.m_index x - 1) + 1
  in
  wait + 8 * (steps - 1) + 1.

(** The residue test for one CRC state: feeding the complemented state,
    low byte first, ends in 0xf0b8. *)
Definition residue_ok (c : Z) : bool :=
  let f := wrap16 (Z.lnot c) in
  _crc_ccitt_update (_crc_ccitt_update c (lo8 f)) (hi8 f) =? 0xf0b8.

Definition bytes256 : list Z := map Z.of_nat (seq 0 256).

(** What can happen to a Receiver: the interrupt handler stores a sample,
    the interrupt handler runs the PLL, the foreground calls [recv].  Of a
    call of [recv] a run keeps what the call does to the Receiver, which is
    its write of [m_done], at the moment of that write.  [recv] runs with
    the timer interrupt enabled: what a call reads and computes when ticks
    fall between its statements is [recv_interrupted] below, and
    [recv_interrupted_this] shows that the Receiver it leaves is the
    Receiver after a run. *)
Inductive action : Type :=
| ASample (level : bool)
| APLL
| ARecv (buf : list Z) (len : Z).

Section Runs.

Variables RAMP_MAX RAMP_TRANSITION RAMP_INC_RETARD RAMP_INC_ADVANCE : Z.
Variable MESSAGE_MAX : Z.

Definition act (a : action) (r : Receiver.t) : Receiver.t :=
  match a with
  | ASample level => Receiver.set_m_sample level r
  | APLL =>
      Receiver.PLL RAMP_MAX RAMP_TRANSITION RAMP_INC_RETARD RAMP_INC_ADVANCE
        MESSAGE_MAX r
  | ARecv buf len => Receiver.recv_this (Receiver.recv r buf len)
  end.

Definition run (acts : list action) (r : Receiver.t) : Receiver.t :=
  fold_left (fun r a => act a r) acts r.

(** The head of the buffer holds the declared length, which is a sensible
    one. *)
Definition framed (r : Receiver.t) : Prop :=
  rd (Receiver.m_buffer r) 0 = Receiver.m_count r
  /\ 4 <= Receiver.m_count r <= MESSAGE_MAX
  /\ Receiver.m_count r < 256.

(** The framing invariant of the Receiver. *)
Definition framing_inv (r : Receiver.t) : Prop :=
  Receiver.m_buffer r <> []
  /\ (Receiver.m_done r = true ->
        Receiver.m_active r = false
        /\ Receiver.m_length r = Receiver.m_count r
        /\ framed r)
  /\ (Receiver.m_active r = true ->
        Receiver.m_done r = false
        /\ (Receiver.m_length r = 0
            \/ (0 < Receiver.m_length r < Receiver.m_count r /\ framed r))).

End Runs.

(** The levels on the air for a run of symbols: each symbol lsb first, 6
    bits, each bit held for the 8 ticks of a bit period. *)
Definition air (syms : list Z) : list bool :=
  flat_map
    (fun sym => flat_map (fun i => repeat (Z.testbit sym i) 8)
                  [0; 1; 2; 3; 4; 5])
    syms.

(** A tick of the interrupt handler with only a Receiver at work: sample,
    then PLL. *)
Definition listen (levels : list bool) : list action :=
  flat_map (fun level => [ASample level; APLL]) levels.

Section Interrupted.

Variables RAMP_MAX RAMP_TRANSITION RAMP_INC_RETARD RAMP_INC_ADVANCE : Z.
Variable MESSAGE_MAX : Z.

(** [VWI::Receiver::recv] as it runs in the foreground, with the timer
    interrupt enabled: nothing in [recv] holds the interrupt handler off, so
    ticks can fall between its statements.  [t1] are the levels read on the
    ticks between the test of [m_done] and the read of [m_length], [t2] on
    those from there to the copy, [t3] on those from the copy to the write
    of [m_done], [t4] on those from that write to the check of the FCS.
    Only the ticks on which the handler samples and runs the PLL are listed;
    the others leave the Receiver alone.  The copy and the check are each
    taken as one step.  A call that finds [m_done] clear returns at once.
    With no tick in between this is [Receiver.recv]. *)
Definition recv_interrupted (t1 t2 t3 t4 : list bool) (r : Receiver.t)
    (buf : list Z) (len : Z) : Receiver.recv_out :=
  let run_ := run RAMP_MAX RAMP_TRANSITION RAMP_INC_RETARD RAMP_INC_ADVANCE
                MESSAGE_MAX in
  (* Message available? *)
  if negb (Receiver.m_done r) then Receiver.mk_recv_out false r buf len
  else
    let r := run_ (listen t1) r in
    (* remove bytecount and FCS *)
    let rxlen := wrap8 (Receiver.m_length r - 3) in
    (* Copy message (good or bad). Skip count byte *)
    let len := if len >? rxlen then rxlen else len in
    let r := run_ (listen t2) r in
    let buf := memcpy buf (skipn 1 (Receiver.m_buffer r)) len in
    let r := run_ (listen t3) r in
    (* OK, got that message thanks *)
    let r := Receiver.set_m_done false r in
    let r := run_ (listen t4) r in
    (* Check the FCS, return goodness *)
    Receiver.mk_recv_out
      (CRC (Receiver.m_buffer r) (Receiver.m_length r) =? 0xf0b8) r buf len.

End Interrupted.

(** ** Concrete states for the examples *)

(** A Receiver as it is before any reception, with a 30 byte buffer. *)
Definition rx_idle : Receiver.t :=
  Receiver.mk true false false 0 0 0 false 0 0 0 (repeat 0 30) false 0 0.

(** A Receiver holding the frame of payload {1, 2, 3} with the second
    payload byte damaged (2 became 7). *)
Definition rx_damaged : Receiver.t :=
  Receiver.mk true false false 0 0 0 false 0 6 6
    ([6; 1; 7; 3; 179; 236] ++ repeat 0 24) true 1 0.

(** The same with the frame intact. *)
Definition rx_intact : Receiver.t :=
  Receiver.mk true false false 0 0 0 false 0 6 6
    ([6; 1; 2; 3; 179; 236] ++ repeat 0 24) true 1 0.

(** A Receiver between frames with an unread message, one tick before the
    bit boundary that completes the start symbol 0xb38 in its window. *)
Definition rx_before_start : Receiver.t :=
  Receiver.mk true true true 140 4 0x670 false 0 6 6
    ([6; 1; 2; 3; 179; 236] ++ repeat 0 24) true 1 0.

(** An active Receiver one tick before the bit boundary that completes the
    first byte of a frame; the window will hold the symbols of the byte 6. *)
Definition rx_first_byte : Receiver.t :=
  Receiver.mk true false false 140 0 0xd1a true 11 0 0 (repeat 0 30)
    false 0 0.

(** A Transmitter at rest with a 68 symbol buffer. *)
Definition tx_idle : Transmitter.t :=
  Transmitter.mk (repeat 0 68) 0 0 0 0 false 0.

(** A Transmitter in the middle of a transmission. *)
Definition tx_busy : Transmitter.t :=
  Transmitter.mk (Transmitter.header ++ repeat 13 60) 20 3 2 5 true 0.

(** A Transmitter whose last symbol has gone out, at the sub-tick on which
    the interrupt handler notices it. *)
Definition tx_finishing : Transmitter.t :=
  Transmitter.mk (Transmitter.header ++ repeat 13 60) 20 20 0 0 true 4.

(** Both on one device: the transmission ends on this tick while the
    receiver stands by. *)
Definition sys_finishing : System :=
  mk_System (Some tx_finishing) (Some rx_idle).

(** The symbols of a frame of payload {1, 2, 3}, with header, followed by a
    bit period of silence. *)
Definition air_123 : list bool :=
  air (Transmitter.header ++ flat_map encode_byte (tx_frame [1; 2; 3]))
    ++ repeat false 8.



(** ** Further definitions used in the statements *)


(** The part of [_crc_ccitt_update] that depends on the data byte and the
    low byte of the CRC only. *)
Definition crc_mix (t : Z) : Z := _crc_ccitt_update 0 t.

(** The interrupt handler over [n] consecutive ticks, [pin k] being the
    level of the receiver pin at the [k]-th of them; the result lists the
    events tick by tick. *)
Fixpoint ISR_ticks (RAMP_MAX RAMP_TRANSITION RAMP_INC_RETARD
  RAMP_INC_ADVANCE MESSAGE_MAX : Z) (n : nat) (pin : nat -> bool)
  (s : System) : System * list (list Event) :=
  match n with
  | O => (s, [])
  | S n' =>
      let '(s1, evs) :=
        ISR RAMP_MAX RAMP_TRANSITION RAMP_INC_RETARD RAMP_INC_ADVANCE
          MESSAGE_MAX (pin O) s in
      let '(s2, rest) :=
        ISR_ticks RAMP_MAX RAMP_TRANSITION RAMP_INC_RETARD RAMP_INC_ADVANCE
          MESSAGE_MAX n' (fun k => pin (S k)) s1 in
      (s2, evs :: rest)
  end.

(** The level of the transmit pin after the events of a tick:
    [write(value)] drives it high for a non-zero value and low for zero;
    nothing else moves it. *)
Definition pin_after (lvl : bool) (evs : list Event) : bool :=
  fold_left (fun l e => match e with
                        | EvTxWrite value => negb (value =? 0)
                        | _ => l
                        end) evs lvl.

(** The level of the transmit pin tick by tick. *)
Fixpoint wire (lvl : bool) (ticks : list (list Event)) : list bool :=
  match ticks with
  | [] => []
  | evs :: rest => pin_after lvl evs :: wire (pin_after lvl evs) rest
  end.

(** The clock recovery within its bounds: the ramp below RAMP_MAX, the
    integrator no more than the ramp, the window within 12 bits. *)
Definition clock_inv (RAMP_MAX : Z) (r : Receiver.t) : Prop :=
  0 <= Receiver.m_pll_ramp r < RAMP_MAX
  /\ 0 <= Receiver.m_integrator r <= Receiver.m_pll_ramp r
  /\ 0 <= Receiver.m_bits r < 2 ^ 12.

(** ** The Receiver as clock recovery followed by framing *)

(** The clock recovery fields of a Receiver: last sample, ramp and
    integrator. *)
Definition clock : Type := bool * Z * Z.

Definition clock_of (r : Receiver.t) : clock :=
  (Receiver.m_last_sample r, Receiver.m_pll_ramp r, Receiver.m_integrator r).

(** The Receiver [r] with its sample and clock recovery fields replaced. *)
Definition with_clock (v : bool) (c : clock) (r : Receiver.t) : Receiver.t :=
  let '(la, ra, ig) := c in
  Receiver.set_m_sample v
    (Receiver.set_m_last_sample la
       (Receiver.set_m_pll_ramp ra (Receiver.set_m_integrator ig r))).

(** A Receiver with the given sample and clock recovery fields, outside a
    message and with an empty window. *)
Definition probe (v : bool) (c : clock) : Receiver.t :=
  let '(la, ra, ig) := c in
  Receiver.mk true v la ra ig 0 false 0 0 0 [] false 0 0.

(** The 12-bit window with one more bit, as [PLL] shifts it in at a bit
    boundary. *)
Definition shift1 (b : bool) (w : Z) : Z :=
  if b then Z.lor (Z.shiftr w 1) 0x800 else Z.shiftr w 1.

(** What [PLL] does at a bit boundary once the bit is decided: the window
    takes the bit, then the framing block runs. *)
Definition rx_bit (MESSAGE_MAX : Z) (b : bool) (r : Receiver.t)
  : Receiver.t :=
  Receiver.PLL_frame MESSAGE_MAX
    (Receiver.set_m_bits (shift1 b (Receiver.m_bits r)) r).

Definition rx_bits (MESSAGE_MAX : Z) (bs : list bool) (r : Receiver.t)
  : Receiver.t :=
  fold_left (fun r b => rx_bit MESSAGE_MAX b r) bs r.

(** The bits of a run of symbols in the order they are sent, and a run of
    bits with each held for the 8 ticks of a bit period. *)
Definition sym_bits (syms : list Z) : list bool :=
  flat_map (fun sym => map (Z.testbit sym) [0; 1; 2; 3; 4; 5]) syms.

Definition hold8 (bits : list bool) : list bool :=
  flat_map (fun b => repeat b 8) bits.

(** The window that holds the two symbols of byte [b]. *)
Definition win (b : Z) : Z :=
  Z.lor (rd symbols (Z.shiftr b 4)) (Z.shiftl (rd symbols (Z.land b 0xf)) 6).

(** The windows at the start of a byte of a message: the start symbol, or
    the symbols of the byte before. *)
Definition wins : list Z := 0xb38 :: map win bytes256.

(** The start symbol shows in the window with the last of the bits [bs]
    and not before. *)
Fixpoint start_at_end (w : Z) (bs : list bool) : bool :=
  match bs with
  | [] => false
  | b :: bs' =>
      match bs' with
      | [] => shift1 b w =? 0xb38
      | _ => negb (shift1 b w =? 0xb38) && start_at_end (shift1 b w) bs'
      end
  end.

(** The start symbol does not show in the window with any of the bits
    [bs]. *)
Fixpoint quiet (w : Z) (bs : list bool) : bool :=
  match bs with
  | [] => true
  | b :: bs' => negb (shift1 b w =? 0xb38) && quiet (shift1 b w) bs'
  end.

Definition clock_eqb (c c' : clock) : bool :=
  let '(la, ra, ig) := c in
  let '(la', ra', ig') := c' in
  Bool.eqb la la' && (ra =? ra') && (ig =? ig').

Fixpoint bits_eqb (a b : list bool) : bool :=
  match a, b with
  | [], [] => true
  | x :: a', y :: b' => Bool.eqb x y && bits_eqb a' b'
  | _, _ => false
  end.

Section Lock.

Variables RAMP_MAX RAMP_TRANSITION RAMP_INC_RETARD RAMP_INC_ADVANCE : Z.

(** The clock recovery of one tick, run by the code of [PLL] on a probe:
    the clock after the tick and the bit decided in it, if any. *)
Definition clock_tick (c : clock) (v : bool) : clock * list bool :=
  let r :=
    Receiver.PLL_sample RAMP_MAX RAMP_TRANSITION RAMP_INC_RETARD
      RAMP_INC_ADVANCE (probe v c) in
  if Receiver.m_pll_ramp r >=? RAMP_MAX then
    let q := Receiver.PLL_vote RAMP_MAX r in
    (clock_of q, [Z.testbit (Receiver.m_bits q) 11])
  else (clock_of r, []).

Fixpoint clock_run (levels : list bool) (c : clock) : clock * list bool :=
  match levels with
  | [] => (c, [])
  | v :: rest =>
      let '(c1, o1) := clock_tick c v in
      let '(c2, o2) := clock_run rest c1 in
      (c2, o1 ++ o2)
  end.

(** The bit that the clock has sampled but not yet decided: past
    RAMP_TRANSITION the bit period at hand belongs to the level seen
    last. *)
Definition pend (c : clock) : list bool :=
  let '(la, ra, _) := c in
  if ra >=? RAMP_TRANSITION then [la] else [].

(** From clock [c] a bit period at level [b] ends in a clock of the list
    [locked], and the bits decided are those sent, the pending one
    included. *)
Definition window_ok (locked : list clock) (c : clock) (b : bool) : bool :=
  let '(c', outs) := clock_run (repeat b 8) c in
  existsb (clock_eqb c') locked
  && bits_eqb (pend c ++ [b]) (outs ++ pend c').

(** From clock [c] the header ends in a clock of the list [locked], and of
    the bits decided, the start symbol shows with the last one and not
    before. *)
Definition header_ok (locked : list clock) (c : clock) : bool :=
  let '(c', outs) := clock_run (hold8 (sym_bits Transmitter.header)) c in
  existsb (clock_eqb c') locked && start_at_end 0 (outs ++ pend c').

(** The clock recovery locks: the header takes every clock of [starts]
    into [locked], and [locked] is closed under bit periods without a bit
    error. *)
Definition lock_check (locked starts : list clock) : bool :=
  forallb (header_ok locked) starts
  && forallb (fun c => window_ok locked c false && window_ok locked c true)
       locked.

End Lock.

(** The clocks of an idle Receiver with the constants 160, 80, 11, 29 (one
    for each of the 8 ticks of a bit period at which a message can begin),
    and the clocks it is in between the bits of a message. *)
Definition idle_clocks : list clock :=
  map (fun j => (false, 20 * j, 0)) [0; 1; 2; 3; 4; 5; 6; 7].

Definition locked_clocks : list clock :=
  [ (false, 0, 0); (true, 1, 0); (false, 2, 0); (true, 3, 0);
    (false, 4, 0); (true, 5, 0); (false, 6, 0); (true, 7, 0);
    (true, 151, 7); (true, 151, 8); (false, 152, 0); (true, 153, 7);
    (true, 153, 8); (false, 154, 0); (true, 155, 7); (true, 155, 8);
    (false, 156, 0); (true, 157, 7); (true, 157, 8); (false, 158, 0) ].

(** ** Timer set-up *)

Module VWI.

(** The sleep mode [VWI::s_mode] and the registers of timer 1 that
    [VWI::begin] writes. *)
Record timer : Type := mk_timer {
  s_mode : Z;
  TCCR1A : Z;
  TCCR1B : Z;
  OCR1A : Z;
  TIMSK1 : Z
}.

Section Begin.

Variable ulticks_of : Z -> Z -> Z.

(** The bit numbers WGM12 and OCIE1A of <avr/io.h>. *)
Variables WGM12 OCIE1A : Z.

(** [_BV(bit)] of avr-libc: [(1 << (bit))]. *)
Definition _BV (bit : Z) : Z := Z.shiftl 1 bit.

(** [VWI::begin], as compiled for the devices with timer 1 (the [#else]
    branch; the ATtiny85 branch does the same on timer 0 with a maximum of
    255 ticks). *)
Definition begin (speed mode : Z) (hw : timer) : bool * timer :=
  (* Set sleep mode *)
  let hw :=
    mk_timer mode (TCCR1A hw) (TCCR1B hw) (OCR1A hw) (TIMSK1 hw) in
  (* Figure out prescaler value and counter match value *)
  let '(prescaler, nticks) := _timer_calc ulticks_of speed 0xffff in
  if prescaler =? 0 then (false, hw)
  else
    (* Output Compare pins disconnected, and turn on CTC mode *)
    let hw := mk_timer (s_mode hw) 0 (TCCR1B hw) (OCR1A hw) (TIMSK1 hw) in
    let hw :=
      mk_timer (s_mode hw) (TCCR1A hw) (_BV WGM12) (OCR1A hw) (TIMSK1 hw) in
    (* Convert prescaler index to TCCRnB prescaler bits CS10, CS11, CS12 *)
    let hw :=
      mk_timer (s_mode hw) (TCCR1A hw) (wrap8 (Z.lor (TCCR1B hw) prescaler))
        (OCR1A hw) (TIMSK1 hw) in
    let hw :=
      mk_timer (s_mode hw) (TCCR1A hw) (TCCR1B hw) nticks (TIMSK1 hw) in
    (* Enable interrupt *)
    let hw :=
      mk_timer (s_mode hw) (TCCR1A hw) (TCCR1B hw) (OCR1A hw)
        (wrap8 (Z.lor (TIMSK1 hw) (_BV OCIE1A))) in
    (true, hw).

End Begin.

End VWI.

(** Every clock of [locked] that saw silence last is among [starts]: after
    a message the Receiver is where a next one can begin. *)
Definition starts_cover (locked starts : list clock) : bool :=
  forallb (fun c : clock =>
             implb (negb (fst (fst c))) (existsb (clock_eqb c) starts))
    locked.

(** The clocks of a Receiver with the constants 160, 80, 11, 29 on a
    silent channel: idle since it was set up, or after a message. *)
Definition silent_clocks : list clock :=
  idle_clocks
  ++ [ (false, 2, 0); (false, 4, 0); (false, 6, 0); (false, 152, 0);
       (false, 154, 0); (false, 156, 0); (false, 158, 0) ].

(** The two symbols of byte [b] as a pair, the symbols of a run of pairs,
    and the byte that the Receiver decodes from a pair of 6-bit values,
    the first of which arrived first. *)
Definition byte_pair (b : Z) : Z * Z :=
  (rd symbols (Z.shiftr b 4), rd symbols (Z.land b 0xf)).

Definition pair_syms (ps : list (Z * Z)) : list Z :=
  flat_map (fun p => [fst p; snd p]) ps.

Definition pair_byte (p : Z * Z) : Z :=
  Receiver.decode_byte (Z.lor (fst p) (Z.shiftl (snd p) 6)).

(** A pair of 6-bit values. *)
Definition is_pair (p : Z * Z) : Prop :=
  0 <= fst p < 64 /\ 0 <= snd p < 64.

(** * Theorems *)

(** ** Machine integers and arrays *)

Lemma wrap8_small z : 0 <= z < 256 -> wrap8 z = z.
Proof. intros H. unfold wrap8. apply Z.mod_small. lia. Qed.

Lemma wrap8_range z : 0 <= wrap8 z < 256.
Proof. unfold wrap8. apply Z.mod_pos_bound. lia. Qed.

Lemma wrap16_small z : 0 <= z < 65536 -> wrap16 z = z.
Proof. intros H. unfold wrap16. apply Z.mod_small. lia. Qed.

Lemma wrap16_range z : 0 <= wrap16 z < 65536.
Proof. unfold wrap16. apply Z.mod_pos_bound. lia. Qed.

Lemma in_bytes256 b : 0 <= b < 256 -> In b bytes256.
Proof.
  intros H. unfold bytes256. apply in_map_iff. exists (Z.to_nat b).
  split; [lia | apply in_seq; lia].
Qed.

Lemma lxor_below n a b :
  0 < n -> 0 <= a < 2 ^ n -> 0 <= b < 2 ^ n -> 0 <= Z.lxor a b < 2 ^ n.
Proof.
  intros Hn Ha Hb.
  assert (H0 : 0 <= Z.lxor a b) by (apply Z.lxor_nonneg; lia).
  split; [exact H0 |].
  destruct (Z.eq_dec (Z.lxor a b) 0) as [E | E]; [rewrite E; lia |].
  apply Z.log2_lt_pow2; [lia |].
  pose proof (Z.log2_lxor a b ltac:(lia) ltac:(lia)) as Hl.
  assert (Z.log2 a < n).
  { destruct (Z.eq_dec a 0) as [-> | Na]; [simpl; lia |].
    apply Z.log2_lt_pow2; lia. }
  assert (Z.log2 b < n).
  { destruct (Z.eq_dec b 0) as [-> | Nb]; [simpl; lia |].
    apply Z.log2_lt_pow2; lia. }
  lia.
Qed.

Lemma lor_below n a b :
  0 < n -> 0 <= a < 2 ^ n -> 0 <= b < 2 ^ n -> 0 <= Z.lor a b < 2 ^ n.
Proof.
  intros Hn Ha Hb.
  assert (H0 : 0 <= Z.lor a b) by (apply Z.lor_nonneg; lia).
  split; [exact H0 |].
  destruct (Z.eq_dec (Z.lor a b) 0) as [E | E]; [rewrite E; lia |].
  apply Z.log2_lt_pow2; [lia |].
  rewrite Z.log2_lor by lia.
  assert (Z.log2 a < n).
  { destruct (Z.eq_dec a 0) as [-> | Na]; [simpl; lia |].
    apply Z.log2_lt_pow2; lia. }
  assert (Z.log2 b < n).
  { destruct (Z.eq_dec b 0) as [-> | Nb]; [simpl; lia |].
    apply Z.log2_lt_pow2; lia. }
  lia.
Qed.

(** ** Symbol codec *)

Lemma symbol_6to4_from_absent tbl i s :
  ~ In s tbl -> symbol_6to4_from tbl i s = 0.
Proof.
  revert i. induction tbl as [| a tbl IH]; intros i Hs; simpl; [reflexivity |].
  destruct (Z.eqb_spec s a) as [-> | _].
  - exfalso. apply Hs. left. reflexivity.
  - apply IH. intros Hin. apply Hs. right. exact Hin.
Qed.

Lemma nibble_cases n :
  0 <= n < 16 ->
  In n [0; 1; 2; 3; 4; 5; 6; 7; 8; 9; 10; 11; 12; 13; 14; 15].
Proof.
  intros H.
  assert (E : n = Z.of_nat (Z.to_nat n)) by lia.
  assert (L : (Z.to_nat n < 16)%nat) by lia.
  rewrite E. generalize dependent (Z.to_nat n). intros m _ L.
  do 16 (destruct m as [| m]; [simpl; tauto |]). lia.
Qed.

(** C4: decoding the symbol of a nibble gives the nibble back, the table
    has no repeated entry, and a value that is not in the table decodes
    to 0. *)
Theorem symbol_6to4_inverts_symbols (n s : Z) :
  (0 <= n < 16 -> symbol_6to4 (rd symbols n) = n)
  /\ List.NoDup symbols
  /\ (~ In s symbols -> symbol_6to4 s = 0).
Proof.
  split; [| split].
  - intros Hn. apply nibble_cases in Hn. simpl in Hn.
    repeat (destruct Hn as [<- | Hn]; [reflexivity |]). contradiction.
  - unfold symbols.
    repeat (constructor; [simpl; intuition discriminate |]).
    constructor.
  - apply symbol_6to4_from_absent.
Qed.

Lemma symbol_6to4_inverts_symbols_witness :
  symbol_6to4 (rd symbols 5) = 5 /\ symbol_6to4 0x3f = 0.
Proof.
  split.
  - apply (proj1 (symbol_6to4_inverts_symbols 5 0x3f)). lia.
  - apply (proj2 (proj2 (symbol_6to4_inverts_symbols 5 0x3f))).
    simpl. intuition discriminate.
Defined.

(** ** Frame checksum *)

Lemma crc_update_range c d :
  0 <= c < 65536 -> 0 <= _crc_ccitt_update c d < 65536.
Proof.
  intros Hc. unfold _crc_ccitt_update.
  set (x := wrap8 _).
  assert (Hh : 0 <= hi8 c < 2 ^ 16).
  { unfold hi8. rewrite Z.shiftr_div_pow2 by lia. split.
    - apply Z.div_pos; lia.
    - apply Z.div_lt_upper_bound; lia. }
  pose proof (wrap16_range (Z.shiftl x 8)) as H1.
  pose proof (wrap16_range (Z.shiftl x 3)) as H2.
  pose proof (wrap8_range (Z.shiftr x 4)) as H3.
  change 65536 with (2 ^ 16) in *.
  apply lxor_below; [lia | | lia].
  apply lxor_below; [lia | | lia].
  apply lor_below; lia.
Qed.

Lemma CRC_loop_range ptr : forall n c,
  0 <= c < 65536 -> 0 <= CRC_loop c ptr n < 65536.
Proof.
  induction ptr as [| b ptr IH]; intros n.
  - induction n as [| n IHn]; intros c Hc; simpl; [exact Hc |].
    apply IHn. apply crc_update_range. exact Hc.
  - intros c Hc. destruct n as [| n]; simpl; [exact Hc |].
    apply IH. apply crc_update_range. exact Hc.
Qed.

Lemma CRC_loop_app l1 : forall l2 n c,
  CRC_loop c (l1 ++ l2) (length l1 + n) = CRC_loop (CRC_loop c l1 (length l1)) l2 n.
Proof.
  induction l1 as [| b l1 IH]; intros l2 n c; simpl; [reflexivity |].
  apply IH.
Qed.

Lemma residue_table :
  forallb (fun h => forallb (fun l => residue_ok (256 * h + l)) bytes256)
          bytes256 = true.
Proof. vm_compute. reflexivity. Qed.

Lemma residue_ok_all c : 0 <= c < 65536 -> residue_ok c = true.
Proof.
  intros Hc.
  pose proof residue_table as T.
  rewrite forallb_forall in T.
  specialize (T (c / 256)).
  assert (Hh : 0 <= c / 256 < 256).
  { split; [apply Z.div_pos; lia | apply Z.div_lt_upper_bound; lia]. }
  specialize (T (in_bytes256 _ Hh)).
  rewrite forallb_forall in T.
  specialize (T (c mod 256) (in_bytes256 _ (Z.mod_pos_bound c 256 ltac:(lia)))).
  rewrite <- Z.div_mod in T by lia. exact T.
Qed.

Lemma CRC_tx_frame payload :
  CRC (tx_frame payload) (Z.of_nat (length payload) + 3) = 0xf0b8.
Proof.
  unfold CRC, tx_frame.
  set (count := wrap8 _).
  replace (Z.to_nat (Z.of_nat (length payload) + 3))
    with (length (count :: payload) + 2)%nat by (simpl; lia).
  change (count :: payload ++ ?t) with ((count :: payload) ++ t).
  rewrite CRC_loop_app.
  unfold tx_fcs, CRC.
  replace (Z.to_nat (1 + Z.of_nat (length payload)))
    with (length (count :: payload)) by (simpl; lia).
  set (c := CRC_loop 65535 (count :: payload) _).
  assert (Hc : 0 <= c < 65536) by (apply CRC_loop_range; lia).
  pose proof (residue_ok_all c Hc) as R. unfold residue_ok in R.
  apply Z.eqb_eq in R. exact R.
Qed.

(** ** Symbols of a byte *)

Lemma decode_encode_table :
  forallb (fun b => match encode_byte b with
                    | [s1; s2] =>
                        Receiver.decode_byte (Z.lor s1 (Z.shiftl s2 6)) =? b
                    | _ => false
                    end) bytes256 = true.
Proof. vm_compute. reflexivity. Qed.

Lemma decode_encode_byte b rest :
  is_byte b ->
  decode_symbols (encode_byte b ++ rest) = b :: decode_symbols rest.
Proof.
  intros Hb. pose proof decode_encode_table as T.
  rewrite forallb_forall in T. specialize (T b (in_bytes256 b Hb)).
  unfold encode_byte in *. simpl. apply Z.eqb_eq in T. rewrite T.
  reflexivity.
Qed.

Lemma decode_encode_bytes bytes :
  Forall is_byte bytes ->
  decode_symbols (flat_map encode_byte bytes) = bytes.
Proof.
  induction 1 as [| b bytes Hb _ IH]; [reflexivity |].
  change (flat_map encode_byte (b :: bytes))
    with (encode_byte b ++ flat_map encode_byte bytes).
  rewrite decode_encode_byte by exact Hb. rewrite IH. reflexivity.
Qed.

(** ** Frame assembly in the Transmitter *)

Lemma put_at (buf0 syms : list Z) (sym : Z) :
  (8 + length syms < length buf0)%nat ->
  (length syms < 255)%nat ->
  Transmitter.put sym
    (take 8 buf0 ++ syms ++ drop (8 + length syms) buf0,
     Z.of_nat (length syms))
  = (take 8 buf0 ++ (syms ++ [sym])
       ++ drop (8 + length (syms ++ [sym])) buf0,
     Z.of_nat (length (syms ++ [sym]))).
Proof.
  intros Hlen Hk. unfold Transmitter.put, wr.
  change Transmitter.HEADER_MAX with 8.
  replace (Z.to_nat (8 + Z.of_nat (length syms)))
    with (8 + length syms)%nat by lia.
  assert (Ht : length (take 8 buf0) = 8%nat) by (rewrite length_take; lia).
  destruct (lookup_lt_is_Some_2 buf0 (8 + length syms) Hlen) as [y Hy].
  f_equal.
  - rewrite insert_app_r_alt by lia. rewrite Ht.
    rewrite insert_app_r_alt by lia.
    replace (8 + length syms - 8 - length syms)%nat with 0%nat by lia.
    rewrite (drop_S _ _ _ Hy). simpl.
    rewrite length_app. simpl. rewrite Nat.add_1_r.
    rewrite <- (app_assoc syms). reflexivity.
  - rewrite length_app. simpl. rewrite wrap8_small by lia. lia.
Qed.

Lemma rd_app_mid (pre : list Z) (b : Z) (rest : list Z) :
  rd (pre ++ b :: rest) (Z.of_nat (length pre)) = b.
Proof.
  unfold rd. rewrite Nat2Z.id. rewrite app_nth2 by lia.
  rewrite Nat.sub_diag. reflexivity.
Qed.

Lemma send_loop_at (buf0 : list Z) (rest : list Z) :
  forall (pre syms : list Z) (crc : Z),
  (8 + length syms + 2 * length rest <= length buf0)%nat ->
  (length syms + 2 * length rest <= 255)%nat ->
  Transmitter.send_loop (pre ++ rest) (Z.of_nat (length pre)) (length rest)
    crc
    (take 8 buf0 ++ syms ++ drop (8 + length syms) buf0,
     Z.of_nat (length syms))
  = (CRC_loop crc rest (length rest),
     (take 8 buf0 ++ (syms ++ flat_map encode_byte rest)
        ++ drop (8 + length (syms ++ flat_map encode_byte rest)) buf0,
      Z.of_nat (length (syms ++ flat_map encode_byte rest)))).
Proof.
  induction rest as [| b rest IH]; intros pre syms crc Hlen Hk.
  - simpl. rewrite app_nil_r. reflexivity.
  - simpl length in *. cbn [Transmitter.send_loop].
    rewrite rd_app_mid.
    rewrite put_at by lia.
    rewrite put_at by (rewrite length_app; simpl; lia).
    replace (pre ++ b :: rest) with ((pre ++ [b]) ++ rest)
      by (rewrite <- app_assoc; reflexivity).
    replace (Z.of_nat (length pre) + 1)
      with (Z.of_nat (length (pre ++ [b])))
      by (rewrite length_app; simpl; lia).
    rewrite IH by (rewrite !length_app; simpl; lia).
    cbn [CRC_loop flat_map]. unfold encode_byte at 3 5.
    rewrite <- !app_assoc. reflexivity.
Qed.

Lemma fcs_nibbles_table :
  forallb (fun h => forallb (fun l =>
      let crc := 256 * h + l in
      (Z.shiftr (lo8 crc) 4 =? Z.land (Z.shiftr crc 4) 0xf)
      && (Z.land (lo8 crc) 0xf =? Z.land crc 0xf)
      && (Z.shiftr (hi8 crc) 4 =? Z.land (Z.shiftr crc 12) 0xf)
      && (Z.land (hi8 crc) 0xf =? Z.land (Z.shiftr crc 8) 0xf)
      && (lo8 crc <? 256) && (hi8 crc <? 256)
      && (0 <=? lo8 crc) && (0 <=? hi8 crc)) bytes256) bytes256 = true.
Proof. vm_compute. reflexivity. Qed.

Lemma fcs_nibbles crc :
  0 <= crc < 65536 ->
  Z.land (Z.shiftr crc 4) 0xf = Z.shiftr (lo8 crc) 4
  /\ Z.land crc 0xf = Z.land (lo8 crc) 0xf
  /\ Z.land (Z.shiftr crc 12) 0xf = Z.shiftr (hi8 crc) 4
  /\ Z.land (Z.shiftr crc 8) 0xf = Z.land (hi8 crc) 0xf
  /\ is_byte (lo8 crc) /\ is_byte (hi8 crc).
Proof.
  intros Hc. pose proof fcs_nibbles_table as T.
  rewrite forallb_forall in T.
  assert (Hh : 0 <= crc / 256 < 256).
  { split; [apply Z.div_pos; lia | apply Z.div_lt_upper_bound; lia]. }
  specialize (T _ (in_bytes256 _ Hh)).
  rewrite forallb_forall in T.
  specialize (T _ (in_bytes256 _ (Z.mod_pos_bound crc 256 ltac:(lia)))).
  cbv zeta in T. rewrite <- Z.div_mod in T by lia.
  rewrite !andb_true_iff in T. unfold is_byte.
  repeat match goal with
         | H : _ /\ _ |- _ => destruct H
         | H : (_ =? _) = true |- _ => apply Z.eqb_eq in H
         | H : (_ <? _) = true |- _ => apply Z.ltb_lt in H
         | H : (_ <=? _) = true |- _ => apply Z.leb_le in H
         end.
  repeat split; congruence || lia.
Qed.

(** The buffer that [send] leaves to the interrupt handler: the header,
    the symbols of the frame, and behind them what was there before. *)
Lemma send_frame_buffer (x : Transmitter.t) (bp : list Z) :
  (8 + 2 * (length bp + 3) <= length (Transmitter.m_buffer x))%nat ->
  (8 + 2 * (length bp + 3) < 256)%nat ->
  Transmitter.send_frame x bp (Z.of_nat (length bp))
  = (true,
     Transmitter.mk
       (Transmitter.header ++ flat_map encode_byte (tx_frame bp)
          ++ drop (8 + 2 * (length bp + 3)) (Transmitter.m_buffer x))
       (Z.of_nat (8 + 2 * (length bp + 3))) 0 0 0 true
       (Transmitter.m_msg_count x)).
Proof.
  intros Hlen Hk. unfold Transmitter.send_frame.
  set (buf0 := Transmitter.m_buffer x) in *.
  set (count := wrap8 (Z.of_nat (length bp) + 3)).
  assert (Hs : length (flat_map encode_byte bp) = (2 * length bp)%nat).
  { clear. induction bp as [| b bp IH]; simpl; lia. }
  replace (buf0, 0)
    with (take 8 buf0 ++ [] ++ drop (8 + length (@nil Z)) buf0,
          Z.of_nat (length (@nil Z)))
    by (simpl; rewrite take_drop; reflexivity).
  rewrite put_at by (simpl; lia).
  rewrite put_at by (simpl; lia).
  rewrite Nat2Z.id.
  set (syms2 := ([] ++ [rd symbols (Z.shiftr count 4)])
                  ++ [rd symbols (Z.land count 15)]).
  assert (H2 : length syms2 = 2%nat) by reflexivity.
  pose proof (send_loop_at buf0 bp [] syms2
                (_crc_ccitt_update 65535 count)) as L.
  change ([] ++ bp) with bp in L.
  change (Z.of_nat (length (@nil Z))) with 0 in L.
  rewrite L by lia. clear L.
  set (c := CRC_loop _ bp _).
  assert (Ec : c = CRC (count :: bp) (1 + Z.of_nat (length bp))).
  { unfold CRC.
    replace (Z.to_nat (1 + Z.of_nat (length bp))) with (S (length bp)) by lia.
    reflexivity. }
  assert (Hf : 0 <= wrap16 (Z.lnot c) < 65536) by apply wrap16_range.
  destruct (fcs_nibbles _ Hf) as (N1 & N2 & N3 & N4 & _ & _).
  rewrite N1, N2, N3, N4.
  do 4 (rewrite put_at
          by (rewrite ?length_app, Hs, H2; cbn [length]; lia)).
  match goal with
  | |- context [take 8 buf0 ++ ?S ++ drop (8 + length ?S) buf0] =>
      set (SYMS := S)
  end.
  assert (ES : SYMS = flat_map encode_byte (tx_frame bp)).
  { subst SYMS syms2. unfold tx_frame. fold count.
    unfold tx_fcs. rewrite <- Ec.
    change (flat_map encode_byte (count :: ?l))
      with (encode_byte count ++ flat_map encode_byte l).
    rewrite flat_map_app. unfold encode_byte at 1.
    cbn [flat_map]. unfold encode_byte at 2 3.
    rewrite <- !app_assoc. reflexivity. }
  assert (HS : length SYMS = (2 * (length bp + 3))%nat).
  { subst SYMS. rewrite !length_app, Hs, H2. cbn [length]. lia. }
  unfold Transmitter.begin. cbv zeta. cbn [fst snd].
  unfold Transmitter.set_m_enabled, Transmitter.set_m_sample,
    Transmitter.set_m_bit, Transmitter.set_m_index,
    Transmitter.set_m_buffer, Transmitter.set_m_length.
  cbn [Transmitter.m_buffer Transmitter.m_length Transmitter.m_index
       Transmitter.m_bit Transmitter.m_sample Transmitter.m_enabled
       Transmitter.m_msg_count].
  f_equal. f_equal.
  - unfold memcpy. change (Z.to_nat Transmitter.HEADER_MAX) with 8%nat.
    change (take 8 Transmitter.header) with Transmitter.header.
    rewrite drop_app_length' by (rewrite length_take; lia).
    rewrite HS, ES. reflexivity.
  - rewrite HS. change Transmitter.HEADER_MAX with 8.
    rewrite wrap8_small by lia. lia.
Qed.

Lemma tx_frame_bytes (bp : list Z) : Forall is_byte bp -> Forall is_byte (tx_frame bp).
Proof.
  intros Hb. unfold tx_frame. constructor.
  - apply wrap8_range.
  - apply Forall_app. split; [exact Hb |].
    set (f := tx_fcs _ _).
    assert (Hf : 0 <= f < 65536) by apply wrap16_range.
    destruct (fcs_nibbles f Hf) as (_ & _ & _ & _ & Hlo & Hhi).
    constructor; [exact Hlo |]. constructor; [exact Hhi |]. constructor.
Qed.

Lemma tx_frame_symbols_length (bp : list Z) :
  length (flat_map encode_byte (tx_frame bp)) = (2 * (length bp + 3))%nat.
Proof.
  assert (H : forall l, length (flat_map encode_byte l) = (2 * length l)%nat).
  { induction l as [| b l IH]; simpl; lia. }
  rewrite H. unfold tx_frame. simpl. rewrite length_app. simpl. lia.
Qed.

(** ** Receiver: the PLL step *)

Ltac rx_fields :=
  cbn [Receiver.set_m_sample Receiver.set_m_last_sample
       Receiver.set_m_pll_ramp Receiver.set_m_integrator Receiver.set_m_bits
       Receiver.set_m_active Receiver.set_m_bit_count Receiver.set_m_length
       Receiver.set_m_count Receiver.set_m_buffer Receiver.set_m_done
       Receiver.set_m_good Receiver.set_m_bad
       Receiver.m_enabled Receiver.m_sample Receiver.m_last_sample
       Receiver.m_pll_ramp Receiver.m_integrator Receiver.m_bits
       Receiver.m_active Receiver.m_bit_count Receiver.m_length
       Receiver.m_count Receiver.m_buffer Receiver.m_done Receiver.m_good
       Receiver.m_bad] in *.

Lemma window_shift (bits : Z) (one : bool) :
  0 <= bits < 2 ^ 12 ->
  let bits' := if one then Z.lor (Z.shiftr bits 1) 0x800
               else Z.shiftr bits 1 in
  0 <= bits' < 2 ^ 12
  /\ Z.testbit bits' 11 = one
  /\ (forall i, 0 <= i < 11 -> Z.testbit bits' i = Z.testbit bits (i + 1)).
Proof.
  intros Hb.
  assert (Hs : 0 <= Z.shiftr bits 1 < 2 ^ 11).
  { rewrite Z.shiftr_div_pow2 by lia. split.
    - apply Z.div_pos; lia.
    - apply Z.div_lt_upper_bound; lia. }
  assert (Ht : Z.testbit (Z.shiftr bits 1) 11 = false).
  { destruct (Z.eq_dec (Z.shiftr bits 1) 0) as [E | E].
    - rewrite E. apply Z.bits_0.
    - apply Z.bits_above_log2; [lia |]. apply Z.log2_lt_pow2; lia. }
  destruct one; cbv zeta.
  - split; [| split].
    + change (2 ^ 12) with (2 ^ 12) in *.
      apply lor_below; [lia | lia | lia].
    + rewrite Z.lor_spec, Ht. reflexivity.
    + intros i Hi. rewrite Z.lor_spec, Z.shiftr_spec by lia.
      change 2048 with (2 ^ 11). rewrite Z.pow2_bits_false by lia.
      apply orb_false_r.
  - split; [lia | split; [exact Ht |]].
    intros i Hi. apply Z.shiftr_spec. lia.
Qed.

Section ReceiverFacts.

Variables RAMP_MAX RAMP_TRANSITION RAMP_INC_RETARD RAMP_INC_ADVANCE : Z.
Variable MESSAGE_MAX : Z.

Local Abbreviation PLL_sample_ :=
  (Receiver.PLL_sample RAMP_MAX RAMP_TRANSITION RAMP_INC_RETARD
     RAMP_INC_ADVANCE).
Local Abbreviation PLL_vote_ := (Receiver.PLL_vote RAMP_MAX).
Local Abbreviation PLL_frame_ := (Receiver.PLL_frame MESSAGE_MAX).
Local Abbreviation PLL_ :=
  (Receiver.PLL RAMP_MAX RAMP_TRANSITION RAMP_INC_RETARD RAMP_INC_ADVANCE
     MESSAGE_MAX).

(** The framing part of the step leaves the clock recovery alone. *)
Lemma PLL_frame_clock (r : Receiver.t) :
  Receiver.m_pll_ramp (PLL_frame_ r) = Receiver.m_pll_ramp r
  /\ Receiver.m_integrator (PLL_frame_ r) = Receiver.m_integrator r
  /\ Receiver.m_bits (PLL_frame_ r) = Receiver.m_bits r
  /\ Receiver.m_sample (PLL_frame_ r) = Receiver.m_sample r
  /\ Receiver.m_last_sample (PLL_frame_ r) = Receiver.m_last_sample r
  /\ Receiver.m_enabled (PLL_frame_ r) = Receiver.m_enabled r.
Proof.
  unfold Receiver.PLL_frame, Receiver.PLL_store.
  destruct r as [en sa la ra ig bi ac bc le co bu dn gd bd]. rx_fields.
  repeat case_match; rx_fields; repeat split; reflexivity.
Qed.

(** The step leaves the sample where it is and remembers it as the last
    sample, whether or not it was a transition. *)
Lemma PLL_last_sample (r : Receiver.t) :
  Receiver.m_last_sample (PLL_ r) = Receiver.m_sample r
  /\ Receiver.m_sample (PLL_ r) = Receiver.m_sample r.
Proof.
  assert (S : Receiver.m_last_sample (PLL_sample_ r) = Receiver.m_sample r
              /\ Receiver.m_sample (PLL_sample_ r) = Receiver.m_sample r).
  { unfold Receiver.PLL_sample.
    destruct r as [en sa la ra ig bi ac bc le co bu dn gd bd].
    cbv zeta. rx_fields.
    destruct sa, la; rx_fields; cbn [Bool.eqb negb]; rx_fields;
      try destruct (ra <? RAMP_TRANSITION); rx_fields; split; reflexivity. }
  assert (V : forall q,
            Receiver.m_last_sample (PLL_vote_ q) = Receiver.m_last_sample q
            /\ Receiver.m_sample (PLL_vote_ q) = Receiver.m_sample q).
  { intros q. unfold Receiver.PLL_vote.
    destruct q as [en sa la ra ig bi ac bc le co bu dn gd bd].
    cbv zeta. rx_fields.
    destruct (ig >=? 5); rx_fields; split; reflexivity. }
  unfold Receiver.PLL.
  destruct (PLL_frame_clock (PLL_vote_ (PLL_sample_ r)))
    as (_ & _ & _ & Fs & Fl & _).
  destruct (V (PLL_sample_ r)) as [Vl Vs]. destruct S as [Sl Ss].
  destruct (_ >=? RAMP_MAX); [rewrite Fs, Fl, Vl, Vs |]; auto.
Qed.

(** C6: on a tick the ramp advances by the retard increment on a transition
    seen below RAMP_TRANSITION, by the advance increment on a later
    transition, and by RAMP_MAX / 8 without a transition; a transition is a
    sample that differs from the last sample, and after the tick the last
    sample is the sample of this tick, so that the next tick compares with
    it.  If the ramp stays below RAMP_MAX the window is untouched.
    Otherwise the window is shifted right by one and its bit 11 is 1
    exactly when the integrator, with the sample of this tick, counts 5 or
    more (so 5 gives 1 and 4 gives 0), RAMP_MAX is taken off the ramp and
    the integrator is cleared. *)
Theorem PLL_ramp_and_majority_vote (r : Receiver.t) :
  0 <= Receiver.m_pll_ramp r < RAMP_MAX ->
  0 <= RAMP_INC_RETARD -> RAMP_MAX + RAMP_INC_RETARD <= 256 ->
  0 <= RAMP_INC_ADVANCE -> RAMP_MAX + RAMP_INC_ADVANCE <= 256 ->
  RAMP_MAX + RAMP_MAX / 8 <= 256 ->
  0 <= Receiver.m_integrator r < 255 ->
  0 <= Receiver.m_bits r < 2 ^ 12 ->
  let inc :=
    if negb (Bool.eqb (Receiver.m_sample r) (Receiver.m_last_sample r))
    then if Receiver.m_pll_ramp r <? RAMP_TRANSITION
         then RAMP_INC_RETARD else RAMP_INC_ADVANCE
    else RAMP_MAX / 8 in
  let high :=
    Receiver.m_integrator r + (if Receiver.m_sample r then 1 else 0) in
  let r' := PLL_ r in
  (Receiver.m_pll_ramp r + inc < RAMP_MAX ->
     Receiver.m_pll_ramp r' = Receiver.m_pll_ramp r + inc
     /\ Receiver.m_bits r' = Receiver.m_bits r
     /\ Receiver.m_integrator r' = high)
  /\ (RAMP_MAX <= Receiver.m_pll_ramp r + inc ->
     Receiver.m_pll_ramp r' = Receiver.m_pll_ramp r + inc - RAMP_MAX
     /\ Receiver.m_bits r'
        = (if 5 <=? high then Z.lor (Z.shiftr (Receiver.m_bits r) 1) 0x800
           else Z.shiftr (Receiver.m_bits r) 1)
     /\ 0 <= Receiver.m_bits r' < 2 ^ 12
     /\ Z.testbit (Receiver.m_bits r') 11 = (5 <=? high)
     /\ (high = 5 -> Z.testbit (Receiver.m_bits r') 11 = true)
     /\ (high = 4 -> Z.testbit (Receiver.m_bits r') 11 = false)
     /\ (forall i, 0 <= i < 11 ->
           Z.testbit (Receiver.m_bits r') i
           = Z.testbit (Receiver.m_bits r) (i + 1))
     /\ Receiver.m_integrator r' = 0)
  /\ Receiver.m_last_sample r' = Receiver.m_sample r
  /\ Receiver.m_sample r' = Receiver.m_sample r.
Proof.
  intros Hramp Hr0 Hr1 Ha0 Ha1 Hi1 Hint Hbits inc high r'.
  match goal with
  | |- ?A /\ ?B /\ _ =>
      enough (M : A /\ B)
        by (destruct M; pose proof (PLL_last_sample r) as []; auto)
  end.
  assert (Hq : 0 <= RAMP_MAX / 8) by (apply Z.div_pos; lia).
  assert (Hinc : 0 <= inc /\ RAMP_MAX + inc <= 256).
  { subst inc. repeat case_match; lia. }
  set (r1 := PLL_sample_ r).
  assert (S1 : Receiver.m_pll_ramp r1 = Receiver.m_pll_ramp r + inc
               /\ Receiver.m_integrator r1 = high
               /\ Receiver.m_bits r1 = Receiver.m_bits r).
  { subst r1 inc high. unfold Receiver.PLL_sample, Receiver.RAMP_INC.
    destruct r as [en sa la ra ig bi ac bc le co bu dn gd bd]. rx_fields.
    destruct sa, la; rx_fields; cbn [Bool.eqb negb];
      repeat case_match; rx_fields;
      rewrite ?wrap8_small by lia; repeat split; lia. }
  destruct S1 as (Sr & Si & Sb).
  destruct (PLL_frame_clock (PLL_vote_ r1)) as (Fr & Fi & Fb & _).
  subst r'. unfold Receiver.PLL. fold r1. split.
  - intros Hlt. destruct (Z.geb_spec (Receiver.m_pll_ramp r1) RAMP_MAX);
      [lia |]. auto.
  - intros Hge. destruct (Z.geb_spec (Receiver.m_pll_ramp r1) RAMP_MAX);
      [| lia].
    rewrite Fr, Fi, Fb.
    assert (V : Receiver.m_pll_ramp (PLL_vote_ r1)
                = Receiver.m_pll_ramp r + inc - RAMP_MAX
                /\ Receiver.m_integrator (PLL_vote_ r1) = 0
                /\ Receiver.m_bits (PLL_vote_ r1)
                   = (if 5 <=? high
                      then Z.lor (Z.shiftr (Receiver.m_bits r) 1) 0x800
                      else Z.shiftr (Receiver.m_bits r) 1)).
    { unfold Receiver.PLL_vote. rx_fields. rewrite Si, Sb.
      replace (high >=? 5) with (5 <=? high) by (rewrite Z.geb_leb; reflexivity).
      destruct (5 <=? high); rx_fields; rewrite Sr;
        rewrite wrap8_small by lia; auto. }
    destruct V as (Vr & Vi & Vb). rewrite Vr, Vi, Vb.
    destruct (window_shift (Receiver.m_bits r) (5 <=? high) Hbits)
      as (W1 & W2 & W3).
    repeat split; try assumption; try apply W1.
    + intros ->. rewrite W2. reflexivity.
    + intros ->. rewrite W2. reflexivity.
Qed.

(** The clock recovery part of the step leaves the framing state alone. *)
Lemma PLL_clock_frame (r : Receiver.t) :
  let r1 := PLL_vote_ (PLL_sample_ r) in
  Receiver.m_active r1 = Receiver.m_active r
  /\ Receiver.m_bit_count r1 = Receiver.m_bit_count r
  /\ Receiver.m_length r1 = Receiver.m_length r
  /\ Receiver.m_count r1 = Receiver.m_count r
  /\ Receiver.m_buffer r1 = Receiver.m_buffer r
  /\ Receiver.m_done r1 = Receiver.m_done r
  /\ Receiver.m_good r1 = Receiver.m_good r
  /\ Receiver.m_bad r1 = Receiver.m_bad r.
Proof.
  unfold Receiver.PLL_vote, Receiver.PLL_sample.
  destruct r as [en sa la ra ig bi ac bc le co bu dn gd bd]. rx_fields.
  repeat case_match; rx_fields; repeat split; reflexivity.
Qed.

Lemma PLL_sample_frame (r : Receiver.t) :
  let r1 := PLL_sample_ r in
  Receiver.m_active r1 = Receiver.m_active r
  /\ Receiver.m_bit_count r1 = Receiver.m_bit_count r
  /\ Receiver.m_length r1 = Receiver.m_length r
  /\ Receiver.m_count r1 = Receiver.m_count r
  /\ Receiver.m_buffer r1 = Receiver.m_buffer r
  /\ Receiver.m_done r1 = Receiver.m_done r
  /\ Receiver.m_good r1 = Receiver.m_good r
  /\ Receiver.m_bad r1 = Receiver.m_bad r.
Proof.
  unfold Receiver.PLL_sample.
  destruct r as [en sa la ra ig bi ac bc le co bu dn gd bd]. rx_fields.
  repeat case_match; rx_fields; repeat split; reflexivity.
Qed.

Lemma decode_byte_range (bits : Z) : 0 <= Receiver.decode_byte bits < 256.
Proof. unfold Receiver.decode_byte. apply wrap8_range. Qed.

(** Only a step taken in the active state sets the done flag. *)
Lemma PLL_inactive_not_done (q : Receiver.t) :
  Receiver.m_active q = false ->
  Receiver.m_done q = false ->
  Receiver.m_done (PLL_ q) = false.
Proof.
  intros Ha Hd. unfold Receiver.PLL.
  destruct (PLL_sample_frame q) as (Sa & _ & _ & _ & _ & Sd & _).
  destruct (PLL_clock_frame q) as (Ea & _ & _ & _ & _ & Ed & _).
  destruct (_ >=? RAMP_MAX); [| congruence].
  unfold Receiver.PLL_frame. rewrite Ea, Ha.
  destruct (_ =? 2872); [reflexivity | congruence].
Qed.

(** C3: at a bit boundary that completes a byte of an active frame, with
    [data] the byte decoded from the window.  If it is the first byte of the
    frame ([m_length] is 0) and lies outside [4, MESSAGE_MAX], the frame is
    dropped: not active any more, the bad counter up by one, and neither
    the done flag nor the buffer, the length or the good counter touched.
    If it lies in [4, MESSAGE_MAX] it becomes the declared length [m_count]
    and is stored as the first byte.  A later byte is appended; when that
    brings the length up to the declared length the done flag is set, the
    active flag cleared and the good counter goes up by one, and otherwise
    the frame stays active.  A Receiver that is not active, as it is after
    a drop, does not get its done flag set by any step. *)
Theorem PLL_declared_length (r : Receiver.t) :
  let data :=
    Receiver.decode_byte (Receiver.m_bits (PLL_vote_ (PLL_sample_ r))) in
  let r' := PLL_ r in
  RAMP_MAX <= Receiver.m_pll_ramp (PLL_sample_ r) ->
  Receiver.m_active r = true ->
  11 <= Receiver.m_bit_count r < 255 ->
  (Receiver.m_length r = 0 ->
     (data < 4 \/ MESSAGE_MAX < data ->
        Receiver.m_active r' = false
        /\ Receiver.m_bad r' = wrap8 (Receiver.m_bad r + 1)
        /\ Receiver.m_done r' = Receiver.m_done r
        /\ Receiver.m_good r' = Receiver.m_good r
        /\ Receiver.m_buffer r' = Receiver.m_buffer r
        /\ Receiver.m_length r' = 0)
     /\ (4 <= data <= MESSAGE_MAX ->
        Receiver.m_count r' = data
        /\ Receiver.m_active r' = true
        /\ Receiver.m_buffer r' = wr (Receiver.m_buffer r) 0 data
        /\ Receiver.m_length r' = 1
        /\ Receiver.m_done r' = Receiver.m_done r
        /\ Receiver.m_good r' = Receiver.m_good r
        /\ Receiver.m_bad r' = Receiver.m_bad r))
  /\ (0 < Receiver.m_length r < 255 ->
        Receiver.m_buffer r'
        = wr (Receiver.m_buffer r) (Receiver.m_length r) data
        /\ Receiver.m_length r' = Receiver.m_length r + 1
        /\ Receiver.m_count r' = Receiver.m_count r
        /\ Receiver.m_bad r' = Receiver.m_bad r
        /\ (Receiver.m_count r <= Receiver.m_length r + 1 ->
              Receiver.m_done r' = true
              /\ Receiver.m_active r' = false
              /\ Receiver.m_good r' = wrap8 (Receiver.m_good r + 1))
        /\ (Receiver.m_length r + 1 < Receiver.m_count r ->
              Receiver.m_done r' = Receiver.m_done r
              /\ Receiver.m_active r' = true
              /\ Receiver.m_good r' = Receiver.m_good r))
  /\ (forall q, Receiver.m_active q = false -> Receiver.m_done q = false ->
                Receiver.m_done (PLL_ q) = false).
Proof.
  intros data r' Hdue Hact Hbc.
  match goal with
  | |- ?A /\ ?B /\ _ =>
      enough (M : A /\ B)
        by (destruct M; auto using PLL_inactive_not_done)
  end.
  destruct (PLL_clock_frame r) as (Ea & Eb & El & Ec & Eu & Ed & Eg & Ebad).
  pose proof (decode_byte_range
                (Receiver.m_bits (PLL_vote_ (PLL_sample_ r)))) as Hdata.
  fold data in Hdata.
  subst r'. unfold Receiver.PLL.
  destruct (Z.geb_spec (Receiver.m_pll_ramp (PLL_sample_ r)) RAMP_MAX);
    [| lia].
  set (r1 := PLL_vote_ (PLL_sample_ r)) in *.
  unfold Receiver.PLL_frame. rewrite Ea, Hact. rx_fields.
  rewrite Eb, El. rewrite (wrap8_small (Receiver.m_bit_count r + 1)) by lia.
  destruct (Z.geb_spec (Receiver.m_bit_count r + 1) 12); [| lia].
  fold data. split.
  - intros L0. rewrite L0. cbn [Z.eqb]. split.
    + intros Hbad.
      destruct (Z.ltb_spec data 4); destruct (Z.gtb_spec data MESSAGE_MAX);
        cbn [orb]; try lia; rx_fields;
        rewrite ?Ebad, ?Ed, ?Eg, ?Eu, ?El; repeat split; auto.
    + intros Hok.
      destruct (Z.ltb_spec data 4); destruct (Z.gtb_spec data MESSAGE_MAX);
        cbn [orb]; try lia.
      unfold Receiver.PLL_store. rx_fields. rewrite El, ?L0.
      change (wrap8 (0 + 1)) with 1.
      destruct (Z.geb_spec 1 data); [lia |]. rx_fields.
      rewrite ?Ea, ?Eu, ?Ed, ?Eg, ?Ebad, ?L0. repeat split; auto.
  - intros Hl. destruct (Z.eqb_spec (Receiver.m_length r) 0); [lia |].
    unfold Receiver.PLL_store. rx_fields. rewrite El, Ec, Eu.
    rewrite (wrap8_small (Receiver.m_length r + 1)) by lia.
    destruct (Z.geb_spec (Receiver.m_length r + 1) (Receiver.m_count r));
      rx_fields; rewrite ?Ec, ?Ebad, ?Ed, ?Ea, ?Eg;
      repeat split; auto; lia.
Qed.

(** C7: at a bit boundary of a Receiver that is not active, a window equal
    to the start symbol 0xb38 makes it active with bit counter and length
    0 and the done flag cleared; whatever message was waiting is gone, and
    [recv] then returns failure, leaving the caller's buffer and length
    as they are. *)
Theorem PLL_start_symbol_discards (r : Receiver.t) (buf : list Z) (len : Z) :
  let r' := PLL_ r in
  RAMP_MAX <= Receiver.m_pll_ramp (PLL_sample_ r) ->
  Receiver.m_active r = false ->
  Receiver.m_bits (PLL_vote_ (PLL_sample_ r)) = 0xb38 ->
  Receiver.m_active r' = true
  /\ Receiver.m_bit_count r' = 0
  /\ Receiver.m_length r' = 0
  /\ Receiver.m_done r' = false
  /\ Receiver.recv r' buf len = Receiver.mk_recv_out false r' buf len.
Proof.
  intros r' Hdue Hact Hbits.
  destruct (PLL_clock_frame r) as (Ea & _).
  assert (E : r' = Receiver.set_m_done false
                     (Receiver.set_m_length 0
                        (Receiver.set_m_bit_count 0
                           (Receiver.set_m_active true
                              (PLL_vote_ (PLL_sample_ r)))))).
  { subst r'. unfold Receiver.PLL.
    destruct (Z.geb_spec (Receiver.m_pll_ramp (PLL_sample_ r)) RAMP_MAX);
      [| lia].
    unfold Receiver.PLL_frame. rewrite Ea, Hact, Hbits. reflexivity. }
  assert (D : Receiver.m_done r' = false) by (rewrite E; reflexivity).
  split; [rewrite E; reflexivity |].
  split; [rewrite E; reflexivity |].
  split; [rewrite E; reflexivity |].
  split; [exact D |].
  unfold Receiver.recv. rewrite D. reflexivity.
Qed.

End ReceiverFacts.

(** Closed arithmetic facts about concrete states, by evaluation. *)
Ltac by_evaluation :=
  vm_compute; repeat split; (reflexivity || (intros; discriminate)).

Lemma PLL_ramp_and_majority_vote_witness :
  0 <= Receiver.m_pll_ramp rx_before_start < 160
  /\ Receiver.m_pll_ramp (Receiver.PLL 160 80 11 29 30 rx_before_start) = 0
  /\ Z.testbit
       (Receiver.m_bits (Receiver.PLL 160 80 11 29 30 rx_before_start)) 11
     = true
  /\ Receiver.m_last_sample (Receiver.PLL 160 80 11 29 30 rx_before_start)
     = Receiver.m_sample rx_before_start.
Proof.
  pose proof (PLL_ramp_and_majority_vote 160 80 11 29 30 rx_before_start
                ltac:(by_evaluation) ltac:(by_evaluation) ltac:(by_evaluation) ltac:(by_evaluation) ltac:(by_evaluation)
                ltac:(by_evaluation) ltac:(by_evaluation) ltac:(by_evaluation)) as T.
  cbv zeta in T. destruct T as (_ & T & L & _).
  destruct T as (A & _ & _ & B & _); [by_evaluation |].
  split; [by_evaluation |]. split; [exact A |]. split; [exact B | exact L].
Defined.

Lemma PLL_declared_length_witness :
  Receiver.m_length rx_first_byte = 0
  /\ Receiver.m_count (Receiver.PLL 160 80 11 29 30 rx_first_byte) = 6
  /\ Receiver.m_length (Receiver.PLL 160 80 11 29 30 rx_first_byte) = 1.
Proof.
  pose proof (PLL_declared_length 160 80 11 29 30 rx_first_byte
                ltac:(by_evaluation) eq_refl ltac:(by_evaluation)) as T.
  cbv zeta in T. destruct T as [T _].
  destruct (T eq_refl) as [_ A].
  destruct A as (A1 & _ & _ & A2 & _); [by_evaluation |].
  split; [reflexivity |]. split; [exact A1 | exact A2].
Defined.

Lemma PLL_start_symbol_discards_witness :
  Receiver.m_done rx_before_start = true
  /\ Receiver.m_done (Receiver.PLL 160 80 11 29 30 rx_before_start) = false
  /\ Receiver.recv_ret
       (Receiver.recv (Receiver.PLL 160 80 11 29 30 rx_before_start)
          (repeat 0 10) 10) = false.
Proof.
  pose proof (PLL_start_symbol_discards 160 80 11 29 30 rx_before_start
                (repeat 0 10) 10 ltac:(by_evaluation) eq_refl eq_refl) as T.
  cbv zeta in T. destruct T as (_ & _ & _ & D & R).
  split; [reflexivity |]. split; [exact D |]. rewrite R. reflexivity.
Defined.

(** ** Receiver: [recv] *)

Lemma recv_when_done (r : Receiver.t) (buf : list Z) (len : Z) :
  Receiver.m_done r = true ->
  3 <= Receiver.m_length r < 256 ->
  0 <= len ->
  Receiver.recv r buf len
  = Receiver.mk_recv_out
      (CRC (Receiver.m_buffer r) (Receiver.m_length r) =? 0xf0b8)
      (Receiver.set_m_done false r)
      (memcpy buf (drop 1 (Receiver.m_buffer r))
         (Z.min len (Receiver.m_length r - 3)))
      (Z.min len (Receiver.m_length r - 3)).
Proof.
  intros D Hl Hlen. unfold Receiver.recv. rewrite D. cbn [negb].
  rewrite (wrap8_small (Receiver.m_length r - 3)) by lia.
  assert (E : (if len >? Receiver.m_length r - 3
               then Receiver.m_length r - 3 else len)
              = Z.min len (Receiver.m_length r - 3)).
  { destruct (Z.gtb_spec len (Receiver.m_length r - 3)); lia. }
  rewrite E. reflexivity.
Qed.

(** C1, amended: without a completed message [recv] returns false and
    leaves the Receiver, the caller's buffer and the caller's length as they
    are.  With one, it copies min(capacity, payload length) bytes of the
    payload (the buffered message without the count byte in front and the 2
    checksum bytes behind) to the front of the caller's buffer, stores that
    number as the length, clears the done flag, and returns whether the CRC
    over the whole buffered message is 0xf0b8.  The returned value is that
    check and nothing else. *)
Theorem recv_returns_fcs_check (r : Receiver.t) (buf : list Z) (len : Z) :
  let out := Receiver.recv r buf len in
  (Receiver.m_done r = false -> out = Receiver.mk_recv_out false r buf len)
  /\ (Receiver.m_done r = true ->
      3 <= Receiver.m_length r < 256 ->
      0 <= len ->
      let n := Z.min len (Receiver.m_length r - 3) in
      let payload :=
        take (Z.to_nat (Receiver.m_length r - 3))
             (drop 1 (Receiver.m_buffer r)) in
      Receiver.recv_len out = n
      /\ Receiver.recv_buf out
         = take (Z.to_nat n) payload ++ drop (Z.to_nat n) buf
      /\ Receiver.recv_this out = Receiver.set_m_done false r
      /\ Receiver.recv_ret out
         = (CRC (Receiver.m_buffer r) (Receiver.m_length r) =? 0xf0b8)).
Proof.
  cbv zeta. split.
  - unfold Receiver.recv. intros ->. reflexivity.
  - intros D Hl Hlen. rewrite (recv_when_done r buf len D Hl Hlen).
    cbn [Receiver.recv_len Receiver.recv_buf Receiver.recv_this
         Receiver.recv_ret].
    split; [reflexivity |]. split; [| split; reflexivity].
    unfold memcpy. rewrite take_take.
    replace (Z.to_nat (Z.min len (Receiver.m_length r - 3))
               `min` Z.to_nat (Receiver.m_length r - 3))%nat
      with (Z.to_nat (Z.min len (Receiver.m_length r - 3))) by lia.
    reflexivity.
Qed.

Lemma recv_returns_fcs_check_witness :
  Receiver.m_done rx_intact = true
  /\ Receiver.recv_len (Receiver.recv rx_intact (repeat 0 10) 2) = 2
  /\ Receiver.recv_buf (Receiver.recv rx_intact (repeat 0 10) 2)
     = [1; 2; 0; 0; 0; 0; 0; 0; 0; 0]
  /\ Receiver.recv_ret (Receiver.recv rx_intact (repeat 0 10) 2) = true.
Proof.
  pose proof (recv_returns_fcs_check rx_intact (repeat 0 10) 2) as T.
  cbv zeta in T. destruct T as [_ T].
  destruct T as (A & B & _ & C);
    [reflexivity | by_evaluation | by_evaluation |].
  split; [reflexivity |]. split; [exact A |]. split; [exact B | exact C].
Defined.

(** C1 as stated fails: a completed message whose checksum does not
    validate is copied out and the done flag cleared, but [recv] returns
    false, the value it also returns when there is no message. *)
Lemma recv_damaged_frame_returns_false :
  Receiver.m_done rx_damaged = true
  /\ Receiver.recv_buf (Receiver.recv rx_damaged (repeat 0 10) 10)
     = [1; 7; 3; 0; 0; 0; 0; 0; 0; 0]
  /\ Receiver.recv_len (Receiver.recv rx_damaged (repeat 0 10) 10) = 3
  /\ Receiver.m_done
       (Receiver.recv_this (Receiver.recv rx_damaged (repeat 0 10) 10))
     = false
  /\ Receiver.recv_ret (Receiver.recv rx_damaged (repeat 0 10) 10) = false.
Proof. vm_compute. repeat split; reflexivity. Qed.

(** ** Receiver: the framing invariant *)

Lemma rd_wr_same (a : list Z) (i v : Z) :
  (Z.to_nat i < length a)%nat -> rd (wr a i v) i = v.
Proof.
  intros H. unfold rd, wr. rewrite nth_lookup.
  rewrite list_lookup_insert_eq by exact H. reflexivity.
Qed.

Lemma rd_wr_other (a : list Z) (i j v : Z) :
  Z.to_nat i <> Z.to_nat j -> rd (wr a i v) j = rd a j.
Proof.
  intros H. unfold rd, wr. rewrite !nth_lookup.
  rewrite list_lookup_insert_ne by exact H. reflexivity.
Qed.

Lemma wr_nonempty (a : list Z) (i v : Z) : a <> [] -> wr a i v <> [].
Proof.
  intros H E. apply (f_equal length) in E. unfold wr in E.
  rewrite length_insert in E. destruct a; [congruence | discriminate].
Qed.

Lemma nonempty_length (a : list Z) : a <> [] -> (0 < length a)%nat.
Proof. destruct a; [congruence | simpl; lia]. Qed.

Section FramingInvariant.

Variables RAMP_MAX RAMP_TRANSITION RAMP_INC_RETARD RAMP_INC_ADVANCE : Z.
Variable MESSAGE_MAX : Z.

Local Abbreviation PLL_ :=
  (Receiver.PLL RAMP_MAX RAMP_TRANSITION RAMP_INC_RETARD RAMP_INC_ADVANCE
     MESSAGE_MAX).
Local Abbreviation inv_ := (framing_inv MESSAGE_MAX).
Local Abbreviation run_ :=
  (run RAMP_MAX RAMP_TRANSITION RAMP_INC_RETARD RAMP_INC_ADVANCE
     MESSAGE_MAX).
Local Abbreviation recv_int_ :=
  (recv_interrupted RAMP_MAX RAMP_TRANSITION RAMP_INC_RETARD
     RAMP_INC_ADVANCE MESSAGE_MAX).

(** The invariant reads the framing fields only. *)
Lemma framing_inv_fields (r1 r : Receiver.t) :
  Receiver.m_active r1 = Receiver.m_active r ->
  Receiver.m_length r1 = Receiver.m_length r ->
  Receiver.m_count r1 = Receiver.m_count r ->
  Receiver.m_buffer r1 = Receiver.m_buffer r ->
  Receiver.m_done r1 = Receiver.m_done r ->
  inv_ r -> inv_ r1.
Proof.
  unfold framing_inv, framed. intros -> -> -> -> ->. auto.
Qed.

Lemma framing_inv_frame (r : Receiver.t) :
  inv_ r -> inv_ (Receiver.PLL_frame MESSAGE_MAX r).
Proof.
  unfold Receiver.PLL_frame, Receiver.PLL_store.
  destruct r as [en sa la ra ig bi ac bc le co bu dn gd bd].
  unfold framing_inv, framed. rx_fields.
  pose proof (decode_byte_range bi) as Hd.
  set (data := Receiver.decode_byte bi) in *. clearbody data.
  intros (Hbuf & Hdone & Hact). destruct ac.
  - destruct (Hact eq_refl) as [-> Hfr]. clear Hact Hdone.
    destruct (wrap8 (bc + 1) >=? 12).
    + destruct (Z.eqb_spec le 0) as [-> | Hle].
      * rx_fields.
        destruct (Z.ltb_spec data 4); destruct (Z.gtb_spec data MESSAGE_MAX);
          cbn [orb]; rx_fields;
          try (split; [exact Hbuf | split; intros; discriminate]).
        change (wrap8 (0 + 1)) with 1.
        destruct (Z.geb_spec 1 data); [lia |]. rx_fields.
        split; [apply wr_nonempty, Hbuf |].
        split; [intros; discriminate |]. intros _. split; [reflexivity |].
        right. split; [lia |].
        split; [apply rd_wr_same, nonempty_length, Hbuf | lia].
      * destruct Hfr as [-> | (Hl & Hh & Hc & Hm)]; [lia |].
        rewrite (wrap8_small (le + 1)) by lia.
        assert (Hrd : rd (wr bu le data) 0 = co).
        { rewrite rd_wr_other by lia. exact Hh. }
        destruct (Z.geb_spec (le + 1) co); rx_fields.
        -- split; [apply wr_nonempty, Hbuf |].
           split; [| intros; discriminate].
           intros _. repeat split; try assumption; lia.
        -- split; [apply wr_nonempty, Hbuf |].
           split; [intros; discriminate |]. intros _.
           split; [reflexivity |]. right. repeat split; try assumption; lia.
    + rx_fields. split; [exact Hbuf |]. split; [intros; discriminate |].
      intros _. split; [reflexivity | exact Hfr].
  - destruct (bi =? 2872); rx_fields.
    + split; [exact Hbuf |]. split; [intros; discriminate |].
      intros _. split; [reflexivity | left; reflexivity].
    + split; [exact Hbuf |]. split; [exact Hdone | intros; discriminate].
Qed.

Lemma framing_inv_PLL (r : Receiver.t) : inv_ r -> inv_ (PLL_ r).
Proof.
  intros H. unfold Receiver.PLL.
  destruct (PLL_sample_frame RAMP_MAX RAMP_TRANSITION RAMP_INC_RETARD
              RAMP_INC_ADVANCE r) as (Sa & _ & Sl & Sc & Su & Sd & _).
  destruct (PLL_clock_frame RAMP_MAX RAMP_TRANSITION RAMP_INC_RETARD
              RAMP_INC_ADVANCE r) as (Ea & _ & El & Ec & Eu & Ed & _).
  destruct (_ >=? RAMP_MAX).
  - apply framing_inv_frame.
    apply (framing_inv_fields _ r); assumption.
  - apply (framing_inv_fields _ r); assumption.
Qed.

Lemma framing_inv_recv (r : Receiver.t) (buf : list Z) (len : Z) :
  inv_ r -> inv_ (Receiver.recv_this (Receiver.recv r buf len)).
Proof.
  unfold Receiver.recv. destruct (Receiver.m_done r) eqn:D; cbn [negb].
  - cbn [Receiver.recv_this]. unfold framing_inv, framed. rx_fields.
    intros (Hbuf & Hdone & Hact). rewrite D in *.
    destruct (Hdone eq_refl) as (A & _).
    split; [exact Hbuf |]. split; [intros; discriminate |].
    rewrite A. intros; discriminate.
  - cbn [Receiver.recv_this]. auto.
Qed.

Lemma framing_inv_act (a : action) (r : Receiver.t) :
  inv_ r ->
  inv_ (act RAMP_MAX RAMP_TRANSITION RAMP_INC_RETARD RAMP_INC_ADVANCE
          MESSAGE_MAX a r).
Proof.
  intros H. destruct a as [level | | buf len]; cbn [act].
  - apply (framing_inv_fields _ r); try reflexivity. exact H.
  - apply framing_inv_PLL, H.
  - apply framing_inv_recv, H.
Qed.

Lemma framing_inv_run (acts : list action) : forall r : Receiver.t,
  inv_ r -> inv_ (run_ acts r).
Proof.
  unfold run. induction acts as [| a acts IH]; intros r H; cbn [fold_left].
  - exact H.
  - apply IH, framing_inv_act, H.
Qed.

(** With no tick between its statements the interrupted [recv] is
    [Receiver.recv]. *)
Lemma recv_interrupted_alone (r : Receiver.t) (buf : list Z) (len : Z) :
  recv_int_ [] [] [] [] r buf len = Receiver.recv r buf len.
Proof. reflexivity. Qed.

(** The Receiver that an interrupted [recv] leaves is the Receiver after a
    run: the ticks up to the write of [m_done], the step of [recv], the
    ticks after it.  A call that finds [m_done] clear leaves the Receiver as
    it is. *)
Lemma recv_interrupted_this (t1 t2 t3 t4 : list bool) (r : Receiver.t)
    (buf : list Z) (len : Z) :
  Receiver.recv_this (recv_int_ t1 t2 t3 t4 r buf len)
  = if Receiver.m_done r
    then run_ (listen t1 ++ listen t2 ++ listen t3
                 ++ ARecv buf len :: listen t4) r
    else r.
Proof.
  unfold recv_interrupted. destruct (Receiver.m_done r) eqn:D; cbn [negb].
  - cbv zeta. cbn [Receiver.recv_this]. unfold run.
    rewrite !fold_left_app. cbn [fold_left act]. f_equal.
    set (r3 := fold_left _ (listen t3) _). clearbody r3.
    unfold Receiver.recv.
    destruct r3 as [en sa la ra ig bi ac bc le co bu [|] gd bd];
      reflexivity.
  - reflexivity.
Qed.



End FramingInvariant.



(** ** Timer calculator *)

Section TimerFacts.

Variable ulticks_of : Z -> Z -> Z.

Lemma timer_loop_hit (speed max_ticks p u : Z) (n : nat) :
  2 <= ulticks_of speed (rd prescalers p) < max_ticks ->
  timer_loop ulticks_of speed max_ticks p u (S n)
  = (p, ulticks_of speed (rd prescalers p)).
Proof.
  intros H. cbn [timer_loop].
  destruct (Z.gtb_spec (ulticks_of speed (rd prescalers p)) 1); [| lia].
  destruct (Z.ltb_spec (ulticks_of speed (rd prescalers p)) max_ticks);
    [| lia].
  reflexivity.
Qed.

Lemma timer_loop_skip (speed max_ticks p u : Z) (n : nat) :
  ~ 2 <= ulticks_of speed (rd prescalers p) < max_ticks ->
  timer_loop ulticks_of speed max_ticks p u (S n)
  = timer_loop ulticks_of speed max_ticks (p + 1)
      (ulticks_of speed (rd prescalers p)) n.
Proof.
  intros H. cbn [timer_loop].
  destruct (Z.gtb_spec (ulticks_of speed (rd prescalers p)) 1);
    destruct (Z.ltb_spec (ulticks_of speed (rd prescalers p)) max_ticks);
    cbn [andb]; try reflexivity; lia.
Qed.

(** C5, amended: for a bit rate of zero the result is the error indication
    (0, 0).  Otherwise the dividers 1, 8, 64, 256, 1024 (indices 1 to 5) are
    tried in this order and the first whose tick count is at least 2 and
    below max_ticks is taken: the result is its index and its tick count.
    When none of the five qualifies the result is the error indication,
    provided the tick count of the sentinel 3333 is not exactly
    max_ticks. *)
Theorem timer_calc_first_fit (speed max_ticks : Z) :
  0 <= max_ticks < 65536 ->
  let ticks i := ulticks_of speed (rd prescalers i) in
  let fits i := 2 <= ticks i < max_ticks in
  (speed = 0 -> _timer_calc ulticks_of speed max_ticks = (0, 0))
  /\ (speed <> 0 ->
      forall i, 1 <= i <= 5 -> fits i ->
      (forall j, 1 <= j < i -> ~ fits j) ->
      _timer_calc ulticks_of speed max_ticks = (i, ticks i))
  /\ (speed <> 0 ->
      (forall j, 1 <= j <= 5 -> ~ fits j) ->
      ticks 6 <> max_ticks ->
      _timer_calc ulticks_of speed max_ticks = (0, 0)).
Proof.
  intros Hmax ticks fits. subst fits ticks. cbv beta.
  unfold _timer_calc. split; [| split].
  - intros ->. reflexivity.
  - intros Hs i Hi Hfit Hprev.
    destruct (Z.eqb_spec speed 0); [contradiction |].
    set (t := ulticks_of speed (rd prescalers i)) in *.
    assert (E : timer_loop ulticks_of speed max_ticks 1 0 6 = (i, t)).
    { subst t.
      assert (C : i = 1 \/ i = 2 \/ i = 3 \/ i = 4 \/ i = 5) by lia.
      destruct C as [-> | [-> | [-> | [-> | ->]]]];
        repeat (rewrite timer_loop_skip by (apply Hprev; lia));
        apply timer_loop_hit; exact Hfit. }
    rewrite E.
    destruct (Z.eqb_spec i 6); [lia |].
    destruct (Z.ltb_spec t 2); [lia |].
    destruct (Z.gtb_spec t max_ticks); [lia |].
    cbn [orb]. rewrite wrap16_small by lia. reflexivity.
  - intros Hs Hnone Hneq.
    destruct (Z.eqb_spec speed 0); [contradiction |].
    do 5 (rewrite timer_loop_skip by (apply Hnone; lia)).
    change (1 + 1 + 1 + 1 + 1 + 1) with 6.
    cbn [timer_loop]. change (6 + 1) with 7.
    set (t := ulticks_of speed (rd prescalers 6)) in *.
    destruct (Z.gtb_spec t 1); destruct (Z.ltb_spec t max_ticks);
      cbn [andb]; try reflexivity;
      change (7 =? 6) with false;
      destruct (Z.ltb_spec t 2); destruct (Z.gtb_spec t max_ticks);
      cbn [orb]; try reflexivity; lia.
Qed.

End TimerFacts.

Lemma timer_calc_first_fit_witness :
  0 <= 65535 < 65536
  /\ _timer_calc (exact_ticks 16000000) 2001 65535 = (1, 999).
Proof.
  split; [lia |].
  pose proof (timer_calc_first_fit (exact_ticks 16000000) 2001 65535
                ltac:(lia)) as T.
  cbv zeta in T. destruct T as (_ & T & _).
  apply (T ltac:(lia) 1 ltac:(lia)).
  - by_evaluation.
  - intros j Hj. lia.
Defined.

(** C5 as stated fails at the upper end of the range: with an 8 MHz clock,
    3915 bit/s and an 8-bit counter, divider 1 gives 255 ticks, which is
    max_ticks; the calculator passes it over and returns divider index 2
    with 31 ticks. *)
Lemma timer_calc_passes_over_max_ticks :
  2 <= exact_ticks 8000000 3915 (rd prescalers 1) <= 255
  /\ _timer_calc (exact_ticks 8000000) 3915 255 = (2, 31)
  /\ _timer_calc (exact_ticks 8000000) 3915 255
     <> (1, exact_ticks 8000000 3915 (rd prescalers 1)).
Proof. by_evaluation. Qed.

(** ** Transmitter [send] and the interrupt handler *)

Ltac tx_fields :=
  cbn [Transmitter.set_m_buffer Transmitter.set_m_length
       Transmitter.set_m_index Transmitter.set_m_bit
       Transmitter.set_m_sample Transmitter.set_m_enabled
       Transmitter.set_m_msg_count Transmitter.end_
       Transmitter.m_buffer Transmitter.m_length Transmitter.m_index
       Transmitter.m_bit Transmitter.m_sample Transmitter.m_enabled
       Transmitter.m_msg_count] in *.

(** The output step of the transmitter runs exactly when the transmitter is
    enabled and its sub-tick counter is 0. *)
Lemma tx_tick_events (x : Transmitter.t) :
  (snd (tx_tick x) = []
   /\ (Transmitter.m_enabled x = false \/ Transmitter.m_sample x <> 0))
  \/ ((snd (tx_tick x) = [EvTxEnd]
       \/ exists value, snd (tx_tick x) = [EvTxWrite value])
      /\ Transmitter.m_enabled x = true
      /\ Transmitter.m_sample x = 0).
Proof.
  unfold tx_tick. destruct x as [bu le ix bi sa en mc]. tx_fields.
  destruct en; [| left; split; [reflexivity | left; reflexivity]].
  destruct (Z.eqb_spec sa 0) as [-> | Hsa].
  - right. split; [| split; reflexivity].
    destruct (ix >=? le); [left; reflexivity | right; eexists; reflexivity].
  - left. split; [reflexivity | right; exact Hsa].
Qed.

(** The sub-tick counter of an enabled transmitter counts modulo 8. *)
Lemma tx_tick_subtick (x : Transmitter.t) :
  Transmitter.m_enabled x = true ->
  0 <= Transmitter.m_sample x <= 7 ->
  Transmitter.m_sample (fst (tx_tick x)) = (Transmitter.m_sample x + 1) mod 8.
Proof.
  unfold tx_tick. destruct x as [bu le ix bi sa en mc]. tx_fields.
  intros -> Hsa. rewrite (wrap8_small (sa + 1)) by lia.
  assert (C : sa = 7 \/ sa < 7) by lia.
  destruct (Z.eqb_spec sa 0) as [-> | Hne].
  - destruct (ix >=? le); tx_fields.
    + reflexivity.
    + destruct (wrap8 (bi + 1) >=? 6); tx_fields; reflexivity.
  - tx_fields. destruct (Z.gtb_spec (sa + 1) 7); tx_fields.
    + replace sa with 7 by lia. reflexivity.
    + rewrite Z.mod_small by lia. reflexivity.
Qed.

Section DispatchFacts.

Variables RAMP_MAX RAMP_TRANSITION RAMP_INC_RETARD RAMP_INC_ADVANCE : Z.
Variable MESSAGE_MAX : Z.
Variable PAYLOAD_MAX : Z.

Local Abbreviation PLL_ :=
  (Receiver.PLL RAMP_MAX RAMP_TRANSITION RAMP_INC_RETARD RAMP_INC_ADVANCE
     MESSAGE_MAX).
Local Abbreviation ISR_ :=
  (ISR RAMP_MAX RAMP_TRANSITION RAMP_INC_RETARD RAMP_INC_ADVANCE
     MESSAGE_MAX).
Local Abbreviation send_ :=
  (send RAMP_MAX RAMP_TRANSITION RAMP_INC_RETARD RAMP_INC_ADVANCE
     MESSAGE_MAX PAYLOAD_MAX).

(** C8: a length above PAYLOAD_MAX makes [send] return false with the
    whole system, the Transmitter in it, as it was and nothing done to the
    pins; this needs no interrupt to pass, whether or not the Transmitter is
    busy, so the check comes before the wait and before the assembly. *)
Theorem send_oversize_fails (fuel : nat) (pin : nat -> bool) (s : System)
  (buf : list Z) (len : Z) :
  PAYLOAD_MAX < len -> send_ fuel pin s buf len = Some (false, s, []).
Proof.
  intros H. unfold send.
  destruct (Z.gtb_spec len PAYLOAD_MAX); [reflexivity | lia].
Qed.

Lemma PLL_enabled (r : Receiver.t) :
  Receiver.m_enabled (PLL_ r) = Receiver.m_enabled r.
Proof.
  unfold Receiver.PLL.
  destruct (PLL_frame_clock MESSAGE_MAX
              (Receiver.PLL_vote RAMP_MAX
                 (Receiver.PLL_sample RAMP_MAX RAMP_TRANSITION
                    RAMP_INC_RETARD RAMP_INC_ADVANCE r)))
    as (_ & _ & _ & _ & _ & E).
  assert (V : forall q, Receiver.m_enabled (Receiver.PLL_vote RAMP_MAX q)
                        = Receiver.m_enabled q).
  { intros q. unfold Receiver.PLL_vote.
    destruct q as [en sa la ra ig bi ac bc le co bu dn gd bd]. rx_fields.
    repeat case_match; reflexivity. }
  assert (S : Receiver.m_enabled
                (Receiver.PLL_sample RAMP_MAX RAMP_TRANSITION RAMP_INC_RETARD
                   RAMP_INC_ADVANCE r) = Receiver.m_enabled r).
  { unfold Receiver.PLL_sample.
    destruct r as [en sa la ra ig bi ac bc le co bu dn gd bd]. rx_fields.
    repeat case_match; reflexivity. }
  destruct (_ >=? RAMP_MAX); [rewrite E, V, S | rewrite S]; reflexivity.
Qed.

(** The events of one tick, in their order, and the gates of the first and
    the last of them. *)
Lemma ISR_events_order (level : bool) (s : System) :
  exists ev_read ev_tx ev_pll,
    snd (ISR_ level s) = ev_read ++ ev_tx ++ ev_pll
    /\ ev_read = (if rx_gate s then [EvRead level] else [])
    /\ (rx_gate s = true ->
          exists r, receiver (fst (ISR_ level s)) = Some r
                    /\ Receiver.m_sample r = level)
    /\ (ev_tx = []
        \/ ((ev_tx = [EvTxEnd] \/ exists value, ev_tx = [EvTxWrite value])
            /\ exists x, transmitter s = Some x
                         /\ Transmitter.m_enabled x = true
                         /\ Transmitter.m_sample x = 0))
    /\ ev_pll = (if rx_gate (fst (ISR_ level s)) then [EvPLL] else [])
    /\ (ev_pll = [EvPLL] ->
          forall x, transmitter (fst (ISR_ level s)) = Some x ->
                    Transmitter.m_enabled x = false).
Proof.
  assert (G : forall tx r,
             rx_gate (mk_System tx (Some (PLL_ r)))
             = rx_gate (mk_System tx (Some r))).
  { intros tx r. unfold rx_gate. cbn [receiver transmitter].
    rewrite PLL_enabled. reflexivity. }
  assert (Q : forall r : Receiver.t,
             Receiver.m_sample (PLL_ r) = Receiver.m_sample r).
  { intros r. unfold Receiver.PLL.
    destruct (PLL_frame_clock MESSAGE_MAX
                (Receiver.PLL_vote RAMP_MAX
                   (Receiver.PLL_sample RAMP_MAX RAMP_TRANSITION
                      RAMP_INC_RETARD RAMP_INC_ADVANCE r)))
      as (_ & _ & _ & E & _).
    assert (E2 : forall q, Receiver.m_sample (Receiver.PLL_vote RAMP_MAX
                   (Receiver.PLL_sample RAMP_MAX RAMP_TRANSITION
                      RAMP_INC_RETARD RAMP_INC_ADVANCE q))
                 = Receiver.m_sample q).
    { intros q. unfold Receiver.PLL_vote, Receiver.PLL_sample.
      destruct q as [en sa la ra ig bi ac bc le co bu dn gd bd]. rx_fields.
      repeat case_match; reflexivity. }
    assert (E3 : forall q, Receiver.m_sample
                   (Receiver.PLL_sample RAMP_MAX RAMP_TRANSITION
                      RAMP_INC_RETARD RAMP_INC_ADVANCE q)
                 = Receiver.m_sample q).
    { intros q. unfold Receiver.PLL_sample.
      destruct q as [en sa la ra ig bi ac bc le co bu dn gd bd]. rx_fields.
      repeat case_match; reflexivity. }
    destruct (_ >=? RAMP_MAX); [rewrite E, E2 | rewrite E3]; reflexivity. }
  destruct s as [[x |] [r |]]; unfold ISR; cbn [receiver transmitter].
  - (* transmitter and receiver *)
    pose proof (tx_tick_events x) as Tx.
    assert (Htx : forall evs, snd (tx_tick x) = evs ->
              evs = []
              \/ ((evs = [EvTxEnd] \/ exists value, evs = [EvTxWrite value])
                  /\ exists x0, Some x = Some x0
                               /\ Transmitter.m_enabled x0 = true
                               /\ Transmitter.m_sample x0 = 0)).
    { intros evs <-. destruct Tx as [[-> _] | [Tx Hx]]; [left; reflexivity |].
      right. split; [exact Tx |]. exists x. split; [reflexivity | exact Hx]. }
    assert (Hoff : forall x' q,
              rx_gate (mk_System (Some x') (Some q)) = true ->
              forall y, Some x' = Some y -> Transmitter.m_enabled y = false).
    { intros x' q Hg y Hy. injection Hy as <-.
      unfold rx_gate in Hg. cbn [receiver transmitter] in Hg.
      apply andb_true_iff in Hg. destruct Hg as [_ Hg].
      apply negb_true_iff in Hg. exact Hg. }
    destruct (rx_gate (mk_System (Some x) (Some r))) eqn:G0;
      cbn [receiver transmitter];
      destruct (tx_tick x) as [x' evs] eqn:Ex; cbn [fst snd] in *;
      specialize (Htx evs eq_refl); cbn [receiver transmitter].
    + destruct (rx_gate (mk_System (Some x')
                           (Some (Receiver.set_m_sample level r)))) eqn:G1;
        cbn [fst snd receiver transmitter]; rewrite ?G, ?G1.
      * exists [EvRead level], evs, [EvPLL].
        split; [reflexivity |]. split; [reflexivity |].
        split; [intros _; eexists; split; [reflexivity | apply Q] |].
        split; [exact Htx |]. split; [reflexivity |].
        intros _. apply (Hoff _ _ G1).
      * exists [EvRead level], evs, [].
        split; [reflexivity |]. split; [reflexivity |].
        split; [intros _; eexists; split; [reflexivity | reflexivity] |].
        split; [exact Htx |]. split; [reflexivity | discriminate].
    + destruct (rx_gate (mk_System (Some x') (Some r))) eqn:G1;
        cbn [fst snd receiver transmitter]; rewrite ?G, ?G1.
      * exists [], evs, [EvPLL].
        split; [reflexivity |]. split; [reflexivity |].
        split; [discriminate |].
        split; [exact Htx |]. split; [reflexivity |].
        intros _. apply (Hoff _ _ G1).
      * exists [], evs, []. rewrite app_nil_r.
        split; [reflexivity |]. split; [reflexivity |].
        split; [discriminate |].
        split; [exact Htx |]. split; [reflexivity | discriminate].
  - (* transmitter only *)
    pose proof (tx_tick_events x) as Tx.
    destruct (tx_tick x) as [x' evs] eqn:Ex. cbn [fst snd] in *.
    cbn [rx_gate receiver transmitter fst snd].
    exists [], evs, []. rewrite app_nil_r.
    split; [reflexivity |]. split; [reflexivity |].
    split; [discriminate |].
    split; [| split; [reflexivity | discriminate]].
    destruct Tx as [[-> _] | [Tx Hx]]; [left; reflexivity |].
    right. split; [exact Tx |]. exists x. split; [reflexivity | exact Hx].
  - (* receiver only *)
    destruct (rx_gate (mk_System None (Some r))) eqn:G0;
      cbn [receiver transmitter fst snd].
    + assert (G1 : rx_gate (mk_System None
                              (Some (Receiver.set_m_sample level r))) = true)
        by exact G0.
      rewrite G1. cbn [receiver transmitter fst snd]. rewrite G, G1.
      exists [EvRead level], [], [EvPLL].
      split; [reflexivity |]. split; [reflexivity |].
      split; [intros _; eexists; split; [reflexivity | apply Q] |].
      split; [left; reflexivity |].
      split; [reflexivity | intros _ y Hy; discriminate].
    + rewrite G0. cbn [receiver transmitter fst snd]. rewrite G0.
      exists [], [], [].
      split; [reflexivity |]. split; [reflexivity |].
      split; [discriminate |].
      split; [left; reflexivity |].
      split; [reflexivity | discriminate].
  - (* neither *)
    cbn [fst snd rx_gate receiver]. exists [], [], [].
    repeat split; try reflexivity; try discriminate.
    left. reflexivity.
Qed.

(** The transmitter block of a tick is [tx_tick] on the registered
    Transmitter, and its events stand between the reading of the pin and
    the PLL step. *)
Lemma ISR_tx_block (level : bool) (s : System) (x : Transmitter.t) :
  transmitter s = Some x ->
  transmitter (fst (ISR_ level s)) = Some (fst (tx_tick x))
  /\ snd (ISR_ level s)
     = (if rx_gate s then [EvRead level] else [])
       ++ snd (tx_tick x)
       ++ (if rx_gate (fst (ISR_ level s)) then [EvPLL] else []).
Proof.
  assert (G : forall tx r,
             rx_gate (mk_System tx (Some (PLL_ r)))
             = rx_gate (mk_System tx (Some r))).
  { intros tx r. unfold rx_gate. cbn [receiver transmitter].
    rewrite PLL_enabled. reflexivity. }
  destruct s as [tx [r |]]; cbn [transmitter]; intros ->; unfold ISR;
    cbn [receiver transmitter].
  - destruct (rx_gate (mk_System (Some x) (Some r))) eqn:G0;
      cbn [receiver transmitter];
      destruct (tx_tick x) as [x' evs]; cbn [fst snd receiver transmitter].
    + destruct (rx_gate (mk_System (Some x')
                           (Some (Receiver.set_m_sample level r)))) eqn:G1;
        cbn [fst snd receiver transmitter]; rewrite ?G, ?G1;
        split; reflexivity.
    + destruct (rx_gate (mk_System (Some x') (Some r))) eqn:G1;
        cbn [fst snd receiver transmitter]; rewrite ?G, ?G1;
        split; reflexivity.
  - destruct (tx_tick x) as [x' evs].
    cbn [rx_gate fst snd receiver transmitter]. split; reflexivity.
Qed.

(** C9: the events of one tick are, in this order: the reading of the pin,
    the output step of the transmitter, the PLL step of the receiver, each
    at most once.  The pin is read exactly when, on entry, a receiver is
    registered and enabled and no registered transmitter is enabled, and the
    level read is what the receiver holds as its sample after the tick.  The
    output step runs only if a transmitter is registered, enabled and at
    sub-tick 0; the sub-tick counter of an enabled transmitter goes up by
    one modulo 8 on every tick, and the output step runs exactly on the
    ticks that find it at 0, which is one of its 8 values.  The PLL step
    runs exactly when the gate of the reading holds after the transmitter
    block, and then no registered transmitter is enabled. *)
Theorem ISR_half_duplex_order (level : bool) (s : System) :
  exists ev_read ev_tx ev_pll,
    snd (ISR_ level s) = ev_read ++ ev_tx ++ ev_pll
    /\ ev_read = (if rx_gate s then [EvRead level] else [])
    /\ (rx_gate s = true ->
          exists r, receiver (fst (ISR_ level s)) = Some r
                    /\ Receiver.m_sample r = level)
    /\ (ev_tx = []
        \/ ((ev_tx = [EvTxEnd] \/ exists value, ev_tx = [EvTxWrite value])
            /\ exists x, transmitter s = Some x
                         /\ Transmitter.m_enabled x = true
                         /\ Transmitter.m_sample x = 0))
    /\ (forall x, transmitter s = Some x ->
          Transmitter.m_enabled x = true ->
          0 <= Transmitter.m_sample x <= 7 ->
          (ev_tx <> [] <-> Transmitter.m_sample x = 0)
          /\ exists x', transmitter (fst (ISR_ level s)) = Some x'
                        /\ Transmitter.m_sample x'
                           = (Transmitter.m_sample x + 1) mod 8)
    /\ ev_pll = (if rx_gate (fst (ISR_ level s)) then [EvPLL] else [])
    /\ (ev_pll = [EvPLL] ->
          forall x, transmitter (fst (ISR_ level s)) = Some x ->
                    Transmitter.m_enabled x = false).
Proof.
  destruct (ISR_events_order level s)
    as (e1 & e2 & e3 & H1 & H2 & H3 & H4 & H5 & H6).
  exists e1, e2, e3.
  split; [exact H1 |]. split; [exact H2 |]. split; [exact H3 |].
  split; [exact H4 |]. split; [| split; [exact H5 | exact H6]].
  intros x Hx En Hs.
  destruct (ISR_tx_block level s x Hx) as [Tx Ev].
  assert (E2 : e2 = snd (tx_tick x)).
  { rewrite H1, H2, H5 in Ev.
    apply app_inv_head in Ev. apply app_inv_tail in Ev. exact Ev. }
  split.
  - split.
    + intros Hne. destruct H4 as [-> | (_ & y & Hy & _ & Hz)];
        [congruence |].
      rewrite Hx in Hy. injection Hy as <-. exact Hz.
    + intros Hz. rewrite E2.
      destruct (tx_tick_events x) as [(_ & [F | F]) | ([T | [v T]] & _)];
        [congruence | congruence | rewrite T; discriminate
        | rewrite T; discriminate].
  - exists (fst (tx_tick x)). split; [exact Tx |].
    apply tx_tick_subtick; assumption.
Qed.

End DispatchFacts.

Lemma send_oversize_fails_witness :
  27 < 28
  /\ send 160 80 11 29 30 27 0 (fun _ => false)
        (mk_System (Some tx_busy) None) (repeat 0 28) 28
     = Some (false, mk_System (Some tx_busy) None, []).
Proof. split; [lia | apply send_oversize_fails; lia]. Defined.

Lemma ISR_half_duplex_order_witness :
  snd (ISR 160 80 11 29 30 true sys_finishing) = [EvTxEnd; EvPLL]
  /\ (forall x,
        transmitter (fst (ISR 160 80 11 29 30 true sys_finishing)) = Some x ->
        Transmitter.m_enabled x = false)
  /\ Transmitter.m_sample tx_finishing = 0
  /\ (exists x',
        transmitter (fst (ISR 160 80 11 29 30 true sys_finishing)) = Some x'
        /\ Transmitter.m_sample x' = 1).
Proof.
  split; [vm_compute; reflexivity |].
  destruct (ISR_half_duplex_order 160 80 11 29 30 true sys_finishing)
    as (e1 & e2 & e3 & _ & _ & _ & _ & C & E & H).
  split; [apply H; rewrite E; vm_compute; reflexivity |].
  split; [reflexivity |].
  destruct (C tx_finishing eq_refl eq_refl ltac:(cbn; lia))
    as (_ & x' & Tx & Sx).
  exists x'. split; [exact Tx | exact Sx].
Defined.

(** ** The wait in [send] ends *)

Lemma wrap8_succ (z : Z) :
  is_byte z -> wrap8 (z + 1) = if z =? 255 then 0 else z + 1.
Proof.
  intros H. unfold is_byte in H.
  destruct (Z.eqb_spec z 255) as [-> | N]; [reflexivity |].
  apply wrap8_small. lia.
Qed.

Ltac if_cases :=
  repeat (match goal with
          | |- context [if ?c then _ else _] =>
              match c with
              | ?a =? ?b => destruct (Z.eqb_spec a b)
              | ?a <=? ?b => destruct (Z.leb_spec a b)
              | ?a >=? ?b => destruct (Z.geb_spec a b)
              | ?a >? ?b => destruct (Z.gtb_spec a b)
              | ?a <? ?b => destruct (Z.ltb_spec a b)
              end
          end; try lia; tx_fields).

(** A tick either disables an enabled Transmitter or brings it closer to
    that; buffer and length stay. *)
Lemma tx_tick_progress (x : Transmitter.t) :
  Transmitter.m_enabled x = true -> tx_bytes x ->
  let x' := fst (tx_tick x) in
  tx_bytes x'
  /\ Transmitter.m_buffer x' = Transmitter.m_buffer x
  /\ Transmitter.m_length x' = Transmitter.m_length x
  /\ (Transmitter.m_enabled x' = false
      \/ (Transmitter.m_enabled x' = true
          /\ 0 <= tx_ticks_left x' < tx_ticks_left x)).
Proof.
  destruct x as [bu le ix bi sa en mc]. cbn [Transmitter.m_enabled].
  intros -> (Hle & Hix & Hbi & Hsa). unfold is_byte in *. tx_fields.
  unfold tx_tick. tx_fields.
  rewrite ?(wrap8_succ sa), ?(wrap8_succ bi), ?(wrap8_succ ix)
    by (unfold is_byte; lia).
  if_cases; cbn [fst]; tx_fields;
    rewrite ?(wrap8_succ ix) by (unfold is_byte; lia);
    unfold tx_bytes, tx_ticks_left, is_byte; tx_fields;
    (split; [if_cases; lia | split; [reflexivity | split; [reflexivity |]]]);
    first [left; reflexivity | right; split; [reflexivity |]; if_cases; lia].
Qed.

Lemma tx_ticks_left_bound (x : Transmitter.t) :
  tx_bytes x -> 1 <= tx_ticks_left x <= 12304.
Proof.
  destruct x as [bu le ix bi sa en mc].
  unfold tx_bytes, tx_ticks_left, is_byte. tx_fields.
  intros (Hle & Hix & Hbi & Hsa). if_cases; lia.
Qed.

Section AwaitFacts.

Variables RAMP_MAX RAMP_TRANSITION RAMP_INC_RETARD RAMP_INC_ADVANCE : Z.
Variable MESSAGE_MAX : Z.
Variable PAYLOAD_MAX : Z.

Local Abbreviation ISR_ :=
  (ISR RAMP_MAX RAMP_TRANSITION RAMP_INC_RETARD RAMP_INC_ADVANCE
     MESSAGE_MAX).
Local Abbreviation await_ :=
  (await RAMP_MAX RAMP_TRANSITION RAMP_INC_RETARD RAMP_INC_ADVANCE
     MESSAGE_MAX).
Local Abbreviation send_ :=
  (send RAMP_MAX RAMP_TRANSITION RAMP_INC_RETARD RAMP_INC_ADVANCE
     MESSAGE_MAX PAYLOAD_MAX).

Lemma ISR_transmitter (level : bool) (s : System) (x : Transmitter.t) :
  transmitter s = Some x ->
  transmitter (fst (ISR_ level s)) = Some (fst (tx_tick x)).
Proof.
  destruct s as [tx rx]. cbn [transmitter]. intros ->. unfold ISR.
  cbn [receiver transmitter].
  destruct rx as [r |]; [destruct (rx_gate _) |];
    cbn [receiver transmitter]; destruct (tx_tick x) as [x' evs];
    cbn [receiver transmitter fst];
    try (destruct (rx_gate _)); reflexivity.
Qed.

(** With as many interrupts as [tx_ticks_left] says, the wait ends, on a
    Transmitter that is disabled and has its buffer untouched. *)
Lemma await_ends (fuel : nat) : forall (pin : nat -> bool) (s : System)
  (x : Transmitter.t),
  transmitter s = Some x ->
  tx_bytes x ->
  (Transmitter.m_enabled x = true -> tx_ticks_left x <= Z.of_nat fuel) ->
  exists s' evs x',
    await_ fuel pin s = Some (s', evs)
    /\ transmitter s' = Some x'
    /\ Transmitter.m_enabled x' = false
    /\ Transmitter.m_buffer x' = Transmitter.m_buffer x.
Proof.
  induction fuel as [| fuel IH]; intros pin s x Hx Hb Hfuel.
  - destruct (Transmitter.m_enabled x) eqn:En.
    + pose proof (tx_ticks_left_bound x Hb). specialize (Hfuel eq_refl). lia.
    + exists s, [], x. cbn [await]. rewrite Hx, En. auto.
  - destruct (Transmitter.m_enabled x) eqn:En.
    + cbn [await]. rewrite Hx, En.
      pose proof (ISR_transmitter (pin O) s x Hx) as T.
      destruct (ISR_ (pin O) s) as [s1 evs1]. cbn [fst] in T.
      destruct (tx_tick_progress x En Hb) as (Hb1 & Hbuf & _ & Hprog).
      destruct (IH (fun n => pin (S n)) s1 _ T Hb1) as (s' & evs & x' & A & B & C & D).
      { intros En1. destruct Hprog as [Hoff | [_ Hlt]]; [congruence |].
        specialize (Hfuel eq_refl). lia. }
      exists s', (evs1 ++ evs), x'. rewrite A.
      split; [reflexivity |]. split; [exact B |]. split; [exact C |].
      rewrite D. exact Hbuf.
    + exists s, [], x. cbn [await]. rewrite Hx, En. auto.
Qed.

(** C2: for a payload of bytes no longer than PAYLOAD_MAX, [send] succeeds
    once the Transmitter is idle, which it is after at most [tx_ticks_left]
    interrupts, and leaves, behind the header, the symbols of the frame
    {count, payload, fcs_lo, fcs_hi} whose frame check sequence is the
    complemented CRC over count and payload, low byte first.  The receive
    side decodes these symbols back to that frame, and the CRC over the
    whole frame, as [recv] computes it, is 0xf0b8. *)
Theorem send_frame_crc_residue (fuel : nat) (pin : nat -> bool) (s : System)
  (x : Transmitter.t) (bp : list Z) :
  transmitter s = Some x ->
  tx_bytes x ->
  (Transmitter.m_enabled x = true -> tx_ticks_left x <= Z.of_nat fuel) ->
  Forall is_byte bp ->
  Z.of_nat (length bp) <= PAYLOAD_MAX ->
  8 + 2 * (PAYLOAD_MAX + 3) < 256 ->
  8 + 2 * (Z.of_nat (length bp) + 3)
    <= Z.of_nat (length (Transmitter.m_buffer x)) ->
  exists x' rx' evs,
    send_ fuel pin s bp (Z.of_nat (length bp))
      = Some (true, mk_System (Some x') rx', evs)
    /\ take (2 * (length bp + 3)) (drop 8 (Transmitter.m_buffer x'))
       = flat_map encode_byte (tx_frame bp)
    /\ decode_symbols
         (take (2 * (length bp + 3)) (drop 8 (Transmitter.m_buffer x')))
       = tx_frame bp
    /\ CRC (tx_frame bp) (Z.of_nat (length bp) + 3) = 0xf0b8.
Proof.
  intros Hx Hbytes Hfuel Hb Hmax Hfit Hbuf.
  destruct (await_ends fuel pin s x Hx Hbytes Hfuel)
    as (s1 & evs & x1 & A & B & _ & D).
  pose proof (send_frame_buffer x1 bp ltac:(rewrite D; lia) ltac:(lia)) as F.
  eexists. exists (receiver s1), evs. split; [| split; [| split]].
  - unfold send.
    destruct (Z.gtb_spec (Z.of_nat (length bp)) PAYLOAD_MAX); [lia |].
    rewrite A, B, F. reflexivity.
  - cbn [Transmitter.m_buffer].
    rewrite drop_app_length' by reflexivity.
    rewrite take_app_length' by (symmetry; apply tx_frame_symbols_length).
    reflexivity.
  - cbn [Transmitter.m_buffer].
    rewrite drop_app_length' by reflexivity.
    rewrite take_app_length' by (symmetry; apply tx_frame_symbols_length).
    apply decode_encode_bytes, tx_frame_bytes, Hb.
  - apply CRC_tx_frame.
Qed.

End AwaitFacts.

Lemma send_frame_crc_residue_witness :
  tx_ticks_left tx_busy <= 1000
  /\ CRC (tx_frame [1; 2; 3]) 6 = 0xf0b8.
Proof.
  split; [by_evaluation |].
  destruct (send_frame_crc_residue 160 80 11 29 30 27 1000 (fun _ => false)
              (mk_System (Some tx_busy) None) tx_busy [1; 2; 3])
    as (x' & rx' & evs & _ & _ & _ & H).
  - reflexivity.
  - unfold tx_bytes, is_byte. cbn. lia.
  - intros _. by_evaluation.
  - unfold is_byte. repeat (constructor; [lia |]). constructor.
  - simpl; lia.
  - lia.
  - by_evaluation.
  - exact H.
Defined.

(** ** The model at work *)

(** A busy Transmitter: [send] returns once enough interrupts have let the
    running transmission finish. *)
Example send_waits_for_busy_transmitter :
  exists s evs,
    send 160 80 11 29 30 27 1000 (fun _ => false)
      (mk_System (Some tx_busy) None) [1; 2; 3] 3 = Some (true, s, evs).
Proof. eexists. eexists. vm_compute. reflexivity. Qed.

(** The payload {1, 2, 3} from the air into the caller's buffer. *)
Example reception_of_123 :
  Receiver.recv (run 160 80 11 29 30 (listen air_123) rx_idle)
    (repeat 0 10) 10
  = Receiver.mk_recv_out true
      (Receiver.set_m_done false
         (run 160 80 11 29 30 (listen air_123) rx_idle))
      ([1; 2; 3] ++ repeat 0 7) 3.
Proof. vm_compute. reflexivity. Qed.

(** With a clock and rate at which the sentinel divider 3333 gives exactly
    max_ticks, the calculator returns index 7, which names no divider. *)
Example timer_calc_sentinel_at_max_ticks :
  _timer_calc (exact_ticks 6800000) 1 255 = (7, 255).
Proof. vm_compute. reflexivity. Qed.

(** * Further properties of the code *)

(** ** The wait of the Transmitter *)

Lemma tx_tick_count (x : Transmitter.t) :
  Transmitter.m_enabled x = true ->
  let x' := fst (tx_tick x) in
  (Transmitter.m_enabled x' = false
   /\ Transmitter.m_msg_count x'
      = wrap8 (Transmitter.m_msg_count x + 1))
  \/ (Transmitter.m_enabled x' = true
      /\ Transmitter.m_msg_count x' = Transmitter.m_msg_count x).
Proof.
  destruct x as [bu le ix bi sa en mc]. cbn [Transmitter.m_enabled].
  intros ->. unfold tx_tick. tx_fields.
  destruct (sa =? 0); [destruct (ix >=? le) |]; tx_fields;
    repeat (match goal with
            | |- context [if ?c then _ else _] => destruct c
            end; tx_fields);
    cbn [fst]; tx_fields; auto.
Qed.

Section AwaitBound.

Variables RAMP_MAX RAMP_TRANSITION RAMP_INC_RETARD RAMP_INC_ADVANCE : Z.
Variable MESSAGE_MAX : Z.

Local Abbreviation ISR_ :=
  (ISR RAMP_MAX RAMP_TRANSITION RAMP_INC_RETARD RAMP_INC_ADVANCE
     MESSAGE_MAX).
Local Abbreviation await_ :=
  (await RAMP_MAX RAMP_TRANSITION RAMP_INC_RETARD RAMP_INC_ADVANCE
     MESSAGE_MAX).

Lemma await_ends_counted (fuel : nat) : forall (pin : nat -> bool)
  (s : System) (x : Transmitter.t),
  transmitter s = Some x ->
  tx_bytes x ->
  (Transmitter.m_enabled x = true -> tx_ticks_left x <= Z.of_nat fuel) ->
  exists s' evs x',
    await_ fuel pin s = Some (s', evs)
    /\ transmitter s' = Some x'
    /\ Transmitter.m_enabled x' = false
    /\ Transmitter.m_buffer x' = Transmitter.m_buffer x
    /\ Transmitter.m_msg_count x'
       = (if Transmitter.m_enabled x
          then wrap8 (Transmitter.m_msg_count x + 1)
          else Transmitter.m_msg_count x).
Proof.
  induction fuel as [| fuel IH]; intros pin s x Hx Hb Hfuel.
  - destruct (Transmitter.m_enabled x) eqn:En.
    + pose proof (tx_ticks_left_bound x Hb). specialize (Hfuel eq_refl). lia.
    + exists s, [], x. cbn [await]. rewrite Hx, En. auto.
  - destruct (Transmitter.m_enabled x) eqn:En.
    + cbn [await]. rewrite Hx, En.
      pose proof (ISR_transmitter RAMP_MAX RAMP_TRANSITION RAMP_INC_RETARD
                    RAMP_INC_ADVANCE MESSAGE_MAX (pin O) s x Hx) as T.
      destruct (ISR_ (pin O) s) as [s1 evs1]. cbn [fst] in T.
      destruct (tx_tick_progress x En Hb) as (Hb1 & Hbuf & _ & Hprog).
      pose proof (tx_tick_count x En) as Hcnt. cbv zeta in Hcnt.
      destruct (IH (fun n => pin (S n)) s1 _ T Hb1)
        as (s' & evs & x' & A & B & C & D & E).
      { intros En1. destruct Hprog as [Hoff | [_ Hlt]]; [congruence |].
        specialize (Hfuel eq_refl). lia. }
      exists s', (evs1 ++ evs), x'. rewrite A.
      split; [reflexivity |]. split; [exact B |]. split; [exact C |].
      split; [rewrite D; exact Hbuf |].
      rewrite E. destruct Hcnt as [[H1 H2] | [H1 H2]]; rewrite H1, H2.
      * reflexivity.
      * reflexivity.
    + exists s, [], x. cbn [await]. rewrite Hx, En. auto.
Qed.

(** X1: the wait of [send] always ends.  Whatever the 8-bit state of the
    registered Transmitter, 12304 timer interrupts are enough for [await]
    to return; the Transmitter is then disabled, its symbol buffer is what
    it was, and the sent counter has gone up by one (modulo 256) if and
    only if a transmission was under way. *)
Theorem await_returns_within_bound (fuel : nat) (pin : nat -> bool)
  (s : System) (x : Transmitter.t) :
  transmitter s = Some x ->
  tx_bytes x ->
  12304 <= Z.of_nat fuel ->
  exists s' evs x',
    await_ fuel pin s = Some (s', evs)
    /\ transmitter s' = Some x'
    /\ Transmitter.m_enabled x' = false
    /\ Transmitter.m_buffer x' = Transmitter.m_buffer x
    /\ Transmitter.m_msg_count x'
       = (if Transmitter.m_enabled x
          then wrap8 (Transmitter.m_msg_count x + 1)
          else Transmitter.m_msg_count x).
Proof.
  intros Hx Hb Hfuel. apply await_ends_counted; try assumption.
  intros _. pose proof (tx_ticks_left_bound x Hb). lia.
Qed.

End AwaitBound.

Lemma await_returns_within_bound_witness :
  exists s' evs x',
    await 160 80 11 29 30 (Z.to_nat 12304) (fun _ => false)
      (mk_System (Some tx_busy) None) = Some (s', evs)
    /\ transmitter s' = Some x'
    /\ Transmitter.m_enabled x' = false
    /\ Transmitter.m_msg_count x' = 1.
Proof.
  destruct (await_returns_within_bound 160 80 11 29 30 (Z.to_nat 12304)
              (fun _ => false) (mk_System (Some tx_busy) None) tx_busy)
    as (s' & evs & x' & A & B & C & _ & E).
  - reflexivity.
  - unfold tx_bytes, is_byte. cbn. lia.
  - lia.
  - exists s', evs, x'. repeat split; assumption.
Defined.

(** ** What [send] leaves behind *)

Section SendResult.

Variables RAMP_MAX RAMP_TRANSITION RAMP_INC_RETARD RAMP_INC_ADVANCE : Z.
Variable MESSAGE_MAX : Z.
Variable PAYLOAD_MAX : Z.

Local Abbreviation send_ :=
  (send RAMP_MAX RAMP_TRANSITION RAMP_INC_RETARD RAMP_INC_ADVANCE
     MESSAGE_MAX PAYLOAD_MAX).

Lemma send_result (fuel : nat) (pin : nat -> bool) (s : System)
  (x : Transmitter.t) (bp : list Z) :
  transmitter s = Some x ->
  tx_bytes x ->
  (Transmitter.m_enabled x = true -> tx_ticks_left x <= Z.of_nat fuel) ->
  Z.of_nat (length bp) <= PAYLOAD_MAX ->
  8 + 2 * (PAYLOAD_MAX + 3) < 256 ->
  8 + 2 * (Z.of_nat (length bp) + 3)
    <= Z.of_nat (length (Transmitter.m_buffer x)) ->
  exists rx' evs,
    send_ fuel pin s bp (Z.of_nat (length bp))
    = Some (true,
            mk_System
              (Some (Transmitter.mk
                       (Transmitter.header
                          ++ flat_map encode_byte (tx_frame bp)
                          ++ drop (8 + 2 * (length bp + 3))
                               (Transmitter.m_buffer x))
                       (Z.of_nat (8 + 2 * (length bp + 3))) 0 0 0 true
                       (if Transmitter.m_enabled x
                        then wrap8 (Transmitter.m_msg_count x + 1)
                        else Transmitter.m_msg_count x)))
              rx',
            evs).
Proof.
  intros Hx Hbytes Hfuel Hmax Hfit Hbuf.
  destruct (await_ends_counted RAMP_MAX RAMP_TRANSITION RAMP_INC_RETARD
              RAMP_INC_ADVANCE MESSAGE_MAX fuel pin s x Hx Hbytes Hfuel)
    as (s1 & evs & x1 & A & B & _ & D & E).
  pose proof (send_frame_buffer x1 bp ltac:(rewrite D; lia) ltac:(lia)) as F.
  exists (receiver s1), evs. unfold send.
  destruct (Z.gtb_spec (Z.of_nat (length bp)) PAYLOAD_MAX); [lia |].
  rewrite A, B, F, D, E. reflexivity.
Qed.

(** X2: a payload of at most PAYLOAD_MAX bytes is always accepted.  Given
    12304 interrupts to wait, [send] returns true, whatever the Transmitter
    was doing, and leaves it armed: enabled, at symbol 0, bit 0, sub-tick 0,
    with [m_length] = 8 + 2 * (length + 3) symbols in the buffer, which are
    the header followed by the symbols of the frame; what lay behind them
    in the buffer stays. *)
Theorem send_arms_transmitter (fuel : nat) (pin : nat -> bool) (s : System)
  (x : Transmitter.t) (bp : list Z) :
  transmitter s = Some x ->
  tx_bytes x ->
  12304 <= Z.of_nat fuel ->
  Z.of_nat (length bp) <= PAYLOAD_MAX ->
  8 + 2 * (PAYLOAD_MAX + 3) < 256 ->
  8 + 2 * (Z.of_nat (length bp) + 3)
    <= Z.of_nat (length (Transmitter.m_buffer x)) ->
  exists x' rx' evs,
    send_ fuel pin s bp (Z.of_nat (length bp))
      = Some (true, mk_System (Some x') rx', evs)
    /\ Transmitter.m_enabled x' = true
    /\ Transmitter.m_index x' = 0
    /\ Transmitter.m_bit x' = 0
    /\ Transmitter.m_sample x' = 0
    /\ Transmitter.m_length x' = 8 + 2 * (Z.of_nat (length bp) + 3)
    /\ take (Z.to_nat (Transmitter.m_length x')) (Transmitter.m_buffer x')
       = Transmitter.header ++ flat_map encode_byte (tx_frame bp)
    /\ drop (Z.to_nat (Transmitter.m_length x')) (Transmitter.m_buffer x')
       = drop (Z.to_nat (Transmitter.m_length x')) (Transmitter.m_buffer x).
Proof.
  intros Hx Hbytes Hfuel Hmax Hfit Hbuf.
  destruct (send_result fuel pin s x bp Hx Hbytes) as (rx' & evs & E);
    try assumption.
  { intros _. pose proof (tx_ticks_left_bound x Hbytes). lia. }
  eexists. exists rx', evs. split; [exact E |].
  cbn [Transmitter.m_enabled Transmitter.m_index Transmitter.m_bit
       Transmitter.m_sample Transmitter.m_length Transmitter.m_buffer].
  repeat (split; [reflexivity || lia |]).
  rewrite Nat2Z.id.
  assert (L : length (Transmitter.header ++ flat_map encode_byte (tx_frame bp))
              = (8 + 2 * (length bp + 3))%nat).
  { rewrite length_app, tx_frame_symbols_length. reflexivity. }
  rewrite app_assoc. split.
  - rewrite take_app_length' by (symmetry; exact L). reflexivity.
  - rewrite drop_app_length' by (symmetry; exact L). reflexivity.
Qed.

End SendResult.

Lemma send_arms_transmitter_witness :
  exists x' rx' evs,
    send 160 80 11 29 30 27 (Z.to_nat 12304) (fun _ => false)
      (mk_System (Some tx_busy) None) [1; 2; 3] 3
      = Some (true, mk_System (Some x') rx', evs)
    /\ Transmitter.m_length x' = 20.
Proof.
  destruct (send_arms_transmitter 160 80 11 29 30 27 (Z.to_nat 12304)
              (fun _ => false) (mk_System (Some tx_busy) None) tx_busy
              [1; 2; 3])
    as (x' & rx' & evs & A & _ & _ & _ & _ & L & _).
  - reflexivity.
  - unfold tx_bytes, is_byte. cbn. lia.
  - lia.
  - simpl; lia.
  - lia.
  - by_evaluation.
  - exists x', rx', evs. split; [exact A | exact L].
Defined.

(** ** The Transmitter on the air *)

Lemma write_level (sym b : Z) :
  0 <= b -> negb (Z.land sym (Z.shiftl 1 b) =? 0) = Z.testbit sym b.
Proof.
  intros Hb. rewrite Z.shiftl_1_l.
  destruct (Z.testbit sym b) eqn:T.
  - destruct (Z.eqb_spec (Z.land sym (2 ^ b)) 0) as [E | _]; [| reflexivity].
    apply (f_equal (fun z => Z.testbit z b)) in E.
    rewrite Z.land_spec, T, Z.pow2_bits_true, Z.bits_0 in E by lia.
    discriminate.
  - replace (Z.land sym (2 ^ b)) with 0; [reflexivity |].
    symmetry. apply Z.bits_inj'. intros n Hn.
    rewrite Z.land_spec, Z.bits_0.
    destruct (Z.eq_dec n b) as [-> | Hne].
    + rewrite T. reflexivity.
    + rewrite Z.pow2_bits_false by lia. apply andb_false_r.
Qed.

Lemma tx_tick_write (bu : list Z) (le ix bi mc : Z) :
  0 <= ix < le -> le <= 255 -> 0 <= bi <= 5 ->
  tx_tick (Transmitter.mk bu le ix bi 0 true mc)
  = (Transmitter.mk bu le (if bi =? 5 then ix + 1 else ix)
       (if bi =? 5 then 0 else bi + 1) 1 true mc,
     [EvTxWrite (Z.land (rd bu ix) (Z.shiftl 1 bi))]).
Proof.
  intros Hix Hlt Hbi. unfold tx_tick. tx_fields.
  cbn [Z.eqb]. destruct (Z.geb_spec ix le); [lia |]. tx_fields.
  rewrite (wrap8_small (bi + 1)) by lia.
  destruct (Z.eqb_spec bi 5) as [-> | Hne].
  - cbn [Z.add Z.geb Z.compare Pos.compare Pos.compare_cont]. tx_fields.
    rewrite (wrap8_small (ix + 1)) by lia. reflexivity.
  - destruct (Z.geb_spec (bi + 1) 6); [lia |]. tx_fields. reflexivity.
Qed.

Lemma tx_tick_hold (bu : list Z) (le ix bi sa mc : Z) :
  1 <= sa <= 7 ->
  tx_tick (Transmitter.mk bu le ix bi sa true mc)
  = (Transmitter.mk bu le ix bi (if sa =? 7 then 0 else sa + 1) true mc, []).
Proof.
  intros Hsa. unfold tx_tick. tx_fields.
  destruct (Z.eqb_spec sa 0); [lia |]. tx_fields.
  rewrite wrap8_small by lia.
  destruct (Z.eqb_spec sa 7) as [-> | Hne].
  - reflexivity.
  - destruct (Z.gtb_spec (sa + 1) 7); [lia |]. reflexivity.
Qed.

Lemma last_default (l : list bool) (b d d' : bool) :
  List.last (b :: l) d = List.last (b :: l) d'.
Proof.
  revert b. induction l as [| c l IH]; intros b; [reflexivity |].
  change (List.last (c :: l) d = List.last (c :: l) d'). apply IH.
Qed.

Lemma wire_app (lvl : bool) (a b : list (list Event)) :
  wire lvl (a ++ b) = wire lvl a ++ wire (List.last (wire lvl a) lvl) b.
Proof.
  revert lvl. induction a as [| evs a IH]; intros lvl; [reflexivity |].
  cbn [app wire]. rewrite IH.
  assert (E : List.last (pin_after lvl evs :: wire (pin_after lvl evs) a) lvl
              = List.last (wire (pin_after lvl evs) a) (pin_after lvl evs)).
  { destruct (wire (pin_after lvl evs) a) as [| c l]; [reflexivity |].
    change (List.last (c :: l) lvl = List.last (c :: l) (pin_after lvl evs)).
    apply last_default. }
  rewrite E. reflexivity.
Qed.

Section OnAir.

Variables RAMP_MAX RAMP_TRANSITION RAMP_INC_RETARD RAMP_INC_ADVANCE : Z.
Variable MESSAGE_MAX : Z.

Local Abbreviation ISR_ :=
  (ISR RAMP_MAX RAMP_TRANSITION RAMP_INC_RETARD RAMP_INC_ADVANCE
     MESSAGE_MAX).
Local Abbreviation ISR_ticks_ :=
  (ISR_ticks RAMP_MAX RAMP_TRANSITION RAMP_INC_RETARD RAMP_INC_ADVANCE
     MESSAGE_MAX).

Lemma ISR_ticks_add (n m : nat) : forall (pin : nat -> bool) (s : System),
  ISR_ticks_ (n + m) pin s
  = (fst (ISR_ticks_ m (fun k => pin (n + k)%nat) (fst (ISR_ticks_ n pin s))),
     snd (ISR_ticks_ n pin s)
       ++ snd (ISR_ticks_ m (fun k => pin (n + k)%nat)
                 (fst (ISR_ticks_ n pin s)))).
Proof.
  induction n as [| n IH]; intros pin s.
  - cbn [Nat.add ISR_ticks fst snd app].
    destruct (ISR_ticks_ m _ s); reflexivity.
  - cbn [Nat.add ISR_ticks]. destruct (ISR_ (pin O) s) as [s1 evs].
    rewrite IH. destruct (ISR_ticks_ n _ s1) as [s2 rest].
    cbn [fst snd]. reflexivity.
Qed.

(** A tick on which the transmitter is and stays enabled is a tick of the
    transmitter alone. *)
Lemma ISR_tx_busy (level : bool) (x x' : Transmitter.t)
  (rx : option Receiver.t) (evs : list Event) :
  tx_tick x = (x', evs) ->
  Transmitter.m_enabled x = true ->
  Transmitter.m_enabled x' = true ->
  ISR_ level (mk_System (Some x) rx) = (mk_System (Some x') rx, evs).
Proof.
  intros Ht En En'. unfold ISR. cbn [receiver transmitter].
  assert (G : forall y q, Transmitter.m_enabled y = true ->
                rx_gate (mk_System (Some y) (Some q)) = false).
  { intros y q Hy. unfold rx_gate. cbn [receiver transmitter].
    rewrite Hy. apply andb_false_r. }
  destruct rx as [r |].
  - rewrite (G x r En). cbn [receiver transmitter]. rewrite Ht.
    cbn [receiver transmitter]. rewrite (G x' r En').
    rewrite app_nil_r. reflexivity.
  - cbn [receiver transmitter]. rewrite Ht. cbn [receiver].
    rewrite app_nil_r. reflexivity.
Qed.

(** One bit period: a write on the first tick, nothing on the next 7. *)
Lemma tx_bit_period (pin : nat -> bool) (rx : option Receiver.t)
  (bu : list Z) (le ix bi ix' bi' mc : Z) :
  0 <= ix < le -> le <= 255 -> 0 <= bi <= 5 ->
  ix' = (if bi =? 5 then ix + 1 else ix) ->
  bi' = (if bi =? 5 then 0 else bi + 1) ->
  ISR_ticks_ 8 pin
    (mk_System (Some (Transmitter.mk bu le ix bi 0 true mc)) rx)
  = (mk_System (Some (Transmitter.mk bu le ix' bi' 0 true mc)) rx,
     [[EvTxWrite (Z.land (rd bu ix) (Z.shiftl 1 bi))];
      []; []; []; []; []; []; []]).
Proof.
  intros Hix Hlt Hbi -> ->. cbn [ISR_ticks].
  rewrite (ISR_tx_busy _ _ _ _ _ (tx_tick_write bu le ix bi mc Hix Hlt Hbi)
             eq_refl eq_refl).
  rewrite (ISR_tx_busy _ _ _ _ _
             (tx_tick_hold bu le _ _ 1 mc ltac:(lia)) eq_refl eq_refl).
  change (if 1 =? 7 then 0 else 1 + 1) with 2.
  rewrite (ISR_tx_busy _ _ _ _ _
             (tx_tick_hold bu le _ _ 2 mc ltac:(lia)) eq_refl eq_refl).
  change (if 2 =? 7 then 0 else 2 + 1) with 3.
  rewrite (ISR_tx_busy _ _ _ _ _
             (tx_tick_hold bu le _ _ 3 mc ltac:(lia)) eq_refl eq_refl).
  change (if 3 =? 7 then 0 else 3 + 1) with 4.
  rewrite (ISR_tx_busy _ _ _ _ _
             (tx_tick_hold bu le _ _ 4 mc ltac:(lia)) eq_refl eq_refl).
  change (if 4 =? 7 then 0 else 4 + 1) with 5.
  rewrite (ISR_tx_busy _ _ _ _ _
             (tx_tick_hold bu le _ _ 5 mc ltac:(lia)) eq_refl eq_refl).
  change (if 5 =? 7 then 0 else 5 + 1) with 6.
  rewrite (ISR_tx_busy _ _ _ _ _
             (tx_tick_hold bu le _ _ 6 mc ltac:(lia)) eq_refl eq_refl).
  change (if 6 =? 7 then 0 else 6 + 1) with 7.
  rewrite (ISR_tx_busy _ _ _ _ _
             (tx_tick_hold bu le _ _ 7 mc ltac:(lia)) eq_refl eq_refl).
  change (if 7 =? 7 then 0 else 7 + 1) with 0.
  reflexivity.
Qed.

Lemma wire_bit_period (lvl : bool) (sym b : Z) :
  0 <= b ->
  wire lvl [[EvTxWrite (Z.land sym (Z.shiftl 1 b))];
            []; []; []; []; []; []; []]
  = repeat (Z.testbit sym b) 8.
Proof.
  intros Hb. cbn [wire pin_after fold_left]. rewrite write_level by exact Hb.
  reflexivity.
Qed.

(** One symbol: 6 bit periods, lsb first. *)
Lemma tx_symbol_period (pin : nat -> bool) (rx : option Receiver.t)
  (bu : list Z) (le ix mc : Z) (lvl : bool) :
  0 <= ix < le -> le <= 255 ->
  fst (ISR_ticks_ 48 pin
         (mk_System (Some (Transmitter.mk bu le ix 0 0 true mc)) rx))
  = mk_System (Some (Transmitter.mk bu le (ix + 1) 0 0 true mc)) rx
  /\ wire lvl
       (snd (ISR_ticks_ 48 pin
               (mk_System (Some (Transmitter.mk bu le ix 0 0 true mc)) rx)))
     = air [rd bu ix].
Proof.
  intros Hix Hlt.
  change 48%nat with (8 + (8 + (8 + (8 + (8 + 8)))))%nat.
  rewrite !ISR_ticks_add.
  rewrite (tx_bit_period _ rx bu le ix 0 ix 1 mc Hix Hlt ltac:(lia)
             eq_refl eq_refl). cbn [fst snd].
  rewrite (tx_bit_period _ rx bu le ix 1 ix 2 mc Hix Hlt ltac:(lia)
             eq_refl eq_refl). cbn [fst snd].
  rewrite (tx_bit_period _ rx bu le ix 2 ix 3 mc Hix Hlt ltac:(lia)
             eq_refl eq_refl). cbn [fst snd].
  rewrite (tx_bit_period _ rx bu le ix 3 ix 4 mc Hix Hlt ltac:(lia)
             eq_refl eq_refl). cbn [fst snd].
  rewrite (tx_bit_period _ rx bu le ix 4 ix 5 mc Hix Hlt ltac:(lia)
             eq_refl eq_refl). cbn [fst snd].
  rewrite (tx_bit_period _ rx bu le ix 5 (ix + 1) 0 mc Hix Hlt ltac:(lia)
             eq_refl eq_refl). cbn [fst snd].
  split; [reflexivity |].
  rewrite !wire_app.
  repeat (rewrite wire_bit_period by lia;
          cbn [List.last repeat]).
  cbn [air flat_map app repeat]. reflexivity.
Qed.

Lemma air_cons (sym : Z) (syms : list Z) :
  air (sym :: syms) = air [sym] ++ air syms.
Proof. unfold air. cbn [flat_map]. rewrite app_nil_r. reflexivity. Qed.

Lemma tx_symbols (rx : option Receiver.t) (le mc : Z) (post : list Z)
  (syms : list Z) : forall (pre : list Z) (pin : nat -> bool) (lvl : bool),
  le <= 255 ->
  Z.of_nat (length pre) + Z.of_nat (length syms) <= le ->
  fst (ISR_ticks_ (48 * length syms) pin
         (mk_System
            (Some (Transmitter.mk (pre ++ syms ++ post) le
                     (Z.of_nat (length pre)) 0 0 true mc)) rx))
  = mk_System
      (Some (Transmitter.mk (pre ++ syms ++ post) le
               (Z.of_nat (length pre) + Z.of_nat (length syms)) 0 0 true mc))
      rx
  /\ wire lvl
       (snd (ISR_ticks_ (48 * length syms) pin
               (mk_System
                  (Some (Transmitter.mk (pre ++ syms ++ post) le
                           (Z.of_nat (length pre)) 0 0 true mc)) rx)))
     = air syms.
Proof.
  induction syms as [| sym syms IH]; intros pre pin lvl Hle Hfit.
  - cbn [length Nat.mul ISR_ticks fst snd wire]. rewrite Z.add_0_r.
    split; reflexivity.
  - cbn [length] in *.
    replace (48 * S (length syms))%nat with (48 + 48 * length syms)%nat
      by lia.
    rewrite ISR_ticks_add. cbn [fst snd].
    destruct (tx_symbol_period pin rx (pre ++ (sym :: syms) ++ post) le
                (Z.of_nat (length pre)) mc lvl ltac:(lia) Hle) as [S1 W1].
    rewrite S1. rewrite wire_app, W1.
    replace (pre ++ (sym :: syms) ++ post) with ((pre ++ [sym]) ++ syms ++ post)
      in * by (rewrite <- app_assoc; reflexivity).
    replace (Z.of_nat (length pre) + 1) with (Z.of_nat (length (pre ++ [sym])))
      by (rewrite length_app; cbn [length]; lia).
    destruct (IH (pre ++ [sym]) (fun k => pin (48 + k)%nat)
                (List.last (air [rd ((pre ++ [sym]) ++ syms ++ post)
                                   (Z.of_nat (length pre))]) lvl) Hle)
      as [S2 W2].
    { rewrite length_app. cbn [length]. lia. }
    rewrite S2, W2. split.
    + f_equal. f_equal. f_equal. rewrite length_app. cbn [length]. lia.
    + rewrite (air_cons sym). f_equal. f_equal. f_equal.
      rewrite <- app_assoc. apply rd_app_mid.
Qed.

Lemma tx_tick_end (bu : list Z) (le ix bi mc : Z) :
  le <= ix ->
  tx_tick (Transmitter.mk bu le ix bi 0 true mc)
  = (Transmitter.mk bu le ix bi 1 false (wrap8 (mc + 1)), [EvTxEnd]).
Proof.
  intros H. unfold tx_tick. tx_fields. cbn [Z.eqb].
  destruct (Z.geb_spec ix le); [| lia]. tx_fields. reflexivity.
Qed.

(** X3: what an armed Transmitter puts on the air.  From the state in
    which [send] leaves it, each of the [m_length] symbols of the buffer
    goes out in turn, least significant bit first, 6 bits to a symbol, each
    bit held for 8 ticks; the receiver registered on the same device is not
    touched meanwhile.  The tick after the last bit period ends the
    transmission: the Transmitter is disabled and the sent counter goes up
    by one (modulo 256). *)
Theorem transmitter_sends_symbols_lsb_first (pin : nat -> bool)
  (level lvl : bool) (x : Transmitter.t) (rx : option Receiver.t) :
  Transmitter.m_enabled x = true ->
  Transmitter.m_index x = 0 ->
  Transmitter.m_bit x = 0 ->
  Transmitter.m_sample x = 0 ->
  0 <= Transmitter.m_length x <= 255 ->
  Transmitter.m_length x <= Z.of_nat (length (Transmitter.m_buffer x)) ->
  let n := (48 * Z.to_nat (Transmitter.m_length x))%nat in
  let s := mk_System (Some x) rx in
  let s' := mk_System
              (Some (Transmitter.set_m_index (Transmitter.m_length x) x))
              rx in
  wire lvl (snd (ISR_ticks_ n pin s))
    = air (take (Z.to_nat (Transmitter.m_length x)) (Transmitter.m_buffer x))
  /\ fst (ISR_ticks_ n pin s) = s'
  /\ transmitter (fst (ISR_ level s'))
     = Some (Transmitter.set_m_msg_count
               (wrap8 (Transmitter.m_msg_count x + 1))
               (Transmitter.set_m_enabled false
                  (Transmitter.set_m_sample 1
                     (Transmitter.set_m_index (Transmitter.m_length x) x)))).
Proof.
  destruct x as [bu le ix bi sa en mc]. cbv zeta. tx_fields.
  intros -> -> -> -> Hle Hbuf.
  assert (Hsplit : bu = [] ++ take (Z.to_nat le) bu ++ drop (Z.to_nat le) bu)
    by (cbn [app]; rewrite take_drop; reflexivity).
  assert (Hlen : length (take (Z.to_nat le) bu) = Z.to_nat le)
    by (rewrite length_take; lia).
  destruct (tx_symbols rx le mc (drop (Z.to_nat le) bu)
              (take (Z.to_nat le) bu) [] pin lvl ltac:(lia)) as [S W].
  { cbn [length]. lia. }
  rewrite <- Hsplit, Hlen in S, W. cbn [length] in S, W.
  change (Z.of_nat 0) with 0 in *.
  replace (0 + Z.of_nat (Z.to_nat le)) with le in S by lia.
  split; [exact W |]. split.
  - exact S.
  - pose proof (ISR_transmitter RAMP_MAX RAMP_TRANSITION RAMP_INC_RETARD
                  RAMP_INC_ADVANCE MESSAGE_MAX level
                  (mk_System (Some (Transmitter.mk bu le le 0 0 true mc)) rx)
                  (Transmitter.mk bu le le 0 0 true mc) eq_refl) as T.
    rewrite tx_tick_end in T by lia. exact T.
Qed.

End OnAir.

Lemma transmitter_sends_symbols_lsb_first_witness :
  wire false
    (snd (ISR_ticks 160 80 11 29 30 (48 * 2) (fun _ => false)
            (mk_System
               (Some (Transmitter.mk [0x2a; 0x38; 0; 0] 2 0 0 0 true 0))
               None)))
  = air [0x2a; 0x38].
Proof.
  pose proof (transmitter_sends_symbols_lsb_first 160 80 11 29 30
                (fun _ => false) false false
                (Transmitter.mk [0x2a; 0x38; 0; 0] 2 0 0 0 true 0) None
                eq_refl eq_refl eq_refl eq_refl
                ltac:(by_evaluation) ltac:(by_evaluation)) as T.
  cbv zeta in T. destruct T as [W _]. exact W.
Defined.

(** ** What the timer calculator can return *)

Section TimerSound.

Variable ulticks_of : Z -> Z -> Z.

Lemma timer_calc_hit (speed max_ticks i : Z) :
  0 <= max_ticks < 65536 ->
  speed <> 0 ->
  1 <= i <= 5 ->
  timer_loop ulticks_of speed max_ticks 1 0 6
  = (i, ulticks_of speed (rd prescalers i)) ->
  2 <= ulticks_of speed (rd prescalers i) < max_ticks ->
  _timer_calc ulticks_of speed max_ticks
  = (i, ulticks_of speed (rd prescalers i)).
Proof.
  intros Hmax Hs Hi E Hfit. unfold _timer_calc.
  destruct (Z.eqb_spec speed 0); [contradiction |]. rewrite E.
  destruct (Z.eqb_spec i 6); [lia |].
  destruct (Z.ltb_spec (ulticks_of speed (rd prescalers i)) 2); [lia |].
  destruct (Z.gtb_spec (ulticks_of speed (rd prescalers i)) max_ticks);
    [lia |].
  cbn [orb]. rewrite wrap16_small by lia. reflexivity.
Qed.

(** X4: every result of the timer calculator is of one of three kinds.
    The error indication (0, 0).  Or an index from 1 to 5 with the tick
    count of that divider, which is at least 2 and below max_ticks, while
    no smaller divider qualifies.  Or index 7 with exactly max_ticks, when
    none of the six candidates qualifies and the sentinel 3333 gives
    exactly max_ticks.  In particular the returned tick count is never 1,
    never above max_ticks, and the index is never 6. *)
Theorem timer_calc_results (speed max_ticks p n : Z) :
  0 <= max_ticks < 65536 ->
  _timer_calc ulticks_of speed max_ticks = (p, n) ->
  let ticks i := ulticks_of speed (rd prescalers i) in
  let fits i := 2 <= ticks i < max_ticks in
  (p = 0 /\ n = 0)
  \/ (1 <= p <= 5 /\ speed <> 0 /\ n = ticks p /\ fits p
      /\ forall j, 1 <= j < p -> ~ fits j)
  \/ (p = 7 /\ speed <> 0 /\ n = max_ticks /\ ticks 6 = max_ticks
      /\ forall j, 1 <= j <= 6 -> ~ fits j).
Proof.
  intros Hmax E ticks fits.
  destruct (Z.eq_dec speed 0) as [-> | Hs].
  { left. unfold _timer_calc in E. cbn [Z.eqb] in E.
    injection E as <- <-. split; reflexivity. }
  assert (D : forall i, fits i \/ ~ fits i) by (intros i; unfold fits; lia).
  assert (Hit : forall i, 1 <= i <= 5 ->
            timer_loop ulticks_of speed max_ticks 1 0 6 = (i, ticks i) ->
            fits i -> (forall j, 1 <= j < i -> ~ fits j) ->
            (p = 0 /\ n = 0)
            \/ (1 <= p <= 5 /\ speed <> 0 /\ n = ticks p /\ fits p
                /\ forall j, 1 <= j < p -> ~ fits j)
            \/ (p = 7 /\ speed <> 0 /\ n = max_ticks /\ ticks 6 = max_ticks
                /\ forall j, 1 <= j <= 6 -> ~ fits j)).
  { intros i Hi El Hfit Hprev.
    rewrite (timer_calc_hit speed max_ticks i Hmax Hs Hi El Hfit) in E.
    injection E as <- <-. right. left. auto. }
  destruct (D 1) as [F1 | N1].
  { apply (Hit 1); [lia | apply timer_loop_hit; exact F1 | exact F1 |].
    intros j Hj. lia. }
  destruct (D 2) as [F2 | N2].
  { apply (Hit 2); [lia | | exact F2 |].
    - rewrite timer_loop_skip by exact N1. apply timer_loop_hit. exact F2.
    - intros j Hj. replace j with 1 by lia. exact N1. }
  destruct (D 3) as [F3 | N3].
  { apply (Hit 3); [lia | | exact F3 |].
    - rewrite timer_loop_skip by exact N1.
      rewrite timer_loop_skip by exact N2. apply timer_loop_hit. exact F3.
    - intros j Hj. assert (C : j = 1 \/ j = 2) by lia.
      destruct C as [-> | ->]; assumption. }
  destruct (D 4) as [F4 | N4].
  { apply (Hit 4); [lia | | exact F4 |].
    - rewrite timer_loop_skip by exact N1.
      rewrite timer_loop_skip by exact N2.
      rewrite timer_loop_skip by exact N3. apply timer_loop_hit. exact F4.
    - intros j Hj. assert (C : j = 1 \/ j = 2 \/ j = 3) by lia.
      destruct C as [-> | [-> | ->]]; assumption. }
  destruct (D 5) as [F5 | N5].
  { apply (Hit 5); [lia | | exact F5 |].
    - rewrite timer_loop_skip by exact N1.
      rewrite timer_loop_skip by exact N2.
      rewrite timer_loop_skip by exact N3.
      rewrite timer_loop_skip by exact N4. apply timer_loop_hit. exact F5.
    - intros j Hj. assert (C : j = 1 \/ j = 2 \/ j = 3 \/ j = 4) by lia.
      destruct C as [-> | [-> | [-> | ->]]]; assumption. }
  unfold _timer_calc in E.
  destruct (Z.eqb_spec speed 0); [contradiction |].
  rewrite timer_loop_skip in E by exact N1.
  rewrite timer_loop_skip in E by exact N2.
  rewrite timer_loop_skip in E by exact N3.
  rewrite timer_loop_skip in E by exact N4.
  rewrite timer_loop_skip in E by exact N5.
  change (1 + 1 + 1 + 1 + 1 + 1) with 6 in E.
  destruct (D 6) as [F6 | N6].
  - rewrite timer_loop_hit in E by exact F6. cbn [Z.eqb Pos.eqb orb] in E.
    injection E as <- <-. left. split; reflexivity.
  - rewrite timer_loop_skip in E by exact N6. cbn [timer_loop] in E.
    change (6 + 1) with 7 in E. change (7 =? 6) with false in E.
    fold (ticks 6) in E. unfold fits in N6.
    destruct (Z.ltb_spec (ticks 6) 2);
      destruct (Z.gtb_spec (ticks 6) max_ticks); cbn [orb] in E;
      injection E as <- <-; try (left; split; reflexivity).
    right. right. assert (T6 : ticks 6 = max_ticks) by lia.
    split; [reflexivity |]. split; [exact Hs |].
    split; [rewrite T6; apply wrap16_small; lia |].
    split; [exact T6 |].
    intros j Hj.
    assert (C : j = 1 \/ j = 2 \/ j = 3 \/ j = 4 \/ j = 5 \/ j = 6) by lia.
    destruct C as [-> | [-> | [-> | [-> | [-> | ->]]]]]; assumption.
Qed.

End TimerSound.

Lemma timer_calc_results_witness :
  _timer_calc (exact_ticks 8000000) 3915 255 = (2, 31)
  /\ 2 <= exact_ticks 8000000 3915 (rd prescalers 2) < 255.
Proof.
  split; [by_evaluation |].
  pose proof (timer_calc_results (exact_ticks 8000000) 3915 255 2 31
                ltac:(lia) ltac:(by_evaluation)) as T.
  cbv zeta in T.
  destruct T as [[T _] | [(_ & _ & _ & T & _) | (T & _)]];
    [discriminate | exact T | discriminate].
Defined.

(** ** The checksum catches every error within a byte *)

Lemma crc_mix_tables :
  forallb (fun a => forallb (fun b =>
      (Z.land (wrap16 (Z.shiftl a 8)) b =? 0)
      && (implb (crc_mix a =? crc_mix b) (a =? b))
      && (implb (hi8 (crc_mix a) =? hi8 (crc_mix b)) (a =? b))
      && (hi8 b =? 0)) bytes256) bytes256 = true.
Proof. vm_compute. reflexivity. Qed.

Lemma crc_mix_facts (a b : Z) :
  is_byte a -> is_byte b ->
  Z.land (wrap16 (Z.shiftl a 8)) b = 0
  /\ (crc_mix a = crc_mix b -> a = b)
  /\ (hi8 (crc_mix a) = hi8 (crc_mix b) -> a = b)
  /\ hi8 b = 0.
Proof.
  intros Ha Hb. pose proof crc_mix_tables as T.
  rewrite forallb_forall in T. specialize (T a (in_bytes256 a Ha)).
  rewrite forallb_forall in T. specialize (T b (in_bytes256 b Hb)).
  rewrite !andb_true_iff in T. destruct T as (((T1 & T2) & T3) & T4).
  apply Z.eqb_eq in T1, T4.
  split; [exact T1 |]. split; [| split; [| exact T4]].
  - intros E. apply Z.eqb_eq in E. rewrite E in T2. apply Z.eqb_eq, T2.
  - intros E. apply Z.eqb_eq in E. rewrite E in T3. apply Z.eqb_eq, T3.
Qed.

Lemma lo8_byte (c : Z) : is_byte (lo8 c).
Proof.
  unfold lo8, is_byte. change 255 with (Z.ones 8).
  rewrite Z.land_ones by lia. apply Z.mod_pos_bound. lia.
Qed.

Lemma hi8_byte (c : Z) : 0 <= c < 65536 -> is_byte (hi8 c).
Proof.
  intros H. unfold hi8, is_byte. rewrite Z.shiftr_div_pow2 by lia. split.
  - apply Z.div_pos; lia.
  - apply Z.div_lt_upper_bound; lia.
Qed.

Lemma lxor_byte (a b : Z) : is_byte a -> is_byte b -> is_byte (Z.lxor a b).
Proof.
  unfold is_byte. intros Ha Hb. change 256 with (2 ^ 8) in *.
  apply lxor_below; lia.
Qed.

(** The update is the mix of data and low byte, with the high byte of the
    old CRC in the low byte of the new one. *)
Lemma crc_update_split (c d : Z) :
  0 <= c < 65536 -> is_byte d ->
  _crc_ccitt_update c d = Z.lxor (crc_mix (Z.lxor d (lo8 c))) (hi8 c).
Proof.
  intros Hc Hd. unfold crc_mix, _crc_ccitt_update.
  change (lo8 0) with 0. change (hi8 0) with 0.
  rewrite (Z.lxor_0_r (Z.lxor d (lo8 c))).
  set (t := Z.lxor d (lo8 c)).
  set (d2 := wrap8 (Z.lxor t (Z.shiftl t 4))).
  destruct (crc_mix_facts d2 (hi8 c) (wrap8_range _) (hi8_byte c Hc))
    as (Hdis & _).
  rewrite Z.lor_0_r.
  rewrite <- (Z.lxor_lor _ _ Hdis).
  set (X := wrap16 (Z.shiftl d2 8)). set (A := wrap8 (Z.shiftr d2 4)).
  set (B := wrap16 (Z.shiftl d2 3)). set (h := hi8 c).
  apply Z.bits_inj'. intros n _. rewrite !Z.lxor_spec.
  destruct (Z.testbit X n), (Z.testbit h n), (Z.testbit A n),
    (Z.testbit B n); reflexivity.
Qed.

Lemma lxor_cancel_r (a b h : Z) : Z.lxor a h = Z.lxor b h -> a = b.
Proof.
  intros E. apply (f_equal (fun z => Z.lxor z h)) in E.
  rewrite !Z.lxor_assoc, Z.lxor_nilpotent, !Z.lxor_0_r in E. exact E.
Qed.

Lemma lxor_cancel_l (a b h : Z) : Z.lxor h a = Z.lxor h b -> a = b.
Proof. rewrite !(Z.lxor_comm h). apply lxor_cancel_r. Qed.

(** Different data bytes lead to different CRCs. *)
Lemma crc_update_data_inj (c d d' : Z) :
  0 <= c < 65536 -> is_byte d -> is_byte d' ->
  _crc_ccitt_update c d = _crc_ccitt_update c d' -> d = d'.
Proof.
  intros Hc Hd Hd' E. rewrite !crc_update_split in E by assumption.
  apply lxor_cancel_r in E.
  apply (proj1 (proj2 (crc_mix_facts _ _
           (lxor_byte _ _ Hd (lo8_byte c))
           (lxor_byte _ _ Hd' (lo8_byte c))))) in E.
  apply lxor_cancel_r in E. exact E.
Qed.

Lemma hi8_lo8 (c : Z) : 0 <= c -> c = 256 * hi8 c + lo8 c.
Proof.
  intros H. unfold hi8, lo8. rewrite Z.shiftr_div_pow2 by lia.
  change 255 with (Z.ones 8). rewrite Z.land_ones by lia.
  change (2 ^ 8) with 256. apply Z.div_mod. lia.
Qed.

(** Different CRCs stay different over the same data byte. *)
Lemma crc_update_state_inj (c c' d : Z) :
  0 <= c < 65536 -> 0 <= c' < 65536 -> is_byte d ->
  _crc_ccitt_update c d = _crc_ccitt_update c' d -> c = c'.
Proof.
  intros Hc Hc' Hd E. rewrite !crc_update_split in E by assumption.
  set (t := Z.lxor d (lo8 c)) in *. set (t' := Z.lxor d (lo8 c')) in *.
  assert (Ht : is_byte t) by (apply lxor_byte; [exact Hd | apply lo8_byte]).
  assert (Ht' : is_byte t') by (apply lxor_byte; [exact Hd | apply lo8_byte]).
  assert (Et : t = t').
  { apply (crc_mix_facts t t' Ht Ht').
    apply (f_equal hi8) in E. unfold hi8 in E at 1 3.
    rewrite !Z.shiftr_lxor in E. fold (hi8 (crc_mix t)) in E.
    fold (hi8 (crc_mix t')) in E. fold (hi8 (hi8 c)) in E.
    fold (hi8 (hi8 c')) in E.
    destruct (crc_mix_facts t (hi8 c) Ht (hi8_byte c Hc)) as (_ & _ & _ & Z1).
    destruct (crc_mix_facts t (hi8 c') Ht (hi8_byte c' Hc'))
      as (_ & _ & _ & Z2).
    rewrite Z1, Z2, !Z.lxor_0_r in E. exact E. }
  rewrite Et in E. apply lxor_cancel_l in E.
  subst t t'. apply lxor_cancel_l in Et.
  rewrite (hi8_lo8 c), (hi8_lo8 c') by lia. rewrite E, Et. reflexivity.
Qed.

Lemma CRC_loop_state_inj (l : list Z) : forall (n : nat) (c c' : Z),
  Forall is_byte l ->
  0 <= c < 65536 -> 0 <= c' < 65536 -> c <> c' ->
  CRC_loop c l n <> CRC_loop c' l n.
Proof.
  assert (B0 : is_byte 0) by (unfold is_byte; lia).
  induction l as [| b l IH]; intros n.
  - induction n as [| n IHn]; intros c c' _ Hc Hc' Hne; cbn [CRC_loop];
      [exact Hne |].
    apply IHn; [constructor | apply crc_update_range, Hc
                | apply crc_update_range, Hc' |].
    intros E. apply Hne. exact (crc_update_state_inj c c' 0 Hc Hc' B0 E).
  - intros c c' Hl Hc Hc' Hne. destruct n as [| n]; cbn [CRC_loop];
      [exact Hne |].
    inversion Hl as [| ? ? Hb Hl']; subst.
    apply IH; [exact Hl' | apply crc_update_range, Hc
               | apply crc_update_range, Hc' |].
    intros E. apply Hne. exact (crc_update_state_inj c c' b Hc Hc' Hb E).
Qed.


Lemma CRC_loop_change (l : list Z) : forall (i n : nat) (v c : Z),
  Forall is_byte l ->
  (i < length l)%nat -> (i < n)%nat ->
  is_byte v -> v <> rd l (Z.of_nat i) -> 0 <= c < 65536 ->
  CRC_loop c (wr l (Z.of_nat i) v) n <> CRC_loop c l n.
Proof.
  induction l as [| b l IH]; intros i n v c Hl Hi Hn Hv Hne Hc;
    [cbn [length] in Hi; lia |].
  inversion Hl as [| ? ? Hb Hl']; subst.
  destruct n as [| n]; [lia |].
  destruct i as [| i].
  - unfold wr, rd in *. cbn [Z.of_nat Z.to_nat nth] in *.
    change (<[0%nat:=v]> (b :: l)) with (v :: l).
    cbn [CRC_loop].
    apply CRC_loop_state_inj;
      [exact Hl' | apply crc_update_range, Hc | apply crc_update_range, Hc |].
    intros E. apply Hne.
    exact (crc_update_data_inj c _ _ Hc Hv Hb E).
  - assert (E : wr (b :: l) (Z.of_nat (S i)) v = b :: wr l (Z.of_nat i) v).
    { unfold wr. rewrite !Nat2Z.id. reflexivity. }
    assert (R : rd (b :: l) (Z.of_nat (S i)) = rd l (Z.of_nat i)).
    { unfold rd. rewrite !Nat2Z.id. reflexivity. }
    rewrite E. cbn [CRC_loop]. cbn [length] in Hi. rewrite R in Hne.
    apply IH; [exact Hl' | lia | lia | exact Hv | exact Hne |].
    apply crc_update_range, Hc.
Qed.




(** ** Where the Receiver writes *)

Section StoreBound.

Variables RAMP_MAX RAMP_TRANSITION RAMP_INC_RETARD RAMP_INC_ADVANCE : Z.
Variable MESSAGE_MAX : Z.

Local Abbreviation PLL_ :=
  (Receiver.PLL RAMP_MAX RAMP_TRANSITION RAMP_INC_RETARD RAMP_INC_ADVANCE
     MESSAGE_MAX).
Local Abbreviation run_ :=
  (run RAMP_MAX RAMP_TRANSITION RAMP_INC_RETARD RAMP_INC_ADVANCE
     MESSAGE_MAX).

Lemma PLL_frame_store (q : Receiver.t) :
  framing_inv MESSAGE_MAX q ->
  Receiver.m_buffer (Receiver.PLL_frame MESSAGE_MAX q) = Receiver.m_buffer q
  \/ (Receiver.m_active q = true
      /\ 0 <= Receiver.m_length q < MESSAGE_MAX
      /\ Receiver.m_buffer (Receiver.PLL_frame MESSAGE_MAX q)
         = wr (Receiver.m_buffer q) (Receiver.m_length q)
             (Receiver.decode_byte (Receiver.m_bits q))).
Proof.
  unfold Receiver.PLL_frame, Receiver.PLL_store.
  destruct q as [en sa la ra ig bi ac bc le co bu dn gd bd].
  unfold framing_inv, framed. rx_fields.
  intros (Hbuf & Hdone & Hact). destruct ac.
  - destruct (Hact eq_refl) as [_ Hfr].
    destruct (wrap8 (bc + 1) >=? 12); [| left; reflexivity].
    destruct (Z.eqb_spec le 0) as [-> | Hle].
    + rx_fields.
      destruct (Z.ltb_spec (Receiver.decode_byte bi) 4);
        destruct (Z.gtb_spec (Receiver.decode_byte bi) MESSAGE_MAX);
        cbn [orb]; rx_fields; try (left; reflexivity).
      right. split; [reflexivity |]. split; [lia |].
      case_match; reflexivity.
    + destruct Hfr as [-> | (Hl & Hh & Hc & Hm)]; [lia |].
      right. split; [reflexivity |]. split; [lia |].
      case_match; reflexivity.
  - left. destruct (bi =? 2872); reflexivity.
Qed.

(** X6: the Receiver never stores past its buffer.  After any run from a
    Receiver that is neither active nor done, a step either leaves the
    buffer as it is, or it is the step of an active frame that stores the
    byte decoded from the window at index [m_length], and that index is
    below MESSAGE_MAX. *)
Theorem PLL_stores_below_message_max (acts : list action)
  (r0 : Receiver.t) :
  Receiver.m_active r0 = false ->
  Receiver.m_done r0 = false ->
  Receiver.m_buffer r0 <> [] ->
  let r := run_ acts r0 in
  Receiver.m_buffer (PLL_ r) = Receiver.m_buffer r
  \/ (Receiver.m_active r = true
      /\ 0 <= Receiver.m_length r < MESSAGE_MAX
      /\ Receiver.m_buffer (PLL_ r)
         = wr (Receiver.m_buffer r) (Receiver.m_length r)
             (Receiver.decode_byte (Receiver.m_bits (PLL_ r)))).
Proof.
  intros Ha Hd Hb r.
  assert (I0 : framing_inv MESSAGE_MAX r0).
  { unfold framing_inv. rewrite Ha, Hd.
    split; [exact Hb |]. split; intros; discriminate. }
  pose proof (framing_inv_run RAMP_MAX RAMP_TRANSITION RAMP_INC_RETARD
                RAMP_INC_ADVANCE MESSAGE_MAX acts r0 I0) as I.
  fold r in I. clearbody r. unfold Receiver.PLL.
  destruct (PLL_sample_frame RAMP_MAX RAMP_TRANSITION RAMP_INC_RETARD
              RAMP_INC_ADVANCE r) as (Sa & _ & Sl & Sc & Su & Sd & _).
  destruct (PLL_clock_frame RAMP_MAX RAMP_TRANSITION RAMP_INC_RETARD
              RAMP_INC_ADVANCE r) as (Ea & _ & El & Ec & Eu & Ed & _).
  destruct (_ >=? RAMP_MAX); [| left; exact Su].
  set (q := Receiver.PLL_vote RAMP_MAX _) in *.
  assert (Iq : framing_inv MESSAGE_MAX q)
    by (apply (framing_inv_fields MESSAGE_MAX _ r); assumption).
  destruct (PLL_frame_clock MESSAGE_MAX q) as (_ & _ & Eb & _).
  destruct (PLL_frame_store q Iq) as [E | (A & L & E)].
  - left. rewrite E. exact Eu.
  - right. rewrite Eb, E, Eu, <- Ea, <- El. auto.
Qed.

End StoreBound.

Lemma PLL_stores_below_message_max_witness :
  let r := run 160 80 11 29 30
             (listen (firstn 575 air_123)
              ++ [ASample (nth 575 air_123 false)]) rx_idle in
  Receiver.m_active r = true
  /\ Receiver.m_length r = 1
  /\ Receiver.m_buffer (Receiver.PLL 160 80 11 29 30 r)
     = wr (Receiver.m_buffer r) 1 1.
Proof.
  pose proof (PLL_stores_below_message_max 160 80 11 29 30
                (listen (firstn 575 air_123)
                 ++ [ASample (nth 575 air_123 false)]) rx_idle
                eq_refl eq_refl ltac:(discriminate)) as T.
  cbv zeta in T |- *. destruct T as [E | (A & L & E)].
  - exfalso. revert E. vm_compute. discriminate.
  - split; [exact A |]. split; [vm_compute; reflexivity |].
    rewrite E. vm_compute. reflexivity.
Defined.

(** ** The clock recovery stays within its 8 bits *)

Section ClockBounds.

Variables RAMP_MAX RAMP_TRANSITION RAMP_INC_RETARD RAMP_INC_ADVANCE : Z.
Variable MESSAGE_MAX : Z.

Local Abbreviation PLL_sample_ :=
  (Receiver.PLL_sample RAMP_MAX RAMP_TRANSITION RAMP_INC_RETARD
     RAMP_INC_ADVANCE).
Local Abbreviation PLL_ :=
  (Receiver.PLL RAMP_MAX RAMP_TRANSITION RAMP_INC_RETARD RAMP_INC_ADVANCE
     MESSAGE_MAX).
Local Abbreviation run_ :=
  (run RAMP_MAX RAMP_TRANSITION RAMP_INC_RETARD RAMP_INC_ADVANCE
     MESSAGE_MAX).

(** Every increment is positive, no more than RAMP_MAX, and does not take
    a ramp below RAMP_MAX past 8 bits. *)
Hypothesis INC : 0 < Receiver.RAMP_INC RAMP_MAX <= RAMP_MAX.
Hypothesis RETARD : 0 < RAMP_INC_RETARD <= RAMP_MAX.
Hypothesis ADVANCE : 0 < RAMP_INC_ADVANCE <= RAMP_MAX.
Hypothesis INC_TOP : RAMP_MAX + Receiver.RAMP_INC RAMP_MAX <= 256.
Hypothesis RETARD_TOP : RAMP_MAX + RAMP_INC_RETARD <= 256.
Hypothesis ADVANCE_TOP : RAMP_MAX + RAMP_INC_ADVANCE <= 256.

Lemma clock_sample_exact (r : Receiver.t) :
  clock_inv RAMP_MAX r ->
  Receiver.m_pll_ramp r < Receiver.m_pll_ramp (PLL_sample_ r)
  /\ Receiver.m_pll_ramp (PLL_sample_ r) < 256
  /\ Receiver.m_pll_ramp (PLL_sample_ r) < 2 * RAMP_MAX
  /\ Receiver.m_integrator (PLL_sample_ r)
     = Receiver.m_integrator r + (if Receiver.m_sample r then 1 else 0)
  /\ Receiver.m_bits (PLL_sample_ r) = Receiver.m_bits r.
Proof.
  unfold clock_inv, Receiver.PLL_sample.
  destruct r as [en sa la ra ig bi ac bc le co bu dn gd bd]. rx_fields.
  intros (Hr & Hi & Hb).
  destruct sa, la; cbv zeta; rx_fields; cbn [Bool.eqb negb]; rx_fields;
    try destruct (ra <? RAMP_TRANSITION); rx_fields;
    rewrite ?(wrap8_small (ig + 1)) by lia;
    rewrite wrap8_small by lia; repeat split; lia.
Qed.

Lemma clock_inv_PLL (r : Receiver.t) :
  clock_inv RAMP_MAX r -> clock_inv RAMP_MAX (PLL_ r).
Proof.
  intros H. destruct (clock_sample_exact r H) as (Hr & Hr1 & Hr2 & Hi & Hb).
  unfold Receiver.PLL.
  set (q := PLL_sample_ r) in *. clearbody q.
  destruct H as (Hr0 & Hi0 & Hb0).
  assert (Hiq : 0 <= Receiver.m_integrator q <= Receiver.m_pll_ramp q)
    by (destruct (Receiver.m_sample r); lia).
  destruct (Z.geb_spec (Receiver.m_pll_ramp q) RAMP_MAX) as [G | G].
  - destruct (PLL_frame_clock MESSAGE_MAX (Receiver.PLL_vote RAMP_MAX q))
      as (Er & Ei & Eb & _).
    unfold clock_inv. rewrite Er, Ei, Eb. clear Er Ei Eb.
    unfold Receiver.PLL_vote.
    destruct q as [en sa la ra ig bi ac bc le co bu dn gd bd]. rx_fields.
    subst bi.
    pose proof (window_shift (Receiver.m_bits r) (ig >=? 5) Hb0) as W.
    cbv zeta in W. destruct W as (W & _).
    destruct (ig >=? 5); rx_fields; rewrite wrap8_small by lia;
      (split; [lia | split; [lia | exact W]]).
  - unfold clock_inv. rewrite Hb. split; [lia | split; [lia | exact Hb0]].
Qed.

Lemma clock_inv_run (acts : list action) : forall r : Receiver.t,
  clock_inv RAMP_MAX r -> clock_inv RAMP_MAX (run_ acts r).
Proof.
  unfold run. induction acts as [| a acts IH]; intros r H; cbn [fold_left];
    [exact H |].
  apply IH. destruct a as [level | | buf len]; cbn [act].
  - exact H.
  - apply clock_inv_PLL, H.
  - unfold Receiver.recv. destruct (negb (Receiver.m_done r));
      cbn [Receiver.recv_this]; exact H.
Qed.

(** X7: the clock recovery never wraps around.  Start with the ramp below
    RAMP_MAX, the integrator no more than the ramp and a window of 12
    bits; then after whatever the interrupt handler and the foreground do,
    these bounds hold again, and in the next step the 8-bit additions are
    exact: the ramp grows, to less than 256 and less than twice RAMP_MAX,
    and the integrator counts the sample. *)
Theorem clock_never_wraps (acts : list action) (r0 : Receiver.t) :
  clock_inv RAMP_MAX r0 ->
  let r := run_ acts r0 in
  clock_inv RAMP_MAX r
  /\ Receiver.m_pll_ramp r < Receiver.m_pll_ramp (PLL_sample_ r)
  /\ Receiver.m_pll_ramp (PLL_sample_ r) < 256
  /\ Receiver.m_pll_ramp (PLL_sample_ r) < 2 * RAMP_MAX
  /\ Receiver.m_integrator (PLL_sample_ r)
     = Receiver.m_integrator r + (if Receiver.m_sample r then 1 else 0)
  /\ Receiver.m_integrator (PLL_sample_ r) < 256.
Proof.
  intros H r. pose proof (clock_inv_run acts r0 H) as I. fold r in I.
  destruct (clock_sample_exact r I) as (Hr & Hr1 & Hr2 & Hi & _).
  split; [exact I |]. repeat (split; [assumption |]).
  destruct I as (? & ? & _). destruct (Receiver.m_sample r); lia.
Qed.

End ClockBounds.

Lemma clock_never_wraps_witness :
  clock_inv 160 rx_idle
  /\ clock_inv 160 (run 160 80 11 29 30 (listen air_123) rx_idle).
Proof.
  assert (H : clock_inv 160 rx_idle) by (unfold clock_inv; by_evaluation).
  split; [exact H |].
  pose proof (clock_never_wraps 160 80 11 29 30 ltac:(by_evaluation)
                ltac:(lia) ltac:(lia) ltac:(by_evaluation) ltac:(lia)
                ltac:(lia) (listen air_123) rx_idle H)
    as T.
  cbv zeta in T. destruct T as (T & _). exact T.
Defined.

(** ** Clock recovery and framing taken apart *)

Lemma with_clock_of (r : Receiver.t) :
  with_clock (Receiver.m_sample r) (clock_of r) r = r.
Proof. destruct r. reflexivity. Qed.

Lemma clock_of_with (v : bool) (c : clock) (r : Receiver.t) :
  clock_of (with_clock v c r) = c.
Proof. destruct r, c as [[la ra] ig]. reflexivity. Qed.

Lemma with_clock_twice (v v' : bool) (c c' : clock) (r : Receiver.t) :
  with_clock v c (with_clock v' c' r) = with_clock v c r.
Proof. destruct r, c as [[la ra] ig], c' as [[la' ra'] ig']. reflexivity. Qed.

Lemma PLL_frame_with_clock (MESSAGE_MAX : Z) (v : bool) (c : clock)
  (r : Receiver.t) :
  Receiver.PLL_frame MESSAGE_MAX (with_clock v c r)
  = with_clock v c (Receiver.PLL_frame MESSAGE_MAX r).
Proof.
  destruct r as [en sa la ra ig bi ac bc le co bu dn gd bd].
  destruct c as [[la' ra'] ig'].
  unfold Receiver.PLL_frame, Receiver.PLL_store, with_clock. rx_fields.
  repeat case_match; reflexivity.
Qed.

Lemma rx_bit_with_clock (MESSAGE_MAX : Z) (b v : bool) (c : clock)
  (r : Receiver.t) :
  rx_bit MESSAGE_MAX b (with_clock v c r)
  = with_clock v c (rx_bit MESSAGE_MAX b r).
Proof.
  unfold rx_bit. rewrite <- PLL_frame_with_clock. f_equal.
  destruct r, c as [[la ra] ig]. reflexivity.
Qed.

Lemma rx_bits_with_clock (MESSAGE_MAX : Z) (bs : list bool) (v : bool)
  (c : clock) : forall r : Receiver.t,
  rx_bits MESSAGE_MAX bs (with_clock v c r)
  = with_clock v c (rx_bits MESSAGE_MAX bs r).
Proof.
  unfold rx_bits. induction bs as [| b bs IH]; intros r; cbn [fold_left];
    [reflexivity |].
  rewrite rx_bit_with_clock. apply IH.
Qed.

Lemma rx_bits_app (MESSAGE_MAX : Z) (a b : list bool) (r : Receiver.t) :
  rx_bits MESSAGE_MAX (a ++ b) r
  = rx_bits MESSAGE_MAX b (rx_bits MESSAGE_MAX a r).
Proof. unfold rx_bits. apply fold_left_app. Qed.

Section TakenApart.

Variables RAMP_MAX RAMP_TRANSITION RAMP_INC_RETARD RAMP_INC_ADVANCE : Z.
Variable MESSAGE_MAX : Z.

Local Abbreviation PLL_ :=
  (Receiver.PLL RAMP_MAX RAMP_TRANSITION RAMP_INC_RETARD RAMP_INC_ADVANCE
     MESSAGE_MAX).
Local Abbreviation run_ :=
  (run RAMP_MAX RAMP_TRANSITION RAMP_INC_RETARD RAMP_INC_ADVANCE
     MESSAGE_MAX).
Local Abbreviation clock_tick_ :=
  (clock_tick RAMP_MAX RAMP_TRANSITION RAMP_INC_RETARD RAMP_INC_ADVANCE).
Local Abbreviation clock_run_ :=
  (clock_run RAMP_MAX RAMP_TRANSITION RAMP_INC_RETARD RAMP_INC_ADVANCE).

(** A tick is a tick of the clock, followed by the framing of the bit
    decided in it, if any. *)
Lemma PLL_tick (v : bool) (r : Receiver.t) :
  PLL_ (Receiver.set_m_sample v r)
  = with_clock v (fst (clock_tick_ (clock_of r) v))
      (rx_bits MESSAGE_MAX (snd (clock_tick_ (clock_of r) v)) r).
Proof.
  destruct r as [en sa la ra ig bi ac bc le co bu dn gd bd].
  unfold Receiver.PLL, clock_tick, clock_of, probe, Receiver.PLL_sample.
  rx_fields. cbv zeta.
  destruct v, la; rx_fields; cbn [Bool.eqb negb]; rx_fields;
    try destruct (ra <? RAMP_TRANSITION); rx_fields;
    match goal with
    | |- context [?a >=? RAMP_MAX] => destruct (a >=? RAMP_MAX)
    end;
    cbn [fst snd]; unfold Receiver.PLL_vote; rx_fields;
    try match goal with
    | |- context [?a >=? 5] => destruct (a >=? 5)
    end;
    rx_fields; unfold rx_bits; cbn [fold_left];
    try change (Z.testbit (Z.lor (Z.shiftr 0 1) 2048) 11) with true;
    try change (Z.testbit (Z.shiftr 0 1) 11) with false;
    try rewrite <- rx_bit_with_clock; reflexivity.
Qed.

Lemma clock_run_app (a b : list bool) : forall c : clock,
  clock_run_ (a ++ b) c
  = let '(c1, o1) := clock_run_ a c in
    let '(c2, o2) := clock_run_ b c1 in
    (c2, o1 ++ o2).
Proof.
  induction a as [| v a IH]; intros c.
  - cbn [app clock_run]. destruct (clock_run_ b c) as [c2 o2]. reflexivity.
  - cbn [app clock_run]. destruct (clock_tick_ c v) as [c1 o1].
    rewrite IH. destruct (clock_run_ a c1) as [c2 o2].
    destruct (clock_run_ b c2) as [c3 o3]. rewrite app_assoc. reflexivity.
Qed.

(** Listening to a run of levels is running the clock over them and
    framing the bits it decides. *)
Lemma run_listen (levels : list bool) : forall r : Receiver.t,
  exists v,
    run_ (listen levels) r
    = with_clock v (fst (clock_run_ levels (clock_of r)))
        (rx_bits MESSAGE_MAX (snd (clock_run_ levels (clock_of r))) r).
Proof.
  induction levels as [| v rest IH]; intros r.
  - exists (Receiver.m_sample r). symmetry. apply with_clock_of.
  - cbn [listen flat_map app]. unfold run. cbn [fold_left act].
    rewrite PLL_tick. cbn [clock_run].
    destruct (clock_tick_ (clock_of r) v) as [c1 o1]. cbn [fst snd].
    destruct (IH (with_clock v c1 (rx_bits MESSAGE_MAX o1 r))) as [v' H].
    rewrite clock_of_with in H.
    destruct (clock_run_ rest c1) as [c2 o2]. cbn [fst snd] in *.
    exists v'. unfold run, listen in H. rewrite H.
    rewrite rx_bits_with_clock, with_clock_twice, rx_bits_app.
    reflexivity.
Qed.

Lemma clock_eqb_eq (c c' : clock) : clock_eqb c c' = true -> c = c'.
Proof.
  destruct c as [[la ra] ig], c' as [[la' ra'] ig']. unfold clock_eqb.
  rewrite !andb_true_iff. intros [[A B] C].
  apply Bool.eqb_prop in A. apply Z.eqb_eq in B, C. congruence.
Qed.

Lemma bits_eqb_eq (a : list bool) : forall b : list bool,
  bits_eqb a b = true -> a = b.
Proof.
  induction a as [| x a IH]; intros [| y b]; cbn [bits_eqb];
    try discriminate; [reflexivity |].
  rewrite andb_true_iff. intros [A B]. apply Bool.eqb_prop in A.
  rewrite A, (IH b B). reflexivity.
Qed.

Lemma clock_mem_In (c : clock) (locked : list clock) :
  existsb (clock_eqb c) locked = true -> In c locked.
Proof.
  rewrite existsb_exists. intros (c' & I & E).
  apply clock_eqb_eq in E. subst c'. exact I.
Qed.

Lemma hold8_app (a b : list bool) : hold8 (a ++ b) = hold8 a ++ hold8 b.
Proof. unfold hold8. apply flat_map_app. Qed.

(** After a tick the clock remembers the level of that tick. *)
Lemma clock_tick_last (c : clock) (v : bool) :
  fst (fst (fst (clock_tick_ c v))) = v.
Proof.
  destruct c as [[la ra] ig].
  unfold clock_tick, probe, Receiver.PLL_sample. rx_fields. cbv zeta.
  destruct v, la; rx_fields; cbn [Bool.eqb negb]; rx_fields;
    try destruct (ra <? RAMP_TRANSITION); rx_fields;
    match goal with
    | |- context [?a >=? RAMP_MAX] => destruct (a >=? RAMP_MAX)
    end;
    unfold Receiver.PLL_vote, clock_of; rx_fields;
    try match goal with
    | |- context [?a >=? 5] => destruct (a >=? 5)
    end;
    reflexivity.
Qed.

Lemma clock_run_last (levels : list bool) (v : bool) (c : clock) :
  fst (fst (fst (clock_run_ (levels ++ [v]) c))) = v.
Proof.
  rewrite clock_run_app. destruct (clock_run_ levels c) as [c1 o1].
  cbn [clock_run]. pose proof (clock_tick_last c1 v) as L.
  destruct (clock_tick_ c1 v) as [c2 o2]. exact L.
Qed.

Section Locked.

Variables locked : list clock.
Hypothesis closed :
  forallb (fun c =>
             window_ok RAMP_MAX RAMP_TRANSITION RAMP_INC_RETARD
               RAMP_INC_ADVANCE locked c false
             && window_ok RAMP_MAX RAMP_TRANSITION RAMP_INC_RETARD
                  RAMP_INC_ADVANCE locked c true) locked = true.

(** A locked clock decides the bits sent, one bit late at most. *)
Lemma locked_bits (B : list bool) : forall c : clock,
  In c locked ->
  exists c' E,
    clock_run_ (hold8 B) c = (c', E)
    /\ In c' locked
    /\ pend RAMP_TRANSITION c ++ B = E ++ pend RAMP_TRANSITION c'.
Proof.
  induction B as [| b B IH]; intros c I.
  - exists c, []. cbn [hold8 flat_map clock_run]. rewrite app_nil_r.
    auto.
  - change (hold8 (b :: B)) with (repeat b 8 ++ hold8 B).
    rewrite clock_run_app.
    pose proof closed as W. rewrite forallb_forall in W.
    specialize (W c I). rewrite andb_true_iff in W.
    assert (Wb : window_ok RAMP_MAX RAMP_TRANSITION RAMP_INC_RETARD
                   RAMP_INC_ADVANCE locked c b = true)
      by (destruct b; tauto).
    clear W. unfold window_ok in Wb.
    destruct (clock_run_ (repeat b 8) c) as [c1 o1].
    rewrite andb_true_iff in Wb. destruct Wb as [M Q].
    apply clock_mem_In in M. apply bits_eqb_eq in Q.
    destruct (IH c1 M) as (c2 & E & R & I2 & Q2).
    rewrite R. exists c2, (o1 ++ E). split; [reflexivity |].
    split; [exact I2 |].
    change (b :: B) with ([b] ++ B).
    rewrite app_assoc, Q, <- !app_assoc, Q2. reflexivity.
Qed.

End Locked.

End TakenApart.

(** ** Framing of the recovered bits *)

Ltac rx_unfold :=
  cbv [Receiver.set_m_sample Receiver.set_m_last_sample
       Receiver.set_m_pll_ramp Receiver.set_m_integrator Receiver.set_m_bits
       Receiver.set_m_active Receiver.set_m_bit_count Receiver.set_m_length
       Receiver.set_m_count Receiver.set_m_buffer Receiver.set_m_done
       Receiver.set_m_good Receiver.set_m_bad
       Receiver.m_enabled Receiver.m_sample Receiver.m_last_sample
       Receiver.m_pll_ramp Receiver.m_integrator Receiver.m_bits
       Receiver.m_active Receiver.m_bit_count Receiver.m_length
       Receiver.m_count Receiver.m_buffer Receiver.m_done Receiver.m_good
       Receiver.m_bad].

Section Framing.

Variable MESSAGE_MAX : Z.

Local Abbreviation rx_bit_ := (rx_bit MESSAGE_MAX).
Local Abbreviation rx_bits_ := (rx_bits MESSAGE_MAX).

(** Outside a message the window takes the bit, and the start symbol
    opens a message. *)
Lemma rx_bit_idle (b : bool) (en sa la : bool) (ra ig w : Z) (bc le co : Z)
  (bu : list Z) (dn : bool) (gd bd : Z) :
  rx_bit_ b (Receiver.mk en sa la ra ig w false bc le co bu dn gd bd)
  = if shift1 b w =? 0xb38
    then Receiver.mk en sa la ra ig (shift1 b w) true 0 0 co bu false gd bd
    else Receiver.mk en sa la ra ig (shift1 b w) false bc le co bu dn gd bd.
Proof.
  unfold rx_bit, Receiver.PLL_frame. rx_unfold.
  destruct (shift1 b w =? 2872); reflexivity.
Qed.

Lemma rx_bits_start (bs : list bool) : forall (en sa la : bool)
  (ra ig w : Z) (bc le co : Z) (bu : list Z) (dn : bool) (gd bd : Z),
  start_at_end w bs = true ->
  rx_bits_ bs (Receiver.mk en sa la ra ig w false bc le co bu dn gd bd)
  = Receiver.mk en sa la ra ig 0xb38 true 0 0 co bu false gd bd.
Proof.
  induction bs as [| b bs IH]; intros en sa la ra ig w bc le co bu dn gd bd H;
    [discriminate |].
  unfold rx_bits. cbn [fold_left]. rewrite rx_bit_idle.
  cbn [start_at_end] in H. destruct bs as [| b' bs].
  - rewrite H. apply Z.eqb_eq in H. rewrite H. reflexivity.
  - rewrite andb_true_iff in H. destruct H as [N H].
    apply negb_true_iff in N. rewrite N. apply IH, H.
Qed.

Lemma rx_bits_quiet (bs : list bool) : forall (en sa la : bool)
  (ra ig w : Z) (bc le co : Z) (bu : list Z) (dn : bool) (gd bd : Z),
  quiet w bs = true ->
  rx_bits_ bs (Receiver.mk en sa la ra ig w false bc le co bu dn gd bd)
  = Receiver.mk en sa la ra ig (fold_left (fun w b => shift1 b w) bs w)
      false bc le co bu dn gd bd.
Proof.
  induction bs as [| b bs IH]; intros en sa la ra ig w bc le co bu dn gd bd H;
    [reflexivity |].
  unfold rx_bits. cbn [fold_left]. rewrite rx_bit_idle.
  cbn [quiet] in H. rewrite andb_true_iff in H. destruct H as [N H].
  apply negb_true_iff in N. rewrite N. apply IH, H.
Qed.

(** Silence never shows the start symbol. *)
Lemma quiet_silence (n : nat) : forall w : Z,
  0 <= w < 2 ^ 12 -> quiet w (repeat false n) = true.
Proof.
  induction n as [| n IH]; intros w Hw; [reflexivity |].
  cbn [repeat quiet]. 
  pose proof (window_shift w false Hw) as W. cbv zeta in W.
  destruct W as (W & _). unfold shift1.
  assert (Hs : Z.shiftr w 1 < 2 ^ 11).
  { rewrite Z.shiftr_div_pow2 by lia. apply Z.div_lt_upper_bound; lia. }
  rewrite IH by exact W.
  destruct (Z.eqb_spec (Z.shiftr w 1) 2872); [lia | reflexivity].
Qed.

(** The 12 bits of a byte taken into a message. *)
Lemma rx_bits_12 (bs : list bool) (en sa la : bool) (ra ig w : Z)
  (le co : Z) (bu : list Z) (dn : bool) (gd bd : Z) :
  length bs = 12%nat ->
  rx_bits_ bs (Receiver.mk en sa la ra ig w true 0 le co bu dn gd bd)
  = Receiver.PLL_frame MESSAGE_MAX
      (Receiver.mk en sa la ra ig (fold_left (fun w b => shift1 b w) bs w)
         true 11 le co bu dn gd bd).
Proof.
  intros L.
  do 13 (destruct bs as [| ? bs]; try discriminate).
  reflexivity.
Qed.

Lemma win_table :
  forallb (fun w => forallb (fun b =>
      (fold_left (fun w b => shift1 b w) (sym_bits (encode_byte b)) w
       =? win b)
      && (Receiver.decode_byte (win b) =? b)
      && (win b <? 4096) && (0 <=? win b)) bytes256) wins = true.
Proof. vm_compute. reflexivity. Qed.

Lemma win_facts (w b : Z) :
  In w wins -> is_byte b ->
  fold_left (fun w b => shift1 b w) (sym_bits (encode_byte b)) w = win b
  /\ Receiver.decode_byte (win b) = b
  /\ 0 <= win b < 2 ^ 12.
Proof.
  intros Hw Hb. pose proof win_table as T.
  rewrite forallb_forall in T. specialize (T w Hw).
  rewrite forallb_forall in T. specialize (T b (in_bytes256 b Hb)).
  rewrite !andb_true_iff in T. destruct T as (((T1 & T2) & T3) & T4).
  apply Z.eqb_eq in T1, T2. apply Z.ltb_lt in T3. apply Z.leb_le in T4.
  repeat split; try assumption; lia.
Qed.

Lemma win_in_wins (b : Z) : is_byte b -> In (win b) wins.
Proof.
  intros Hb. right. apply in_map, in_bytes256, Hb.
Qed.

Lemma rx_byte (b w : Z) (en sa la : bool) (ra ig : Z)
  (le co : Z) (bu : list Z) (dn : bool) (gd bd : Z) :
  In w wins -> is_byte b ->
  rx_bits_ (sym_bits (encode_byte b))
    (Receiver.mk en sa la ra ig w true 0 le co bu dn gd bd)
  = Receiver.PLL_frame MESSAGE_MAX
      (Receiver.mk en sa la ra ig (win b) true 11 le co bu dn gd bd).
Proof.
  intros Hw Hb. rewrite rx_bits_12 by reflexivity.
  destruct (win_facts w b Hw Hb) as (E & _). rewrite E. reflexivity.
Qed.

(** The count byte of a message: taken if it lies in [4, MESSAGE_MAX]. *)
Lemma rx_count_taken (b w : Z) (en sa la : bool) (ra ig : Z)
  (co : Z) (bu : list Z) (dn : bool) (gd bd : Z) :
  In w wins -> is_byte b -> 4 <= b <= MESSAGE_MAX ->
  rx_bits_ (sym_bits (encode_byte b))
    (Receiver.mk en sa la ra ig w true 0 0 co bu dn gd bd)
  = Receiver.mk en sa la ra ig (win b) true 0 1 b (wr bu 0 b) dn gd bd.
Proof.
  intros Hw Hb Hr. rewrite rx_byte by assumption.
  destruct (win_facts w b Hw Hb) as (_ & D & _).
  unfold Receiver.PLL_frame, Receiver.PLL_store. rx_unfold.
  rewrite D. change (wrap8 (11 + 1) >=? 12) with true.
  change (0 =? 0) with true. cbv iota.
  destruct (Z.ltb_spec b 4); [lia |].
  destruct (Z.gtb_spec b MESSAGE_MAX); [lia |]. cbn [orb].
  change (wrap8 (0 + 1)) with 1.
  destruct (Z.geb_spec 1 b); [lia |]. reflexivity.
Qed.

(** The count byte of a message: dropped if it lies outside. *)
Lemma rx_count_dropped (b w : Z) (en sa la : bool) (ra ig : Z)
  (co : Z) (bu : list Z) (dn : bool) (gd bd : Z) :
  In w wins -> is_byte b -> b < 4 \/ MESSAGE_MAX < b ->
  rx_bits_ (sym_bits (encode_byte b))
    (Receiver.mk en sa la ra ig w true 0 0 co bu dn gd bd)
  = Receiver.mk en sa la ra ig (win b) false 12 0 b bu dn gd
      (wrap8 (bd + 1)).
Proof.
  intros Hw Hb Hr. rewrite rx_byte by assumption.
  destruct (win_facts w b Hw Hb) as (_ & D & _).
  unfold Receiver.PLL_frame, Receiver.PLL_store. rx_unfold.
  rewrite D. change (wrap8 (11 + 1) >=? 12) with true.
  change (0 =? 0) with true. cbv iota.
  destruct (Z.ltb_spec b 4); destruct (Z.gtb_spec b MESSAGE_MAX);
    cbn [orb]; try lia; reflexivity.
Qed.

(** A later byte of a message. *)
Lemma rx_byte_stored (b w : Z) (en sa la : bool) (ra ig : Z)
  (le co : Z) (bu : list Z) (dn : bool) (gd bd : Z) :
  In w wins -> is_byte b -> 0 < le < 255 ->
  rx_bits_ (sym_bits (encode_byte b))
    (Receiver.mk en sa la ra ig w true 0 le co bu dn gd bd)
  = if le + 1 >=? co
    then Receiver.mk en sa la ra ig (win b) false 0 (le + 1) co
           (wr bu le b) true (wrap8 (gd + 1)) bd
    else Receiver.mk en sa la ra ig (win b) true 0 (le + 1) co
           (wr bu le b) dn gd bd.
Proof.
  intros Hw Hb Hr. rewrite rx_byte by assumption.
  destruct (win_facts w b Hw Hb) as (_ & D & _).
  unfold Receiver.PLL_frame, Receiver.PLL_store. rx_unfold.
  rewrite D. change (wrap8 (11 + 1) >=? 12) with true. cbv iota.
  destruct (Z.eqb_spec le 0); [lia |].
  rewrite (wrap8_small (le + 1)) by lia.
  destruct (le + 1 >=? co); reflexivity.
Qed.

Lemma wr_middle (pre : list Z) (o b : Z) (post : list Z) :
  wr (pre ++ o :: post) (Z.of_nat (length pre)) b = pre ++ b :: post.
Proof.
  unfold wr. rewrite Nat2Z.id.
  induction pre as [| p pre IH]; [reflexivity |].
  cbn [app length]. cbn. f_equal. exact IH.
Qed.

Lemma sym_bits_app (a b : list Z) :
  sym_bits (a ++ b) = sym_bits a ++ sym_bits b.
Proof. unfold sym_bits. apply flat_map_app. Qed.

(** The bytes of a message after the count byte: stored one after the
    other, the last of them completing the message. *)
Lemma rx_bytes_stored (rest : list Z) : forall (old pre post : list Z)
  (w : Z) (en sa la : bool) (ra ig : Z) (co : Z) (dn : bool) (gd bd : Z),
  rest <> [] ->
  length old = length rest ->
  Forall is_byte rest ->
  (0 < length pre)%nat ->
  Z.of_nat (length pre) + Z.of_nat (length rest) = co ->
  co <= 255 ->
  In w wins ->
  rx_bits_ (sym_bits (flat_map encode_byte rest))
    (Receiver.mk en sa la ra ig w true 0 (Z.of_nat (length pre)) co
       (pre ++ old ++ post) dn gd bd)
  = Receiver.mk en sa la ra ig (win (List.last rest 0)) false 0 co co
      (pre ++ rest ++ post) true (wrap8 (gd + 1)) bd.
Proof.
  induction rest as [| b rest IH];
    intros old pre post w en sa la ra ig co dn gd bd Hne Hlen Hb Hpre Hco
      Hmax Hw; [congruence |].
  destruct old as [| o old]; [discriminate |].
  inversion Hb as [| ? ? Hb1 Hb2]; subst.
  change (flat_map encode_byte (b :: rest))
    with (encode_byte b ++ flat_map encode_byte rest).
  rewrite sym_bits_app, rx_bits_app.
  cbn [length] in Hlen, Hmax |- *.
  rewrite rx_byte_stored by (try assumption; lia).
  change ((o :: old) ++ post) with (o :: old ++ post).
  rewrite wr_middle.
  destruct rest as [| b' rest].
  - destruct old; [| discriminate]. cbn [length] in *.
    destruct (Z.geb_spec (Z.of_nat (length pre) + 1)
                (Z.of_nat (length pre) + Z.of_nat 1)); [| lia].
    cbn [flat_map sym_bits rx_bits fold_left List.last app].
    replace (Z.of_nat (length pre) + Z.of_nat 1)
      with (Z.of_nat (length pre) + 1) by lia.
    reflexivity.
  - destruct (Z.geb_spec (Z.of_nat (length pre) + 1)
                (Z.of_nat (length pre)
                 + Z.of_nat (Datatypes.S (length (b' :: rest)))));
      [cbn [length] in *; lia |].
    replace (Z.of_nat (length pre) + 1)
      with (Z.of_nat (length (pre ++ [b])))
      by (rewrite length_app; cbn [length]; lia).
    change (pre ++ b :: old ++ post) with (pre ++ [b] ++ old ++ post).
    rewrite (app_assoc pre [b]).
    rewrite (IH old (pre ++ [b]) post (win b));
      try assumption; try discriminate.
    + change (List.last (b :: b' :: rest) 0)
        with (List.last (b' :: rest) 0).
      rewrite <- (app_assoc pre [b]). reflexivity.
    + cbn [length] in *. lia.
    + rewrite length_app. cbn [length]. lia.
    + rewrite length_app. cbn [length] in *. lia.
    + apply win_in_wins, Hb1.
Qed.

End Framing.

(** The standard ramp constants pass the lock check. *)
Lemma lock_check_standard :
  lock_check 160 80 11 29 locked_clocks idle_clocks = true.
Proof. vm_compute. reflexivity. Qed.

(** ** A message on the air is received *)

Lemma air_hold8 (syms : list Z) : air syms = hold8 (sym_bits syms).
Proof.
  unfold air, hold8, sym_bits.
  induction syms as [| s syms IH]; [reflexivity |].
  cbn [flat_map]. rewrite flat_map_app, <- IH. reflexivity.
Qed.

Lemma hold8_repeat (b : bool) (n : nat) :
  repeat b (8 * n) = hold8 (repeat b n).
Proof.
  induction n as [| n IH]; [reflexivity |].
  replace (8 * Datatypes.S n)%nat with (8 + 8 * n)%nat by lia.
  rewrite repeat_app, IH. reflexivity.
Qed.

Lemma repeat_snoc (b : bool) (n : nat) :
  repeat b (Datatypes.S n) = repeat b n ++ [b].
Proof. cbn [repeat]. apply repeat_cons. Qed.

(** Of the bits sent with silence behind them, the decided ones lack the
    pending bit at most, which is silence. *)
Lemma pending_tail (RAMP_TRANSITION : Z) (c : clock) (P F E : list bool)
  (n : nat) :
  (1 <= n)%nat ->
  P ++ F ++ repeat false n = E ++ pend RAMP_TRANSITION c ->
  exists m, E = P ++ F ++ repeat false m /\ (n <= m + 1)%nat.
Proof.
  intros Hn H. destruct c as [[la ra] ig]. unfold pend in H.
  destruct (ra >=? RAMP_TRANSITION).
  - destruct n as [| n]; [lia |]. exists n. split; [| lia].
    rewrite repeat_snoc, !app_assoc in H.
    apply app_inj_tail in H. destruct H as [H _].
    rewrite <- H, <- app_assoc. reflexivity.
  - exists n. split; [| lia]. rewrite app_nil_r in H. symmetry. exact H.
Qed.

(** Twelve bit periods of silence clear the window. *)
Lemma silence_clears_window (m : nat) : forall w : Z,
  0 <= w < 2 ^ 12 -> (12 <= m)%nat ->
  fold_left (fun w b => shift1 b w) (repeat false m) w = 0.
Proof.
  assert (S : forall (k : nat) (w : Z),
            fold_left (fun w b => shift1 b w) (repeat false k) w
            = Z.shiftr w (Z.of_nat k)).
  { induction k as [| k IH]; intros w; [reflexivity |].
    cbn [repeat fold_left]. rewrite IH. unfold shift1.
    rewrite Z.shiftr_shiftr by lia. f_equal. lia. }
  intros w Hw Hm. rewrite S, Z.shiftr_div_pow2 by lia.
  apply Z.div_small. split; [lia |].
  eapply Z.lt_le_trans; [apply Hw |].
  apply Z.pow_le_mono_r; lia.
Qed.

Lemma CRC_prefix (l post : list Z) :
  CRC (l ++ post) (Z.of_nat (length l)) = CRC l (Z.of_nat (length l)).
Proof.
  unfold CRC. rewrite Nat2Z.id.
  pose proof (CRC_loop_app l post 0 65535) as A.
  rewrite Nat.add_0_r in A. rewrite A. reflexivity.
Qed.

(** [recv] on a Receiver that holds the frame of payload [bp]. *)
Lemma recv_of_frame (v : bool) (c : clock) (en sa la : bool)
  (ra ig w gd bd : Z) (bp post buf : list Z) (cap : Z) :
  Z.of_nat (length bp) + 3 <= 255 ->
  0 <= cap ->
  let r :=
    with_clock v c
      (Receiver.mk en sa la ra ig w false 0
         (Z.of_nat (length bp) + 3) (Z.of_nat (length bp) + 3)
         (tx_frame bp ++ post) true gd bd) in
  let k := Z.min cap (Z.of_nat (length bp)) in
  Receiver.recv_ret (Receiver.recv r buf cap) = true
  /\ Receiver.recv_len (Receiver.recv r buf cap) = k
  /\ Receiver.recv_buf (Receiver.recv r buf cap)
     = take (Z.to_nat k) bp ++ drop (Z.to_nat k) buf.
Proof.
  intros H255 Hcap. destruct c as [[la' ra'] ig'].
  unfold with_clock. rx_unfold.
  rewrite recv_when_done; rx_unfold; [| reflexivity | lia | exact Hcap].
  cbn [Receiver.recv_ret Receiver.recv_len Receiver.recv_buf].
  replace (Z.of_nat (length bp) + 3 - 3) with (Z.of_nat (length bp)) by lia.
  split; [| split; [reflexivity |]].
  - apply Z.eqb_eq.
    replace (Z.of_nat (length bp) + 3)
      with (Z.of_nat (length (tx_frame bp)))
      by (unfold tx_frame; cbn [length]; rewrite length_app;
          cbn [length]; lia).
    rewrite CRC_prefix.
    replace (Z.of_nat (length (tx_frame bp)))
      with (Z.of_nat (length bp) + 3)
      by (unfold tx_frame; cbn [length]; rewrite length_app;
          cbn [length]; lia).
    apply CRC_tx_frame.
  - unfold memcpy, tx_frame. cbn [app drop].
    rewrite <- !app_assoc.
    rewrite drop_0, take_app_le by lia. reflexivity.
Qed.

Section Reception.

Variables RAMP_MAX RAMP_TRANSITION RAMP_INC_RETARD RAMP_INC_ADVANCE : Z.
Variable MESSAGE_MAX : Z.

Local Abbreviation run_ :=
  (run RAMP_MAX RAMP_TRANSITION RAMP_INC_RETARD RAMP_INC_ADVANCE
     MESSAGE_MAX).
Local Abbreviation clock_run_ :=
  (clock_run RAMP_MAX RAMP_TRANSITION RAMP_INC_RETARD RAMP_INC_ADVANCE).
Local Abbreviation lock_check_ :=
  (lock_check RAMP_MAX RAMP_TRANSITION RAMP_INC_RETARD RAMP_INC_ADVANCE).

(** Listening to the header, to the symbols [syms] and to [n] bit periods
    of silence behind them is framing the bits of [syms] in a Receiver
    that has just seen the start symbol, and silence after them. *)
Lemma listen_header (locked starts : list clock) (syms : list Z) (n : nat)
  (en sa la : bool) (ra ig : Z) (bc le co : Z) (bu : list Z) (dn : bool)
  (gd bd : Z) :
  lock_check_ locked starts = true ->
  In (la, ra, ig) starts ->
  (1 <= n)%nat ->
  exists v c m,
    run_ (listen (air (Transmitter.header ++ syms) ++ repeat false (8 * n)))
      (Receiver.mk en sa la ra ig 0 false bc le co bu dn gd bd)
    = with_clock v c
        (rx_bits MESSAGE_MAX (sym_bits syms ++ repeat false m)
           (Receiver.mk en sa la ra ig 0xb38 true 0 0 co bu false gd bd))
    /\ In c locked
    /\ fst (fst c) = false
    /\ (n <= m + 1)%nat.
Proof.
  intros Hlock Hstart Hn.
  unfold lock_check in Hlock. rewrite andb_true_iff in Hlock.
  destruct Hlock as [Hhead Hclosed].
  rewrite forallb_forall in Hhead. specialize (Hhead _ Hstart).
  unfold header_ok in Hhead.
  set (r0 := Receiver.mk en sa la ra ig 0 false bc le co bu dn gd bd).
  destruct (run_listen RAMP_MAX RAMP_TRANSITION RAMP_INC_RETARD
              RAMP_INC_ADVANCE MESSAGE_MAX
              (air (Transmitter.header ++ syms) ++ repeat false (8 * n)) r0)
    as [v R].
  rewrite R. clear R. change (clock_of r0) with (la, ra, ig).
  rewrite air_hold8, sym_bits_app, hold8_app, hold8_repeat.
  rewrite <- app_assoc, <- hold8_app.
  rewrite clock_run_app.
  destruct (clock_run_ (hold8 (sym_bits Transmitter.header)) (la, ra, ig))
    as [c1 E1].
  rewrite andb_true_iff in Hhead. destruct Hhead as [M1 St].
  apply clock_mem_In in M1.
  destruct (locked_bits RAMP_MAX RAMP_TRANSITION RAMP_INC_RETARD
              RAMP_INC_ADVANCE locked Hclosed
              (sym_bits syms ++ repeat false n) c1 M1)
    as (c2 & E2 & R2 & I2 & Q).
  assert (L : fst (fst c2) = false).
  { destruct n as [| n']; [lia |].
    pose proof (clock_run_last RAMP_MAX RAMP_TRANSITION RAMP_INC_RETARD
                  RAMP_INC_ADVANCE
                  (hold8 (sym_bits syms ++ repeat false n')
                   ++ repeat false 7) false c1) as L.
    replace ((hold8 (sym_bits syms ++ repeat false n') ++ repeat false 7)
             ++ [false])
      with (hold8 (sym_bits syms ++ repeat false (Datatypes.S n'))) in L.
    - rewrite R2 in L. exact L.
    - rewrite repeat_snoc, app_assoc, hold8_app, <- app_assoc.
      reflexivity. }
  rewrite R2. cbn [fst snd].
  destruct (pending_tail RAMP_TRANSITION c2 _ _ _ n Hn Q) as (m & Em & Hm).
  exists v, c2, m. split; [| auto].
  f_equal. rewrite Em, app_assoc, rx_bits_app.
  unfold r0. rewrite (rx_bits_start MESSAGE_MAX _ _ _ _ _ _ _ _ _ _ _ _ _ _ St).
  reflexivity.
Qed.

Lemma take_drop_split (bu : list Z) (n : nat) :
  (Datatypes.S n <= length bu)%nat ->
  exists o old,
    bu = o :: old ++ drop (Datatypes.S n) bu /\ length old = n.
Proof.
  intros H. destruct bu as [| o bu]; [cbn [length] in H; lia |].
  exists o, (take n bu). cbn [drop]. rewrite take_drop.
  split; [reflexivity |]. rewrite length_take. cbn [length] in H. lia.
Qed.

(** The state in which the message of payload [bp] leaves the Receiver:
    the clock locked on silence, and the window cleared if the silence
    lasted 13 bit periods. *)
Lemma frame_reception (locked starts : list clock) (bp : list Z) (n : nat)
  (en sa la : bool) (ra ig : Z) (bc le co : Z) (bu : list Z) (dn : bool)
  (gd bd : Z) :
  lock_check_ locked starts = true ->
  In (la, ra, ig) starts ->
  Forall is_byte bp ->
  (1 <= length bp)%nat ->
  Z.of_nat (length bp) + 3 <= MESSAGE_MAX ->
  Z.of_nat (length bp) + 3 <= 255 ->
  (length bp + 3 <= length bu)%nat ->
  (1 <= n)%nat ->
  exists v c w,
    run_ (listen (air (Transmitter.header
                       ++ flat_map encode_byte (tx_frame bp))
                  ++ repeat false (8 * n)))
      (Receiver.mk en sa la ra ig 0 false bc le co bu dn gd bd)
    = with_clock v c
        (Receiver.mk en sa la ra ig w false 0
           (Z.of_nat (length bp) + 3) (Z.of_nat (length bp) + 3)
           (tx_frame bp ++ drop (length bp + 3) bu) true
           (wrap8 (gd + 1)) bd)
    /\ In c locked
    /\ fst (fst c) = false
    /\ ((13 <= n)%nat -> w = 0).
Proof.
  intros Hlock Hstart Hb Hlen Hmax H255 Hbu Hn.
  destruct (listen_header locked starts
              (flat_map encode_byte (tx_frame bp)) n
              en sa la ra ig bc le co bu dn gd bd Hlock Hstart Hn)
    as (v & c & m & R & Ic & Lc & Hm).
  rewrite R. clear R. exists v, c.
  rewrite rx_bits_app.
  pose proof (tx_frame_bytes bp Hb) as Hf.
  unfold tx_frame in *.
  rewrite (wrap8_small (Z.of_nat (length bp) + 3)) in * by lia.
  set (count := Z.of_nat (length bp) + 3) in *.
  set (f := tx_fcs count bp) in *.
  inversion Hf as [| ? ? Hc Hrest]; subst.
  change (flat_map encode_byte (count :: bp ++ [lo8 f; hi8 f]))
    with (encode_byte count ++ flat_map encode_byte (bp ++ [lo8 f; hi8 f])).
  rewrite sym_bits_app, rx_bits_app.
  rewrite rx_count_taken;
    [| left; reflexivity | exact Hc | lia].
  replace (length bp + 3)%nat with (Datatypes.S (length bp + 2))
    by lia.
  destruct (take_drop_split bu (length bp + 2) ltac:(lia))
    as (o & old & Ebu & Lold).
  set (post := drop (Datatypes.S (length bp + 2)) bu) in *.
  clearbody post. subst bu.
  change (wr (o :: old ++ ?post) 0 count)
    with (wr ([] ++ o :: old ++ post) (Z.of_nat (length (@nil Z))) count).
  rewrite wr_middle.
  change ([] ++ count :: old ++ ?post) with ([count] ++ old ++ post).
  change 1 with (Z.of_nat (length [count])) at 1.
  assert (Hwin : 0 <= win (List.last (bp ++ [lo8 f; hi8 f]) 0) < 2 ^ 12).
  { apply (win_facts 0xb38); [left; reflexivity |].
    replace (bp ++ [lo8 f; hi8 f]) with ((bp ++ [lo8 f]) ++ [hi8 f])
      by (rewrite <- app_assoc; reflexivity).
    rewrite last_last.
    apply Forall_app in Hrest. destruct Hrest as [_ Hrest].
    inversion Hrest as [| ? ? _ Hhi]; subst.
    inversion Hhi; subst. assumption. }
  rewrite (rx_bytes_stored MESSAGE_MAX (bp ++ [lo8 f; hi8 f]) old [count]);
    try assumption.
  - rewrite rx_bits_quiet by (apply quiet_silence, Hwin).
    eexists. split; [reflexivity |]. split; [exact Ic |].
    split; [exact Lc |]. intros H13.
    apply silence_clears_window; [exact Hwin | lia].
  - intros E. apply (f_equal length) in E. rewrite length_app in E.
    cbn [length] in E. lia.
  - rewrite length_app. cbn [length]. lia.
  - cbn [length]. lia.
  - rewrite length_app. cbn [length]. unfold count. lia.
  - apply win_in_wins, Hc.
Qed.

(** X8: a message on the air is received.  Let the ramp constants be such
    that the clock recovery locks (a finite check: the header takes each of
    the clocks [starts] into the list [locked], which is closed under bit
    periods without a bit error), and let a Receiver outside a message,
    with an empty window and its clock among [starts], listen to the
    header, the symbols of the frame of a payload of 1 to MESSAGE_MAX - 3
    bytes, and at least one bit period of silence.  Then the message is
    done: the buffer holds the frame, the good counter went up by one and
    the bad counter did not move, and [recv] returns true and delivers
    the payload, cut to the caller's capacity. *)
Theorem message_on_air_is_received (locked starts : list clock)
  (r0 : Receiver.t) (bp : list Z) (n : nat) :
  lock_check_ locked starts = true ->
  In (clock_of r0) starts ->
  Receiver.m_bits r0 = 0 ->
  Receiver.m_active r0 = false ->
  Forall is_byte bp ->
  (1 <= length bp)%nat ->
  Z.of_nat (length bp) + 3 <= MESSAGE_MAX ->
  Z.of_nat (length bp) + 3 <= 255 ->
  (length bp + 3 <= length (Receiver.m_buffer r0))%nat ->
  (1 <= n)%nat ->
  let r :=
    run_ (listen (air (Transmitter.header
                       ++ flat_map encode_byte (tx_frame bp))
                  ++ repeat false (8 * n))) r0 in
  Receiver.m_done r = true
  /\ Receiver.m_active r = false
  /\ Receiver.m_length r = Z.of_nat (length bp) + 3
  /\ Receiver.m_buffer r
     = tx_frame bp ++ drop (length bp + 3) (Receiver.m_buffer r0)
  /\ Receiver.m_good r = wrap8 (Receiver.m_good r0 + 1)
  /\ Receiver.m_bad r = Receiver.m_bad r0
  /\ (forall (buf : list Z) (cap : Z), 0 <= cap ->
        let k := Z.min cap (Z.of_nat (length bp)) in
        Receiver.recv_ret (Receiver.recv r buf cap) = true
        /\ Receiver.recv_len (Receiver.recv r buf cap) = k
        /\ Receiver.recv_buf (Receiver.recv r buf cap)
           = take (Z.to_nat k) bp ++ drop (Z.to_nat k) buf).
Proof.
  intros Hlock Hstart Hbits Hact Hb Hlen Hmax H255 Hbu Hn r.
  destruct r0 as [en sa la ra ig bi ac bc le co bu dn gd bd].
  cbn [Receiver.m_bits Receiver.m_active Receiver.m_buffer Receiver.m_good
       Receiver.m_bad clock_of Receiver.m_last_sample Receiver.m_pll_ramp
       Receiver.m_integrator] in *.
  subst bi ac.
  destruct (frame_reception locked starts bp n en sa la ra ig bc le co bu
              dn gd bd Hlock Hstart Hb Hlen Hmax H255 Hbu Hn)
    as (v & [[la' ra'] ig'] & w & R & _).
  subst r. rewrite R. clear R.
  split; [reflexivity |]. split; [reflexivity |].
  split; [reflexivity |]. split; [reflexivity |].
  split; [reflexivity |]. split; [reflexivity |].
  intros buf cap Hcap. apply recv_of_frame; assumption.
Qed.

Lemma quiet_app (a : list bool) : forall (b : list bool) (w : Z),
  quiet w (a ++ b)
  = quiet w a && quiet (fold_left (fun w b => shift1 b w) a w) b.
Proof.
  induction a as [| x a IH]; intros b w; [reflexivity |].
  cbn [app quiet fold_left]. rewrite IH, andb_assoc. reflexivity.
Qed.

Lemma empty_frame_table :
  let rest := sym_bits (flat_map encode_byte (tl (tx_frame []))) in
  let w := fold_left (fun w b => shift1 b w) rest (win 3) in
  quiet (win 3) rest && (0 <=? w) && (w <? 4096) = true.
Proof. vm_compute. reflexivity. Qed.

(** X9: a message without payload is sent but never received.  Its count
    byte is 3, which the Receiver takes for a stupid message length: with
    the clock recovery locked as for a message that is received, a Receiver
    that listens to the frame of the empty payload drops it.  No message
    is done (one left unread from before is discarded by the start
    symbol), the bad counter goes up by one, the good counter and the
    buffer stay, and [recv] returns false and leaves the caller's buffer
    and length alone. *)
Theorem empty_message_is_dropped (locked starts : list clock)
  (r0 : Receiver.t) (n : nat) :
  lock_check_ locked starts = true ->
  In (clock_of r0) starts ->
  Receiver.m_bits r0 = 0 ->
  Receiver.m_active r0 = false ->
  (1 <= n)%nat ->
  let r :=
    run_ (listen (air (Transmitter.header
                       ++ flat_map encode_byte (tx_frame []))
                  ++ repeat false (8 * n))) r0 in
  Receiver.m_done r = false
  /\ Receiver.m_active r = false
  /\ Receiver.m_bad r = wrap8 (Receiver.m_bad r0 + 1)
  /\ Receiver.m_good r = Receiver.m_good r0
  /\ Receiver.m_buffer r = Receiver.m_buffer r0
  /\ (forall (buf : list Z) (cap : Z),
        Receiver.recv r buf cap = Receiver.mk_recv_out false r buf cap).
Proof.
  intros Hlock Hstart Hbits Hact Hn r.
  destruct r0 as [en sa la ra ig bi ac bc le co bu dn gd bd].
  cbn [Receiver.m_bits Receiver.m_active Receiver.m_buffer Receiver.m_good
       Receiver.m_bad clock_of Receiver.m_last_sample Receiver.m_pll_ramp
       Receiver.m_integrator] in *.
  subst bi ac.
  destruct (listen_header locked starts
              (flat_map encode_byte (tx_frame [])) n
              en sa la ra ig bc le co bu dn gd bd Hlock Hstart Hn)
    as (v & [[la' ra'] ig'] & m & R & _).
  subst r. rewrite R. clear R.
  change (flat_map encode_byte (tx_frame []))
    with (encode_byte 3 ++ flat_map encode_byte (tl (tx_frame []))).
  rewrite sym_bits_app, <- app_assoc, rx_bits_app.
  rewrite rx_count_dropped;
    [| left; reflexivity | unfold is_byte; lia | left; lia].
  pose proof empty_frame_table as T. cbv zeta in T.
  rewrite !andb_true_iff in T. destruct T as ((Q & L) & U).
  apply Z.leb_le in L. apply Z.ltb_lt in U.
  rewrite rx_bits_quiet.
  - unfold with_clock, Receiver.recv. rx_unfold. cbn [negb].
    repeat split; reflexivity.
  - rewrite quiet_app, Q. cbn [andb]. apply quiet_silence. lia.
Qed.

Lemma run_app (a b : list action) (r : Receiver.t) :
  run_ (a ++ b) r = run_ b (run_ a r).
Proof. unfold run. apply fold_left_app. Qed.

(** Calls of [recv] touch the done flag only. *)
Lemma run_reads (reads : list (list Z * Z)) : forall (en sa la : bool)
  (ra ig w : Z) (ac : bool) (bc le co : Z) (bu : list Z) (dn : bool)
  (gd bd : Z),
  exists dn',
    run_ (map (fun rd => ARecv (fst rd) (snd rd)) reads)
      (Receiver.mk en sa la ra ig w ac bc le co bu dn gd bd)
    = Receiver.mk en sa la ra ig w ac bc le co bu dn' gd bd.
Proof.
  induction reads as [| [buf cap] reads IH];
    intros en sa la ra ig w ac bc le co bu dn gd bd.
  - exists dn. reflexivity.
  - cbn [map fst snd]. unfold run. cbn [fold_left act].
    unfold Receiver.recv. rx_unfold. destruct dn; cbn [negb];
      cbn [Receiver.recv_this]; apply IH.
Qed.

(** X10: the Receiver is ready for the next message.  After a message and
    at least 13 bit periods of silence, a second message followed by a
    bit period of silence is received like the first, whether or not
    [recv] was called in between, provided every locked clock that saw
    silence last passes the lock check as a start: the message is done,
    its frame lies at the head of the buffer over what the first one left
    there, the good counter has gone up twice, and [recv] returns true and
    delivers the payload of the second message. *)
Theorem next_message_is_received (locked starts : list clock)
  (r0 : Receiver.t) (bp1 bp2 : list Z) (reads : list (list Z * Z))
  (n1 n2 : nat) :
  lock_check_ locked starts = true ->
  starts_cover locked starts = true ->
  In (clock_of r0) starts ->
  Receiver.m_bits r0 = 0 ->
  Receiver.m_active r0 = false ->
  Forall is_byte bp1 -> (1 <= length bp1)%nat ->
  Z.of_nat (length bp1) + 3 <= MESSAGE_MAX ->
  Forall is_byte bp2 -> (1 <= length bp2)%nat ->
  Z.of_nat (length bp2) + 3 <= MESSAGE_MAX ->
  MESSAGE_MAX <= 255 ->
  MESSAGE_MAX <= Z.of_nat (length (Receiver.m_buffer r0)) ->
  (13 <= n1)%nat ->
  (1 <= n2)%nat ->
  let message bp n :=
    listen (air (Transmitter.header ++ flat_map encode_byte (tx_frame bp))
            ++ repeat false (8 * n)) in
  let r :=
    run_ (message bp1 n1
          ++ map (fun rd => ARecv (fst rd) (snd rd)) reads
          ++ message bp2 n2) r0 in
  Receiver.m_done r = true
  /\ Receiver.m_length r = Z.of_nat (length bp2) + 3
  /\ Receiver.m_buffer r
     = tx_frame bp2
       ++ drop (length bp2 + 3)
            (tx_frame bp1 ++ drop (length bp1 + 3) (Receiver.m_buffer r0))
  /\ Receiver.m_good r = wrap8 (wrap8 (Receiver.m_good r0 + 1) + 1)
  /\ Receiver.m_bad r = Receiver.m_bad r0
  /\ (forall (buf : list Z) (cap : Z), 0 <= cap ->
        let k := Z.min cap (Z.of_nat (length bp2)) in
        Receiver.recv_ret (Receiver.recv r buf cap) = true
        /\ Receiver.recv_len (Receiver.recv r buf cap) = k
        /\ Receiver.recv_buf (Receiver.recv r buf cap)
           = take (Z.to_nat k) bp2 ++ drop (Z.to_nat k) buf).
Proof.
  intros Hlock Hcover Hstart Hbits Hact Hb1 Hl1 Hm1 Hb2 Hl2 Hm2 H255 Hbu
    Hn1 Hn2 message r.
  destruct r0 as [en sa la ra ig bi ac bc le co bu dn gd bd].
  cbn [Receiver.m_bits Receiver.m_active Receiver.m_buffer Receiver.m_good
       Receiver.m_bad clock_of Receiver.m_last_sample Receiver.m_pll_ramp
       Receiver.m_integrator] in *.
  subst bi ac r message. rewrite !run_app.
  destruct (frame_reception locked starts bp1 n1 en sa la ra ig bc le co bu
              dn gd bd Hlock Hstart Hb1 Hl1 Hm1 ltac:(lia) ltac:(lia)
              ltac:(lia))
    as (v & [[la1 ra1] ig1] & w & R1 & I1 & L1 & W1).
  rewrite R1. clear R1. cbn [fst] in L1. subst la1.
  rewrite (W1 Hn1). clear W1. unfold with_clock. rx_unfold.
  set (bu1 := tx_frame bp1 ++ drop (length bp1 + 3) bu).
  assert (Lbu1 : length bu1 = length bu).
  { unfold bu1, tx_frame. rewrite length_app, length_drop.
    cbn [length]. rewrite length_app. cbn [length]. lia. }
  destruct (run_reads reads en v false ra1 ig1 0 false 0
              (Z.of_nat (length bp1) + 3) (Z.of_nat (length bp1) + 3) bu1
              true (wrap8 (gd + 1)) bd) as [dn' R].
  rewrite R. clear R.
  assert (S1 : In (false, ra1, ig1) starts).
  { unfold starts_cover in Hcover. rewrite forallb_forall in Hcover.
    specialize (Hcover _ I1). cbn [fst negb implb] in Hcover.
    apply clock_mem_In, Hcover. }
  destruct (frame_reception locked starts bp2 n2 en v false ra1 ig1 0
              (Z.of_nat (length bp1) + 3) (Z.of_nat (length bp1) + 3) bu1
              dn' (wrap8 (gd + 1)) bd Hlock S1 Hb2 Hl2 Hm2 ltac:(lia)
              ltac:(lia) Hn2)
    as (v2 & c2 & w2 & R2 & _).
  rewrite R2. clear R2.
  split; [destruct c2 as [[? ?] ?]; reflexivity |].
  split; [destruct c2 as [[? ?] ?]; reflexivity |].
  split; [destruct c2 as [[? ?] ?]; reflexivity |].
  split; [destruct c2 as [[? ?] ?]; reflexivity |].
  split; [destruct c2 as [[? ?] ?]; reflexivity |].
  intros buf cap Hcap. apply recv_of_frame; [lia | exact Hcap].
Qed.

End Reception.

Lemma message_on_air_is_received_witness :
  let r := run 160 80 11 29 30
             (listen (air (Transmitter.header
                           ++ flat_map encode_byte (tx_frame [1; 2; 3]))
                      ++ repeat false (8 * 1))) rx_idle in
  Receiver.m_done r = true
  /\ Receiver.recv_ret (Receiver.recv r (repeat 0 10) 10) = true
  /\ Receiver.recv_buf (Receiver.recv r (repeat 0 10) 10)
     = [1; 2; 3] ++ repeat 0 7.
Proof.
  pose proof (message_on_air_is_received 160 80 11 29 30 locked_clocks
                idle_clocks rx_idle [1; 2; 3] 1 lock_check_standard
                ltac:(left; reflexivity) eq_refl eq_refl
                ltac:(unfold is_byte; repeat constructor; lia)
                ltac:(cbn; lia) ltac:(cbn; lia) ltac:(cbn; lia)
                ltac:(cbn; lia) ltac:(lia)) as T.
  cbv zeta in T |- *.
  destruct T as (D & _ & _ & _ & _ & _ & R).
  destruct (R (repeat 0 10) 10 ltac:(lia)) as (R1 & _ & R3).
  split; [exact D |]. split; [exact R1 |]. rewrite R3. reflexivity.
Defined.

Lemma empty_message_is_dropped_witness :
  let r := run 160 80 11 29 30
             (listen (air (Transmitter.header
                           ++ flat_map encode_byte (tx_frame []))
                      ++ repeat false (8 * 1))) rx_idle in
  Receiver.m_done r = false /\ Receiver.m_bad r = 1.
Proof.
  pose proof (empty_message_is_dropped 160 80 11 29 30 locked_clocks
                idle_clocks rx_idle 1 lock_check_standard
                ltac:(left; reflexivity) eq_refl eq_refl ltac:(lia)) as T.
  cbv zeta in T |- *.
  destruct T as (D & _ & B & _).
  split; [exact D |]. rewrite B. reflexivity.
Defined.

(** The standard ramp constants pass the lock check from every silent
    clock. *)
Lemma lock_check_silent :
  lock_check 160 80 11 29 locked_clocks silent_clocks = true
  /\ starts_cover locked_clocks silent_clocks = true.
Proof. vm_compute. split; reflexivity. Qed.

Lemma next_message_is_received_witness :
  let message bp n :=
    listen (air (Transmitter.header ++ flat_map encode_byte (tx_frame bp))
            ++ repeat false (8 * n)) in
  let r := run 160 80 11 29 30
             (message [1; 2; 3] 13%nat
              ++ map (fun rd => ARecv (fst rd) (snd rd)) []
              ++ message [4; 5] 1%nat) rx_idle in
  Receiver.m_done r = true
  /\ Receiver.m_good r = 2
  /\ Receiver.recv_buf (Receiver.recv r (repeat 0 10) 10)
     = [4; 5] ++ repeat 0 8.
Proof.
  pose proof (next_message_is_received 160 80 11 29 30 locked_clocks
                silent_clocks rx_idle [1; 2; 3] [4; 5] [] 13 1
                (proj1 lock_check_silent) (proj2 lock_check_silent)
                ltac:(left; reflexivity) eq_refl eq_refl
                ltac:(unfold is_byte; repeat constructor; lia)
                ltac:(cbn; lia) ltac:(cbn; lia)
                ltac:(unfold is_byte; repeat constructor; lia)
                ltac:(cbn; lia) ltac:(cbn; lia) ltac:(lia)
                ltac:(cbn; lia) ltac:(lia) ltac:(lia)) as T.
  cbv zeta in T |- *.
  destruct T as (D & _ & _ & G & _ & R).
  destruct (R (repeat 0 10) 10 ltac:(lia)) as (_ & _ & R3).
  split; [exact D |]. split; [rewrite G; reflexivity |].
  rewrite R3. reflexivity.
Defined.

(** ** From [send] on one device to [recv] on another *)

Section RoundTrip.

Variables RAMP_MAX RAMP_TRANSITION RAMP_INC_RETARD RAMP_INC_ADVANCE : Z.
Variable MESSAGE_MAX : Z.
Variable PAYLOAD_MAX : Z.

Local Abbreviation run_ :=
  (run RAMP_MAX RAMP_TRANSITION RAMP_INC_RETARD RAMP_INC_ADVANCE
     MESSAGE_MAX).
Local Abbreviation ISR_ :=
  (ISR RAMP_MAX RAMP_TRANSITION RAMP_INC_RETARD RAMP_INC_ADVANCE
     MESSAGE_MAX).
Local Abbreviation ISR_ticks_ :=
  (ISR_ticks RAMP_MAX RAMP_TRANSITION RAMP_INC_RETARD RAMP_INC_ADVANCE
     MESSAGE_MAX).
Local Abbreviation send_ :=
  (send RAMP_MAX RAMP_TRANSITION RAMP_INC_RETARD RAMP_INC_ADVANCE
     MESSAGE_MAX PAYLOAD_MAX).
Local Abbreviation lock_check_ :=
  (lock_check RAMP_MAX RAMP_TRANSITION RAMP_INC_RETARD RAMP_INC_ADVANCE).

Lemma run_enabled (acts : list action) : forall r : Receiver.t,
  Receiver.m_enabled (run_ acts r) = Receiver.m_enabled r.
Proof.
  unfold run. induction acts as [| a acts IH]; intros r; cbn [fold_left];
    [reflexivity |].
  rewrite IH. destruct a as [level | | buf len]; cbn [act].
  - destruct r. reflexivity.
  - apply PLL_enabled.
  - unfold Receiver.recv. destruct (negb (Receiver.m_done r));
      cbn [Receiver.recv_this]; [reflexivity |]. destruct r. reflexivity.
Qed.

(** On a device without a Transmitter, the interrupt handler makes an
    enabled Receiver listen to the pin. *)
Lemma ISR_listen (levels : list bool) : forall (r : Receiver.t)
  (pin : nat -> bool),
  Receiver.m_enabled r = true ->
  (forall k, (k < length levels)%nat -> pin k = nth k levels false) ->
  fst (ISR_ticks_ (length levels) pin (mk_System None (Some r)))
  = mk_System None (Some (run_ (listen levels) r)).
Proof.
  induction levels as [| v levels IH]; intros r pin En Hpin;
    [reflexivity |].
  cbn [length ISR_ticks].
  assert (E : ISR_ (pin O) (mk_System None (Some r))
              = (mk_System None
                   (Some (Receiver.PLL RAMP_MAX RAMP_TRANSITION
                            RAMP_INC_RETARD RAMP_INC_ADVANCE MESSAGE_MAX
                            (Receiver.set_m_sample v r))),
                 [EvRead v] ++ [] ++ [EvPLL])).
  { rewrite (Hpin O) by (cbn [length]; lia). cbn [nth].
    unfold ISR, rx_gate. cbn [receiver transmitter]. rewrite En.
    cbn [andb receiver transmitter].
    destruct r as [en sa la ra ig bi ac bc le co bu dn gd bd].
    cbn [Receiver.m_enabled Receiver.set_m_sample] in *. rewrite En.
    reflexivity. }
  rewrite E.
  specialize (IH (Receiver.PLL RAMP_MAX RAMP_TRANSITION RAMP_INC_RETARD
                    RAMP_INC_ADVANCE MESSAGE_MAX (Receiver.set_m_sample v r))
                (fun k => pin (Datatypes.S k))).
  destruct (ISR_ticks_ (length levels) (fun k => pin (Datatypes.S k)) _)
    as [s2 rest].
  cbn [fst] in *. rewrite IH.
  - reflexivity.
  - rewrite PLL_enabled. destruct r. exact En.
  - intros k Hk. rewrite (Hpin (Datatypes.S k)) by (cbn [length]; lia).
    reflexivity.
Qed.

(** X11: what [send] sends on one device, [recv] receives on another.
    Device A has a Transmitter, in any state, and device B an enabled
    Receiver outside a message, with an empty window and a clock among
    [starts]; the ramp constants pass the lock check.  A payload of 1 to
    PAYLOAD_MAX bytes that fits MESSAGE_MAX is sent on A: [send] returns
    true, and the interrupt handler of A then drives its pin for 48 ticks
    per symbol.  Let the pin of B follow the pin of A for these ticks and
    then be silent for at least one bit period.  After the interrupt
    handler of B has run for as many ticks, [recv] on B returns true and
    delivers the payload, cut to the caller's capacity. *)
Theorem sent_message_is_received (locked starts : list clock) (fuel : nat)
  (pin_wait pin_a : nat -> bool) (lvl : bool) (device_a : System)
  (x : Transmitter.t) (r0 : Receiver.t) (bp : list Z) (n : nat) :
  lock_check_ locked starts = true ->
  transmitter device_a = Some x ->
  tx_bytes x ->
  12304 <= Z.of_nat fuel ->
  Forall is_byte bp ->
  (1 <= length bp)%nat ->
  Z.of_nat (length bp) <= PAYLOAD_MAX ->
  8 + 2 * (PAYLOAD_MAX + 3) < 256 ->
  8 + 2 * (Z.of_nat (length bp) + 3)
    <= Z.of_nat (length (Transmitter.m_buffer x)) ->
  Receiver.m_enabled r0 = true ->
  In (clock_of r0) starts ->
  Receiver.m_bits r0 = 0 ->
  Receiver.m_active r0 = false ->
  Z.of_nat (length bp) + 3 <= MESSAGE_MAX ->
  (length bp + 3 <= length (Receiver.m_buffer r0))%nat ->
  (1 <= n)%nat ->
  exists (armed_a : System) (evs : list Event) (r : Receiver.t),
    send_ fuel pin_wait device_a bp (Z.of_nat (length bp))
      = Some (true, armed_a, evs)
    /\ (let on_air :=
          wire lvl
            (snd (ISR_ticks_ (48 * (8 + 2 * (length bp + 3))) pin_a
                    armed_a))
          ++ repeat false (8 * n) in
        receiver
          (fst (ISR_ticks_ (length on_air) (fun k => nth k on_air false)
                  (mk_System None (Some r0))))
        = Some r)
    /\ (forall (buf : list Z) (cap : Z), 0 <= cap ->
          let k := Z.min cap (Z.of_nat (length bp)) in
          Receiver.recv_ret (Receiver.recv r buf cap) = true
          /\ Receiver.recv_len (Receiver.recv r buf cap) = k
          /\ Receiver.recv_buf (Receiver.recv r buf cap)
             = take (Z.to_nat k) bp ++ drop (Z.to_nat k) buf).
Proof.
  intros Hlock Hx Hbytes Hfuel Hb Hlen Hpay Hfit Hbuf En Hstart Hbits Hact
    Hmax Hbu Hn.
  destruct (send_result RAMP_MAX RAMP_TRANSITION RAMP_INC_RETARD
              RAMP_INC_ADVANCE MESSAGE_MAX PAYLOAD_MAX fuel pin_wait
              device_a x bp Hx Hbytes) as (rx' & evs & E);
    try assumption.
  { intros _. pose proof (tx_ticks_left_bound x Hbytes). lia. }
  set (syms := Transmitter.header ++ flat_map encode_byte (tx_frame bp)).
  assert (Lsyms : length syms = (8 + 2 * (length bp + 3))%nat).
  { unfold syms. rewrite length_app, tx_frame_symbols_length. reflexivity. }
  set (post := drop (8 + 2 * (length bp + 3)) (Transmitter.m_buffer x)) in *.
  set (mc := if Transmitter.m_enabled x
             then wrap8 (Transmitter.m_msg_count x + 1)
             else Transmitter.m_msg_count x) in *.
  destruct (tx_symbols RAMP_MAX RAMP_TRANSITION RAMP_INC_RETARD
              RAMP_INC_ADVANCE MESSAGE_MAX rx'
              (Z.of_nat (8 + 2 * (length bp + 3))) mc post syms [] pin_a lvl)
    as [_ W].
  { lia. }
  { cbn [length]. lia. }
  rewrite Lsyms in W. cbn [app length] in W. change (Z.of_nat 0) with 0 in W.
  unfold syms in W at 1. rewrite <- app_assoc in W. fold post in W.
  destruct r0 as [en sa la ra ig bi ac bc le co bu dn gd bd].
  cbn [Receiver.m_bits Receiver.m_active Receiver.m_buffer
       Receiver.m_enabled clock_of Receiver.m_last_sample
       Receiver.m_pll_ramp Receiver.m_integrator] in *.
  subst bi ac en.
  destruct (frame_reception RAMP_MAX RAMP_TRANSITION RAMP_INC_RETARD
              RAMP_INC_ADVANCE MESSAGE_MAX locked starts bp n true sa la ra
              ig bc le co bu dn gd bd Hlock Hstart Hb Hlen Hmax
              ltac:(lia) Hbu Hn) as (v & c & w & R & _).
  fold syms in R.
  eexists. exists evs. eexists.
  split; [exact E |]. split.
  - cbv zeta. rewrite W.
    rewrite (ISR_listen (air syms ++ repeat false (8 * n)));
      [| reflexivity | intros; reflexivity].
    cbn [receiver]. rewrite R. reflexivity.
  - intros buf cap Hcap. apply recv_of_frame; [lia | exact Hcap].
Qed.

End RoundTrip.

Lemma sent_message_is_received_witness :
  exists (armed_a : System) (evs : list Event) (r : Receiver.t),
    send 160 80 11 29 30 27 (Z.to_nat 12304) (fun _ => false)
      (mk_System (Some tx_busy) None) [1; 2; 3] 3
      = Some (true, armed_a, evs)
    /\ (let on_air :=
          wire false
            (snd (ISR_ticks 160 80 11 29 30 (48 * 20) (fun _ => false)
                    armed_a))
          ++ repeat false 8 in
        receiver
          (fst (ISR_ticks 160 80 11 29 30 (length on_air)
                  (fun k => nth k on_air false)
                  (mk_System None (Some rx_idle))))
        = Some r)
    /\ Receiver.recv_ret (Receiver.recv r (repeat 0 10) 10) = true
    /\ Receiver.recv_buf (Receiver.recv r (repeat 0 10) 10)
       = [1; 2; 3] ++ repeat 0 7.
Proof.
  destruct (sent_message_is_received 160 80 11 29 30 27 locked_clocks
              idle_clocks (Z.to_nat 12304) (fun _ => false)
              (fun _ => false) false (mk_System (Some tx_busy) None)
              tx_busy rx_idle [1; 2; 3] 1 lock_check_standard eq_refl)
    as (armed_a & evs & r & A & B & C).
  - unfold tx_bytes, is_byte. cbn. lia.
  - lia.
  - unfold is_byte. repeat constructor; lia.
  - cbn; lia.
  - cbn; lia.
  - lia.
  - by_evaluation.
  - reflexivity.
  - left; reflexivity.
  - reflexivity.
  - reflexivity.
  - cbn; lia.
  - cbn; lia.
  - lia.
  - exists armed_a, evs, r. split; [exact A |]. split; [exact B |].
    destruct (C (repeat 0 10) 10 ltac:(lia)) as (C1 & _ & C3).
    split; [exact C1 | rewrite C3; reflexivity].
Defined.

(** ** The window after the symbols of a byte *)

Lemma shift6_table :
  forallb (fun w => forallb (fun s =>
      let w' := fold_left (fun w b => shift1 b w)
                  (map (Z.testbit s) [0; 1; 2; 3; 4; 5]) w in
      (w' =? Z.lor (Z.shiftr w 6) (Z.shiftl s 6))
      && (0 <=? w') && (w' <? 4096) && (Z.shiftr w' 6 =? s)) symbols)
    (map Z.of_nat (seq 0 4096)) = true.
Proof. vm_compute. reflexivity. Qed.

Lemma shift6 (w s : Z) :
  0 <= w < 4096 -> In s symbols ->
  let w' := fold_left (fun w b => shift1 b w)
              (map (Z.testbit s) [0; 1; 2; 3; 4; 5]) w in
  w' = Z.lor (Z.shiftr w 6) (Z.shiftl s 6)
  /\ 0 <= w' < 4096 /\ Z.shiftr w' 6 = s.
Proof.
  intros Hw Hs. pose proof shift6_table as T.
  rewrite forallb_forall in T.
  assert (I : In w (map Z.of_nat (seq 0 4096))).
  { replace w with (Z.of_nat (Z.to_nat w)) by lia.
    apply in_map, in_seq. lia. }
  specialize (T w I). rewrite forallb_forall in T. specialize (T s Hs).
  cbv zeta in T |- *. rewrite !andb_true_iff in T.
  destruct T as (((T1 & T2) & T3) & T4).
  apply Z.eqb_eq in T1, T4. apply Z.leb_le in T2. apply Z.ltb_lt in T3.
  auto.
Qed.

Lemma symbol_of_nibble (n : Z) : 0 <= n < 16 -> In (rd symbols n) symbols.
Proof.
  intros H. unfold rd. apply nth_In. change (length symbols) with 16%nat.
  lia.
Qed.

(** X12: the codec round trip through the window.  Whatever 12 bits the
    window holds, once the 12 bits of the two symbols of a byte have been
    shifted in (high nybble first, each symbol least significant bit
    first, as the Transmitter sends them), the window holds exactly these
    two symbols and the Receiver decodes the byte from it. *)
Theorem window_decodes_sent_byte (w b : Z) :
  0 <= w < 2 ^ 12 ->
  is_byte b ->
  let w' := fold_left (fun w bit => shift1 bit w)
              (sym_bits (encode_byte b)) w in
  w' = win b /\ Receiver.decode_byte w' = b.
Proof.
  intros Hw Hb. cbv zeta.
  assert (Hhi : 0 <= Z.shiftr b 4 < 16).
  { unfold is_byte in Hb. rewrite Z.shiftr_div_pow2 by lia. split.
    - apply Z.div_pos; lia.
    - apply Z.div_lt_upper_bound; lia. }
  assert (Hlo : 0 <= Z.land b 15 < 16).
  { change 15 with (Z.ones 4). rewrite Z.land_ones by lia.
    apply Z.mod_pos_bound. lia. }
  unfold encode_byte, sym_bits. cbn [flat_map]. rewrite app_nil_r.
  rewrite fold_left_app.
  destruct (shift6 w (rd symbols (Z.shiftr b 4)) ltac:(simpl in Hw; lia)
              (symbol_of_nibble _ Hhi)) as (E1 & R1 & S1).
  cbv zeta in E1, R1, S1.
  set (w1 := fold_left _ (map (Z.testbit (rd symbols (Z.shiftr b 4))) _) w)
    in *.
  destruct (shift6 w1 (rd symbols (Z.land b 15)) R1
              (symbol_of_nibble _ Hlo)) as (E2 & _ & _).
  cbv zeta in E2. rewrite E2, S1.
  split; [reflexivity |].
  apply (win_facts 0xb38 b); [left; reflexivity | exact Hb].
Qed.

Lemma window_decodes_sent_byte_witness :
  Receiver.decode_byte
    (fold_left (fun w bit => shift1 bit w) (sym_bits (encode_byte 0xa7))
       0xfff) = 0xa7.
Proof.
  apply (window_decodes_sent_byte 0xfff 0xa7).
  - simpl. lia.
  - unfold is_byte. lia.
Defined.

(** ** The line code is balanced *)

Lemma air_app (a b : list Z) : air (a ++ b) = air a ++ air b.
Proof. unfold air. apply flat_map_app. Qed.

Lemma balance_table :
  forallb (fun b =>
      (count_occ Bool.bool_dec (air (encode_byte b)) true =? 48)%nat
      && (count_occ Bool.bool_dec (air (encode_byte b)) false =? 48)%nat)
    bytes256 = true.
Proof. vm_compute. reflexivity. Qed.

Lemma balance_bytes (bytes : list Z) :
  Forall is_byte bytes ->
  count_occ Bool.bool_dec (air (flat_map encode_byte bytes)) true
  = (48 * length bytes)%nat
  /\ count_occ Bool.bool_dec (air (flat_map encode_byte bytes)) false
     = (48 * length bytes)%nat.
Proof.
  induction 1 as [| b bytes Hb _ [IH1 IH0]]; [split; reflexivity |].
  cbn [flat_map length]. rewrite air_app, !count_occ_app, IH1, IH0.
  pose proof balance_table as T. rewrite forallb_forall in T.
  specialize (T b (in_bytes256 b Hb)). rewrite andb_true_iff in T.
  destruct T as [T1 T0]. apply Nat.eqb_eq in T1, T0.
  rewrite T1, T0. split; lia.
Qed.

(** X13: the line code is balanced.  On the air a message is high for
    exactly as many ticks as it is low, whatever the payload: the header
    and the symbols of count, payload and checksum hold the pin high for
    24 ticks per symbol and low for as many. *)
Theorem message_is_dc_balanced (bp : list Z) :
  Forall is_byte bp ->
  let levels :=
    air (Transmitter.header ++ flat_map encode_byte (tx_frame bp)) in
  count_occ Bool.bool_dec levels true
  = (24 * (8 + 2 * (length bp + 3)))%nat
  /\ count_occ Bool.bool_dec levels false
     = (24 * (8 + 2 * (length bp + 3)))%nat.
Proof.
  intros Hb. cbv zeta. rewrite air_app, !count_occ_app.
  destruct (balance_bytes (tx_frame bp) (tx_frame_bytes bp Hb)) as [B1 B0].
  rewrite B1, B0.
  assert (L : length (tx_frame bp) = (length bp + 3)%nat).
  { unfold tx_frame. cbn [length]. rewrite length_app. cbn [length]. lia. }
  rewrite L.
  change (count_occ Bool.bool_dec (air Transmitter.header) true)
    with 192%nat.
  change (count_occ Bool.bool_dec (air Transmitter.header) false)
    with 192%nat.
  split; lia.
Qed.

Lemma message_is_dc_balanced_witness :
  count_occ Bool.bool_dec
    (air (Transmitter.header ++ flat_map encode_byte (tx_frame [1; 2; 3])))
    true = 480%nat.
Proof.
  apply (message_is_dc_balanced [1; 2; 3]).
  unfold is_byte. repeat constructor; lia.
Defined.

(** ** Timer set-up *)

Section BeginFacts.

Variable ulticks_of : Z -> Z -> Z.
Variables WGM12 OCIE1A : Z.

Lemma timer_loop_index (speed max_ticks : Z) (n : nat) :
  forall (i u p t : Z),
  timer_loop ulticks_of speed max_ticks i u n = (p, t) ->
  i <= p <= i + Z.of_nat n.
Proof.
  induction n as [| n IH]; intros i u p t E; cbn [timer_loop] in E.
  - injection E as <- <-. lia.
  - destruct (_ && _).
    + injection E as <- <-. lia.
    + apply IH in E. lia.
Qed.

(** The index that [_timer_calc] returns is 0 for an error and otherwise
    one of 1..5 or 7, with a tick count from 2 to max_ticks. *)
Lemma timer_calc_range (speed max_ticks p n : Z) :
  0 <= max_ticks < 65536 ->
  _timer_calc ulticks_of speed max_ticks = (p, n) ->
  (p = 0 /\ n = 0)
  \/ (speed <> 0 /\ 1 <= p <= 7 /\ p <> 6 /\ 2 <= n <= max_ticks).
Proof.
  intros Hmax E. unfold _timer_calc in E.
  destruct (Z.eqb_spec speed 0) as [-> | Hs].
  { injection E as <- <-. left. auto. }
  destruct (timer_loop ulticks_of speed max_ticks 1 0 6) as [q t] eqn:L.
  apply timer_loop_index in L.
  destruct (Z.eqb_spec q 6); cbn [orb] in E;
    [injection E as <- <-; left; auto |].
  destruct (Z.ltb_spec t 2); cbn [orb] in E;
    [injection E as <- <-; left; auto |].
  destruct (Z.gtb_spec t max_ticks); cbn [orb] in E;
    [injection E as <- <-; left; auto |].
  injection E as <- <-. right. rewrite wrap16_small by lia.
  repeat split; try assumption; lia.
Qed.

Lemma clock_select (w p : Z) :
  3 <= w <= 7 -> 1 <= p <= 7 ->
  wrap8 (Z.lor (Z.shiftl 1 w) p) = Z.lor (Z.shiftl 1 w) p
  /\ Z.land (Z.lor (Z.shiftl 1 w) p) 7 = p
  /\ Z.testbit (Z.lor (Z.shiftl 1 w) p) w = true.
Proof.
  intros Hw Hp.
  assert (W : w = 3 \/ w = 4 \/ w = 5 \/ w = 6 \/ w = 7) by lia.
  assert (P : p = 1 \/ p = 2 \/ p = 3 \/ p = 4 \/ p = 5 \/ p = 6 \/ p = 7)
    by lia.
  destruct W as [-> | [-> | [-> | [-> | ->]]]];
    destruct P as [-> | [-> | [-> | [-> | [-> | [-> | ->]]]]]];
    repeat split; reflexivity.
Qed.

(** X14: what [begin] does to the timer.  The sleep mode is set whatever
    happens.  With speed 0, or whenever the timer calculator reports an
    error, [begin] returns false and writes no timer register.  When it
    returns true, TCCR1A is 0, TCCR1B has WGM12 set and the index found
    by the timer calculator in its three clock-select bits (WGM12 lies
    above them), that index is one of 1..5 or 7, OCR1A holds the tick
    count, which is at least 2 and at most 65535, and TIMSK1 has OCIE1A
    set in addition to what it held. *)
Theorem begin_programs_timer (speed mode : Z) (hw : VWI.timer) :
  3 <= WGM12 <= 7 ->
  let out := VWI.begin ulticks_of WGM12 OCIE1A speed mode hw in
  let p := fst (_timer_calc ulticks_of speed 0xffff) in
  VWI.s_mode (snd out) = mode
  /\ (speed = 0 -> fst out = false)
  /\ (fst out = false <-> p = 0)
  /\ (fst out = false ->
        VWI.TCCR1A (snd out) = VWI.TCCR1A hw
        /\ VWI.TCCR1B (snd out) = VWI.TCCR1B hw
        /\ VWI.OCR1A (snd out) = VWI.OCR1A hw
        /\ VWI.TIMSK1 (snd out) = VWI.TIMSK1 hw)
  /\ (fst out = true ->
        VWI.TCCR1A (snd out) = 0
        /\ Z.land (VWI.TCCR1B (snd out)) 7 = p
        /\ Z.testbit (VWI.TCCR1B (snd out)) WGM12 = true
        /\ 1 <= p <= 7 /\ p <> 6
        /\ VWI.OCR1A (snd out) = snd (_timer_calc ulticks_of speed 0xffff)
        /\ 2 <= VWI.OCR1A (snd out) <= 65535
        /\ VWI.TIMSK1 (snd out)
           = wrap8 (Z.lor (VWI.TIMSK1 hw) (VWI._BV OCIE1A))).
Proof.
  intros Hw. cbv zeta. unfold VWI.begin.
  destruct (_timer_calc ulticks_of speed 65535) as [p n] eqn:E.
  pose proof (timer_calc_range speed 65535 p n ltac:(lia) E) as R.
  cbn [fst snd VWI.s_mode VWI.TCCR1A VWI.TCCR1B VWI.OCR1A VWI.TIMSK1].
  destruct (Z.eqb_spec p 0) as [-> | Hp];
    cbn [fst snd VWI.s_mode VWI.TCCR1A VWI.TCCR1B VWI.OCR1A VWI.TIMSK1].
  - split; [reflexivity |]. split; [reflexivity |].
    split; [tauto |]. split; [auto |]. discriminate.
  - destruct R as [[-> _] | (Hs & Hr & H6 & Hn)]; [congruence |].
    destruct (clock_select WGM12 p Hw Hr) as (C1 & C2 & C3).
    change (VWI._BV WGM12) with (Z.shiftl 1 WGM12). rewrite !C1.
    split; [reflexivity |]. split; [congruence |].
    split; [split; [discriminate | congruence] |].
    split; [discriminate |]. intros _.
    repeat split; try assumption; try reflexivity; lia.
Qed.

End BeginFacts.

Lemma begin_programs_timer_witness :
  let out := VWI.begin (exact_ticks 16000000) 3 1 2000 0
               (VWI.mk_timer 7 255 255 0 0) in
  fst out = true
  /\ Z.land (VWI.TCCR1B (snd out)) 7 = 1
  /\ VWI.OCR1A (snd out) = 1000.
Proof.
  pose proof (begin_programs_timer (exact_ticks 16000000) 3 1 2000 0
                (VWI.mk_timer 7 255 255 0 0) ltac:(lia)) as T.
  cbv zeta in T |- *.
  destruct T as (_ & _ & _ & _ & T).
  assert (F : fst (VWI.begin (exact_ticks 16000000) 3 1 2000 0
                     (VWI.mk_timer 7 255 255 0 0)) = true)
    by (vm_compute; reflexivity).
  destruct (T F) as (_ & C & _ & _ & _ & O & _).
  split; [exact F |]. split.
  - rewrite C. vm_compute. reflexivity.
  - rewrite O. vm_compute. reflexivity.
Defined.

(** ** Silence *)

Section Silence.

Variables RAMP_MAX RAMP_TRANSITION RAMP_INC_RETARD RAMP_INC_ADVANCE : Z.
Variable MESSAGE_MAX : Z.

Local Abbreviation run_ :=
  (run RAMP_MAX RAMP_TRANSITION RAMP_INC_RETARD RAMP_INC_ADVANCE
     MESSAGE_MAX).
Local Abbreviation clock_tick_ :=
  (clock_tick RAMP_MAX RAMP_TRANSITION RAMP_INC_RETARD RAMP_INC_ADVANCE).
Local Abbreviation clock_run_ :=
  (clock_run RAMP_MAX RAMP_TRANSITION RAMP_INC_RETARD RAMP_INC_ADVANCE).

(** With the integrator at 0, a tick of silence leaves it there, and the
    bit it decides, if any, is 0. *)
Lemma clock_tick_silence (la : bool) (ra : Z) :
  exists la' ra' k,
    clock_tick_ (la, ra, 0) false = ((la', ra', 0), repeat false k).
Proof.
  unfold clock_tick, probe, Receiver.PLL_sample. rx_fields. cbv zeta.
  destruct la; rx_fields; cbn [Bool.eqb negb]; rx_fields;
    try destruct (ra <? RAMP_TRANSITION); rx_fields;
    match goal with
    | |- context [?a >=? RAMP_MAX] => destruct (a >=? RAMP_MAX)
    end;
    unfold Receiver.PLL_vote, clock_of; rx_fields;
    change (0 >=? 5) with false; cbv iota; rx_fields;
    try change (Z.testbit (Z.shiftr 0 1) 11) with false;
    (do 2 eexists; first [exists 1%nat; reflexivity
                         | exists 0%nat; reflexivity]).
Qed.

Lemma clock_run_silence (n : nat) : forall (la : bool) (ra : Z),
  exists la' ra' k,
    clock_run_ (repeat false n) (la, ra, 0) = ((la', ra', 0), repeat false k).
Proof.
  induction n as [| n IH]; intros la ra.
  - exists la, ra, 0%nat. reflexivity.
  - cbn [repeat clock_run].
    destruct (clock_tick_silence la ra) as (la1 & ra1 & k1 & E).
    rewrite E. destruct (IH la1 ra1) as (la2 & ra2 & k2 & E2). rewrite E2.
    exists la2, ra2, (k1 + k2)%nat. rewrite repeat_app. reflexivity.
Qed.

Lemma silence_window_range (k : nat) : forall w : Z,
  0 <= w < 2 ^ 12 ->
  0 <= fold_left (fun w b => shift1 b w) (repeat false k) w < 2 ^ 12.
Proof.
  induction k as [| k IH]; intros w Hw; [exact Hw |].
  cbn [repeat fold_left]. apply IH.
  pose proof (window_shift w false Hw) as W. cbv zeta in W.
  destruct W as (W & _). exact W.
Qed.

(** X15: silence is ignored.  A Receiver outside a message, with the
    integrator at 0 and a window of 12 bits, can listen to silence for any
    number of ticks: it never starts a message, and the done flag, the
    buffer, the length, the count and both counters stay as they are.
    This holds for all values of the ramp constants. *)
Theorem silence_is_ignored (n : nat) (r0 : Receiver.t) :
  Receiver.m_active r0 = false ->
  Receiver.m_integrator r0 = 0 ->
  0 <= Receiver.m_bits r0 < 2 ^ 12 ->
  let r := run_ (listen (repeat false n)) r0 in
  Receiver.m_active r = false
  /\ Receiver.m_done r = Receiver.m_done r0
  /\ Receiver.m_buffer r = Receiver.m_buffer r0
  /\ Receiver.m_length r = Receiver.m_length r0
  /\ Receiver.m_count r = Receiver.m_count r0
  /\ Receiver.m_good r = Receiver.m_good r0
  /\ Receiver.m_bad r = Receiver.m_bad r0
  /\ Receiver.m_integrator r = 0
  /\ 0 <= Receiver.m_bits r < 2 ^ 12.
Proof.
  intros Hact Hint Hbits r.
  destruct (run_listen RAMP_MAX RAMP_TRANSITION RAMP_INC_RETARD
              RAMP_INC_ADVANCE MESSAGE_MAX (repeat false n) r0) as [v R].
  subst r. rewrite R. clear R.
  destruct r0 as [en sa la ra ig bi ac bc le co bu dn gd bd].
  unfold clock_of.
  cbn [Receiver.m_active Receiver.m_integrator Receiver.m_bits
       Receiver.m_last_sample Receiver.m_pll_ramp] in *.
  subst ac ig.
  destruct (clock_run_silence n la ra) as (la' & ra' & k & E).
  rewrite E. cbn [fst snd].
  rewrite rx_bits_quiet by (apply quiet_silence, Hbits).
  unfold with_clock. rx_unfold.
  do 8 (split; [reflexivity |]).
  apply silence_window_range, Hbits.
Qed.

End Silence.

Lemma silence_is_ignored_witness :
  Receiver.m_active (run 160 80 11 29 30 (listen (repeat false 100)) rx_idle)
  = false
  /\ Receiver.m_done (run 160 80 11 29 30 (listen (repeat false 100)) rx_idle)
     = false.
Proof.
  pose proof (silence_is_ignored 160 80 11 29 30 100 rx_idle eq_refl eq_refl
                ltac:(by_evaluation)) as T.
  cbv zeta in T. destruct T as (A & D & _).
  split; [exact A | exact D].
Defined.

(** ** An error on the air *)

Lemma shift6_any_table :
  forallb (fun w => forallb (fun s =>
      let w' := fold_left (fun w b => shift1 b w)
                  (map (Z.testbit s) [0; 1; 2; 3; 4; 5]) w in
      (w' =? Z.lor (Z.shiftr w 6) (Z.shiftl s 6))
      && (0 <=? w') && (w' <? 4096) && (Z.shiftr w' 6 =? s))
             (map Z.of_nat (seq 0 64)))
    (map Z.of_nat (seq 0 4096)) = true.
Proof. vm_compute. reflexivity. Qed.

Lemma shift6_any (w s : Z) :
  0 <= w < 4096 -> 0 <= s < 64 ->
  let w' := fold_left (fun w b => shift1 b w)
              (map (Z.testbit s) [0; 1; 2; 3; 4; 5]) w in
  w' = Z.lor (Z.shiftr w 6) (Z.shiftl s 6)
  /\ 0 <= w' < 4096 /\ Z.shiftr w' 6 = s.
Proof.
  intros Hw Hs. pose proof shift6_any_table as T.
  rewrite forallb_forall in T.
  assert (I : forall n z, 0 <= z < Z.of_nat n ->
                In z (map Z.of_nat (seq 0 n))).
  { intros n z Hz. replace z with (Z.of_nat (Z.to_nat z)) by lia.
    apply in_map, in_seq. lia. }
  specialize (T w (I 4096%nat w ltac:(lia))).
  rewrite forallb_forall in T. specialize (T s (I 64%nat s ltac:(lia))).
  cbv zeta in T |- *. rewrite !andb_true_iff in T.
  destruct T as (((T1 & T2) & T3) & T4).
  apply Z.eqb_eq in T1, T4. apply Z.leb_le in T2. apply Z.ltb_lt in T3.
  auto.
Qed.

(** The window after the 12 bits of a pair holds the pair. *)
Lemma shift_pair (w : Z) (p : Z * Z) :
  0 <= w < 4096 -> is_pair p ->
  let w' := fold_left (fun w b => shift1 b w) (sym_bits (pair_syms [p])) w in
  w' = Z.lor (fst p) (Z.shiftl (snd p) 6) /\ 0 <= w' < 4096.
Proof.
  intros Hw [H1 H2]. cbv zeta.
  unfold pair_syms, sym_bits. cbn [flat_map app]. rewrite app_nil_r.
  rewrite fold_left_app.
  destruct (shift6_any w (fst p) Hw H1) as (E1 & R1 & S1).
  cbv zeta in E1, R1, S1.
  set (w1 := fold_left _ (map (Z.testbit (fst p)) _) w) in *.
  destruct (shift6_any w1 (snd p) R1 H2) as (E2 & R2 & _).
  cbv zeta in E2, R2. split; [| exact R2]. rewrite E2, S1. reflexivity.
Qed.

Lemma byte_pair_facts (b : Z) :
  is_byte b ->
  is_pair (byte_pair b) /\ pair_byte (byte_pair b) = b
  /\ pair_syms [byte_pair b] = encode_byte b.
Proof.
  intros Hb. split; [| split].
  - assert (T : forallb (fun s => (0 <=? s) && (s <? 64)) symbols = true)
      by (vm_compute; reflexivity).
    rewrite forallb_forall in T.
    assert (Hhi : 0 <= Z.shiftr b 4 < 16).
    { unfold is_byte in Hb. rewrite Z.shiftr_div_pow2 by lia. split.
      - apply Z.div_pos; lia.
      - apply Z.div_lt_upper_bound; lia. }
    assert (Hlo : 0 <= Z.land b 15 < 16).
    { change 15 with (Z.ones 4). rewrite Z.land_ones by lia.
      apply Z.mod_pos_bound. lia. }
    pose proof (T _ (symbol_of_nibble _ Hhi)) as T1.
    pose proof (T _ (symbol_of_nibble _ Hlo)) as T2.
    rewrite andb_true_iff in T1, T2.
    unfold is_pair, byte_pair. cbn [fst snd]. lia.
  - apply (win_facts 0xb38 b); [left; reflexivity | exact Hb].
  - reflexivity.
Qed.

Lemma pair_syms_bytes (bytes : list Z) :
  pair_syms (map byte_pair bytes) = flat_map encode_byte bytes.
Proof.
  induction bytes as [| b bytes IH]; [reflexivity |].
  cbn [map]. unfold pair_syms in *. cbn [flat_map]. rewrite IH.
  reflexivity.
Qed.

Section OnAirError.

Variables RAMP_MAX RAMP_TRANSITION RAMP_INC_RETARD RAMP_INC_ADVANCE : Z.
Variable MESSAGE_MAX : Z.

Local Abbreviation run_ :=
  (run RAMP_MAX RAMP_TRANSITION RAMP_INC_RETARD RAMP_INC_ADVANCE
     MESSAGE_MAX).
Local Abbreviation rx_bits_ := (rx_bits MESSAGE_MAX).
Local Abbreviation lock_check_ :=
  (lock_check RAMP_MAX RAMP_TRANSITION RAMP_INC_RETARD RAMP_INC_ADVANCE).

(** A pair of 6-bit values taken into a message after the count byte. *)
Lemma rx_pair_stored (p : Z * Z) (w : Z) (en sa la : bool) (ra ig : Z)
  (le co : Z) (bu : list Z) (dn : bool) (gd bd : Z) :
  0 <= w < 4096 -> is_pair p -> 0 < le < 255 ->
  exists w', 0 <= w' < 4096 /\
  rx_bits_ (sym_bits (pair_syms [p]))
    (Receiver.mk en sa la ra ig w true 0 le co bu dn gd bd)
  = if le + 1 >=? co
    then Receiver.mk en sa la ra ig w' false 0 (le + 1) co
           (wr bu le (pair_byte p)) true (wrap8 (gd + 1)) bd
    else Receiver.mk en sa la ra ig w' true 0 (le + 1) co
           (wr bu le (pair_byte p)) dn gd bd.
Proof.
  intros Hw Hp Hr. destruct (shift_pair w p Hw Hp) as [E R].
  cbv zeta in E, R.
  exists (Z.lor (fst p) (Z.shiftl (snd p) 6)).
  split; [rewrite <- E; exact R |].
  rewrite rx_bits_12 by reflexivity. rewrite E.
  unfold Receiver.PLL_frame, Receiver.PLL_store, pair_byte. rx_unfold.
  change (wrap8 (11 + 1) >=? 12) with true. cbv iota.
  destruct (Z.eqb_spec le 0); [lia |].
  rewrite (wrap8_small (le + 1)) by lia.
  destruct (le + 1 >=? co); reflexivity.
Qed.

Lemma pair_syms_cons (p : Z * Z) (ps : list (Z * Z)) :
  pair_syms (p :: ps) = pair_syms [p] ++ pair_syms ps.
Proof. unfold pair_syms. cbn [flat_map app]. reflexivity. Qed.

(** The pairs of a message after the count byte: the bytes decoded from
    them are stored one after the other, the last completing the
    message. *)
Lemma rx_pairs_stored (ps : list (Z * Z)) : forall (old pre post : list Z)
  (w : Z) (en sa la : bool) (ra ig : Z) (co : Z) (dn : bool) (gd bd : Z),
  ps <> [] ->
  length old = length ps ->
  Forall is_pair ps ->
  (0 < length pre)%nat ->
  Z.of_nat (length pre) + Z.of_nat (length ps) = co ->
  co <= 255 ->
  0 <= w < 4096 ->
  exists w', 0 <= w' < 4096 /\
  rx_bits_ (sym_bits (pair_syms ps))
    (Receiver.mk en sa la ra ig w true 0 (Z.of_nat (length pre)) co
       (pre ++ old ++ post) dn gd bd)
  = Receiver.mk en sa la ra ig w' false 0 co co
      (pre ++ map pair_byte ps ++ post) true (wrap8 (gd + 1)) bd.
Proof.
  induction ps as [| p ps IH];
    intros old pre post w en sa la ra ig co dn gd bd Hne Hlen Hp Hpre Hco
      Hmax Hw; [congruence |].
  destruct old as [| o old]; [discriminate |].
  inversion Hp as [| ? ? Hp1 Hp2]; subst.
  rewrite pair_syms_cons, sym_bits_app, rx_bits_app.
  cbn [length] in Hlen, Hmax |- *.
  destruct (rx_pair_stored p w en sa la ra ig (Z.of_nat (length pre))
              (Z.of_nat (length pre)
               + Z.of_nat (Datatypes.S (length ps)))
              (pre ++ (o :: old) ++ post) dn gd bd Hw Hp1 ltac:(lia))
    as (w1 & Hw1 & E).
  rewrite E. clear E.
  change ((o :: old) ++ post) with (o :: old ++ post).
  rewrite wr_middle.
  destruct ps as [| p' ps].
  - destruct old; [| discriminate]. cbn [length] in *.
    destruct (Z.geb_spec (Z.of_nat (length pre) + 1)
                (Z.of_nat (length pre) + Z.of_nat 1)); [| lia].
    exists w1. split; [exact Hw1 |].
    cbn [pair_syms flat_map sym_bits rx_bits fold_left map app].
    replace (Z.of_nat (length pre) + Z.of_nat 1)
      with (Z.of_nat (length pre) + 1) by lia.
    reflexivity.
  - destruct (Z.geb_spec (Z.of_nat (length pre) + 1)
                (Z.of_nat (length pre)
                 + Z.of_nat (Datatypes.S (length (p' :: ps)))));
      [cbn [length] in *; lia |].
    replace (Z.of_nat (length pre) + 1)
      with (Z.of_nat (length (pre ++ [pair_byte p])))
      by (rewrite length_app; cbn [length]; lia).
    change (pre ++ pair_byte p :: old ++ post)
      with (pre ++ [pair_byte p] ++ old ++ post).
    rewrite (app_assoc pre [pair_byte p]).
    destruct (IH old (pre ++ [pair_byte p]) post w1 en sa la ra ig
                (Z.of_nat (length pre)
                 + Z.of_nat (Datatypes.S (length (p' :: ps))))
                dn gd bd) as (w2 & Hw2 & E2);
      try assumption; try discriminate.
    + cbn [length] in *. lia.
    + rewrite length_app. cbn [length]. lia.
    + rewrite length_app. cbn [length] in *. lia.
    + exists w2. split; [exact Hw2 |]. rewrite E2.
      cbn [map]. rewrite <- (app_assoc pre [pair_byte p]). reflexivity.
Qed.

Lemma map_insert_pair (ps : list (Z * Z)) : forall (j : nat) (p : Z * Z),
  map pair_byte (<[j:=p]> ps) = <[j:=pair_byte p]> (map pair_byte ps).
Proof.
  induction ps as [| q ps IH]; intros j p; [reflexivity |].
  destruct j as [| j]; [reflexivity |]. cbn. f_equal. apply IH.
Qed.

Lemma map_pair_bytes (bytes : list Z) :
  Forall is_byte bytes ->
  map pair_byte (map byte_pair bytes) = bytes
  /\ Forall is_pair (map byte_pair bytes).
Proof.
  induction 1 as [| b bytes Hb _ [IH1 IH2]]; [split; constructor |].
  destruct (byte_pair_facts b Hb) as (P & E & _).
  cbn [map]. rewrite E, IH1. split; [reflexivity |].
  constructor; assumption.
Qed.

Lemma insert_same (l : list Z) : forall j : nat,
  <[j:=nth j l 0]> l = l.
Proof.
  induction l as [| x l IH]; intros j; [reflexivity |].
  destruct j as [| j]; [reflexivity |]. cbn. f_equal. apply IH.
Qed.

(** X16: an error on the air does not get through.  Let a message reach
    the Receiver as in X8 but with the two symbols of one byte after the
    count byte (a payload or checksum byte) replaced by any two 6-bit
    values.  The message is still framed and done: the buffer holds the
    frame with the byte decoded from the damaged pair in the place of the
    byte sent.  If that byte is the byte sent, [recv] returns true and
    delivers the payload; if not, [recv] returns false.  So whenever
    [recv] returns true, the payload delivered is the payload sent. *)
Theorem air_error_is_caught (locked starts : list clock) (r0 : Receiver.t)
  (bp : list Z) (j : nat) (p : Z * Z) (n : nat) :
  lock_check_ locked starts = true ->
  In (clock_of r0) starts ->
  Receiver.m_bits r0 = 0 ->
  Receiver.m_active r0 = false ->
  Forall is_byte bp ->
  (1 <= length bp)%nat ->
  Z.of_nat (length bp) + 3 <= MESSAGE_MAX ->
  Z.of_nat (length bp) + 3 <= 255 ->
  (length bp + 3 <= length (Receiver.m_buffer r0))%nat ->
  (1 <= n)%nat ->
  (j < length bp + 2)%nat ->
  is_pair p ->
  let count := hd 0 (tx_frame bp) in
  let rest := tl (tx_frame bp) in
  let syms :=
    encode_byte count ++ pair_syms (<[j:=p]> (map byte_pair rest)) in
  let r :=
    run_ (listen (air (Transmitter.header ++ syms)
                  ++ repeat false (8 * n))) r0 in
  Receiver.m_done r = true
  /\ Receiver.m_buffer r
     = (count :: <[j:=pair_byte p]> rest)
       ++ drop (length bp + 3) (Receiver.m_buffer r0)
  /\ (forall (buf : list Z) (cap : Z), 0 <= cap ->
        let k := Z.min cap (Z.of_nat (length bp)) in
        (pair_byte p <> nth j rest 0 ->
           Receiver.recv_ret (Receiver.recv r buf cap) = false)
        /\ (Receiver.recv_ret (Receiver.recv r buf cap) = true ->
              pair_byte p = nth j rest 0
              /\ Receiver.recv_len (Receiver.recv r buf cap) = k
              /\ Receiver.recv_buf (Receiver.recv r buf cap)
                 = take (Z.to_nat k) bp ++ drop (Z.to_nat k) buf)).
Proof.
  intros Hlock Hstart Hbits Hact Hb Hlen Hmax H255 Hbu Hn Hj Hp
    count rest syms r.
  destruct r0 as [en sa la ra ig bi ac bc le co bu dn gd bd].
  cbn [Receiver.m_bits Receiver.m_active Receiver.m_buffer clock_of
       Receiver.m_last_sample Receiver.m_pll_ramp Receiver.m_integrator]
    in *.
  subst bi ac.
  pose proof (tx_frame_bytes bp Hb) as Hf.
  assert (Ec : count = Z.of_nat (length bp) + 3).
  { unfold count, tx_frame. cbn [hd]. apply wrap8_small. lia. }
  assert (Ef : tx_frame bp = count :: rest) by reflexivity.
  assert (Lr : length rest = (length bp + 2)%nat).
  { unfold rest, tx_frame. cbn [tl]. rewrite length_app. cbn [length]. lia. }
  rewrite Ef in Hf. inversion Hf as [| ? ? Hc Hrest]; subst.
  destruct (map_pair_bytes rest Hrest) as [Mb Mp].
  assert (R : exists v la' ra' ig' w,
            r = Receiver.mk en v la' ra' ig' w false 0 count count
                  ((count :: <[j:=pair_byte p]> rest)
                   ++ drop (length bp + 3) bu)
                  true (wrap8 (gd + 1)) bd).
  { destruct (listen_header RAMP_MAX RAMP_TRANSITION RAMP_INC_RETARD
                RAMP_INC_ADVANCE MESSAGE_MAX locked starts syms n
                en sa la ra ig bc le co bu dn gd bd Hlock Hstart Hn)
      as (v & [[la' ra'] ig'] & m & R & _).
    subst r. rewrite R. clear R.
    unfold syms. rewrite rx_bits_app, sym_bits_app, rx_bits_app.
    rewrite rx_count_taken; [| left; reflexivity | exact Hc | lia].
    replace (length bp + 3)%nat with (Datatypes.S (length bp + 2)) in *
      by lia.
    destruct (take_drop_split bu (length bp + 2) ltac:(lia))
      as (o & old & Ebu & Lold).
    set (post := drop (Datatypes.S (length bp + 2)) bu) in *.
    clearbody post. subst bu.
    change (wr (o :: old ++ ?post) 0 count)
      with (wr ([] ++ o :: old ++ post) (Z.of_nat (length (@nil Z))) count).
    rewrite wr_middle.
    change ([] ++ count :: old ++ ?post) with ([count] ++ old ++ post).
    change 1 with (Z.of_nat (length [count])) at 1.
    destruct (rx_pairs_stored (<[j:=p]> (map byte_pair rest)) old [count]
                post (win count) en sa la ra ig count false gd bd)
      as (w' & Hw' & E).
    - intros E. apply (f_equal length) in E.
      rewrite length_insert, length_map, Lr in E. cbn [length] in E. lia.
    - rewrite length_insert, length_map. lia.
    - apply Forall_insert; assumption.
    - cbn [length]. lia.
    - rewrite length_insert, length_map, Lr. cbn [length]. lia.
    - lia.
    - apply (win_facts 0xb38 count); [left; reflexivity | exact Hc].
    - rewrite E. clear E.
      rewrite rx_bits_quiet by (apply quiet_silence; simpl; lia).
      rewrite map_insert_pair, Mb.
      unfold with_clock. rx_unfold.
      exists v, la', ra', ig'. eexists. reflexivity. }
  destruct R as (v & la' & ra' & ig' & w & R).
  rewrite R. clear R. clearbody r. clear r.
  set (post := drop (length bp + 3) bu). clearbody post.
  rx_unfold.
  split; [reflexivity |]. split; [reflexivity |].
  intros buf cap Hcap.
  destruct (Z.eq_dec (pair_byte p) (nth j rest 0)) as [Eq | Ne].
  - split; [congruence |]. intros _. split; [exact Eq |].
    rewrite Eq, insert_same, <- Ef.
    pose proof (recv_of_frame v (la', ra', ig') en v la' ra' ig' w
                  (wrap8 (gd + 1)) bd bp post buf cap H255 Hcap) as T.
    cbv zeta in T. unfold with_clock in T. rewrite <- Ec in T.
    revert T. rx_unfold. tauto.
  - assert (F : Receiver.recv_ret
                  (Receiver.recv
                     (Receiver.mk en v la' ra' ig' w false 0 count count
                        ((count :: <[j:=pair_byte p]> rest) ++ post)
                        true (wrap8 (gd + 1)) bd) buf cap) = false).
    { rewrite recv_when_done; rx_unfold; [| reflexivity | lia | lia].
      cbn [Receiver.recv_ret]. apply Z.eqb_neq.
      replace (count :: <[j:=pair_byte p]> rest)
        with (wr (count :: rest) (Z.of_nat (Datatypes.S j)) (pair_byte p))
        by (unfold wr; rewrite Nat2Z.id; reflexivity).
      set (damaged := wr (count :: rest) (Z.of_nat (Datatypes.S j))
                        (pair_byte p)).
      assert (L : Z.of_nat (length damaged) = count).
      { unfold damaged, wr. rewrite length_insert. cbn [length]. lia. }
      rewrite <- L, CRC_prefix, L.
      pose proof (CRC_tx_frame bp) as G. rewrite Ef in G.
      rewrite <- G, <- Ec. unfold CRC, damaged.
      apply CRC_loop_change.
      - constructor; assumption.
      - cbn [length]. lia.
      - lia.
      - apply decode_byte_range.
      - unfold rd. rewrite Nat2Z.id. exact Ne.
      - lia. }
    split; [intros _; exact F |].
    rewrite F. discriminate.
Qed.

End OnAirError.

Lemma air_error_is_caught_witness :
  let count := hd 0 (tx_frame [1; 2; 3]) in
  let rest := tl (tx_frame [1; 2; 3]) in
  let syms :=
    encode_byte count
    ++ pair_syms (<[1%nat:=(0x0d, 0x0e)]> (map byte_pair rest)) in
  let r :=
    run 160 80 11 29 30
      (listen (air (Transmitter.header ++ syms) ++ repeat false (8 * 1)))
      rx_idle in
  Receiver.m_done r = true
  /\ Receiver.recv_ret (Receiver.recv r (repeat 0 10) 10) = false.
Proof.
  pose proof (air_error_is_caught 160 80 11 29 30 locked_clocks idle_clocks
                rx_idle [1; 2; 3] 1 (0x0d, 0x0e) 1 lock_check_standard
                ltac:(left; reflexivity) eq_refl eq_refl
                ltac:(unfold is_byte; repeat constructor; lia)
                ltac:(cbn; lia) ltac:(cbn; lia) ltac:(cbn; lia)
                ltac:(cbn; lia) ltac:(lia) ltac:(cbn; lia)
                ltac:(unfold is_pair; cbn; lia)) as T.
  cbv zeta in T |- *.
  destruct T as (D & _ & R).
  destruct (R (repeat 0 10) 10 ltac:(lia)) as (R1 & _).
  split; [exact D |]. apply R1. vm_compute. discriminate.
Defined.
